(** * Congestion control core of the QUIC sender: CUBIC/Reno and Hysteria

    A shallow embedding of [internal/congestion/cubic.go],
    [internal/congestion/cubic_sender.go] and
    [internal/congestion/hysteria.go], and the properties of the
    controllers proved over it.

    Conventions.
    - Go's [int64] types ([protocol.ByteCount], [protocol.PacketNumber],
      [time.Duration], [monotime.Time], and [int] on a 64-bit target) are
      [Z] values; every arithmetic operation writes its two's-complement
      wrap-around out with [wrap64].  [uint64] and [uint32] wrap with
      [wrapU64] and [wrapU32].
    - [float64] and [float32] are the IEEE 754 binary64 and binary32 formats
      of [SpecFloat], rounding to nearest even as Go does.
    - A method that can panic returns [option]; [None] is the panic.
    - A pointer field is modelled by the value it points to; what the rest of
      the stack does to a shared object is a step of its own in a run. *)

From Stdlib Require Import ZArith Lia Bool List.
From Stdlib Require Import QArith Qpower Lqa.
From Stdlib Require Import Floats.SpecFloat.
Import ListNotations.
Open Scope Z_scope.

(** ** Go integers *)

Definition wrap64 (z : Z) : Z := (z + 2 ^ 63) mod 2 ^ 64 - 2 ^ 63.
Definition wrapU64 (z : Z) : Z := z mod 2 ^ 64.
Definition wrapU32 (z : Z) : Z := z mod 2 ^ 32.

Definition MinInt64 : Z := - 2 ^ 63.
Definition MaxInt64 : Z := 2 ^ 63 - 1.

Definition int64_range (z : Z) : Prop := MinInt64 <= z <= MaxInt64.

Definition add64 (a b : Z) : Z := wrap64 (a + b).
Definition sub64 (a b : Z) : Z := wrap64 (a - b).
Definition mul64 (a b : Z) : Z := wrap64 (a * b).
Definition neg64 (a : Z) : Z := wrap64 (- a).
(** [a / b] and [a % b] on signed integers truncate towards zero; the caller
    checks [b] against zero where Go would panic. *)
Definition quot64 (a b : Z) : Z := wrap64 (Z.quot a b).
Definition rem64 (a b : Z) : Z := Z.rem a b.
(** [a << n] and the arithmetic [a >> n]. *)
Definition shl64 (a n : Z) : Z := wrap64 (Z.shiftl a n).
Definition shr64 (a n : Z) : Z := Z.shiftr a n.

(** The option monad of panicking code. *)
Definition bind {A B : Type} (m : option A) (k : A -> option B) : option B :=
  match m with
  | Some a => k a
  | None => None
  end.

Notation "x <- m ;; k" := (bind m (fun x => k))
  (at level 61, m at next level, right associativity).

(** ** Go floating point *)

Definition f64 := spec_float.
Definition f32 := spec_float.

(** [float64(z)] and [float32(z)] of an integer. *)
Definition f64_of_Z (z : Z) : f64 := binary_normalize 53 1024 z 0 false.
Definition f32_of_Z (z : Z) : f32 := binary_normalize 24 128 z 0 false.

Definition f64_add : f64 -> f64 -> f64 := SFadd 53 1024.
Definition f64_mul : f64 -> f64 -> f64 := SFmul 53 1024.
Definition f64_div : f64 -> f64 -> f64 := SFdiv 53 1024.
Definition f32_add : f32 -> f32 -> f32 := SFadd 24 128.
Definition f32_sub : f32 -> f32 -> f32 := SFsub 24 128.
Definition f32_mul : f32 -> f32 -> f32 := SFmul 24 128.
Definition f32_div : f32 -> f32 -> f32 := SFdiv 24 128.

(** A decimal constant [num/den] of the source, rounded once to the format:
    Go evaluates constants exactly and rounds at the conversion. *)
Definition f64_const (num den : Z) : f64 := f64_div (f64_of_Z num) (f64_of_Z den).
Definition f32_const (num den : Z) : f32 := f32_div (f32_of_Z num) (f32_of_Z den).

(** The integer part of a float (truncation towards zero), when it has one. *)
Definition SFtrunc (f : spec_float) : option Z :=
  match f with
  | S754_zero _ => Some 0
  | S754_finite s m e =>
      Some (cond_Zopp s (if 0 <=? e then Zpos m * 2 ^ e else Zpos m / 2 ^ (- e)))
  | S754_infinity _ | S754_nan => None
  end.

(** [int64(f)].  Go leaves the result implementation-dependent when the
    value does not fit; this is the amd64 result ([0x8000000000000000]). *)
Definition float_to_int64 (f : spec_float) : Z :=
  match SFtrunc f with
  | Some z => if (MinInt64 <=? z) && (z <=? MaxInt64) then z else MinInt64
  | None => MinInt64
  end.

(** ** Durations and instants ([time.Duration], [monotime.Time]) in nanoseconds *)

Definition Microsecond : Z := 1000.
Definition Millisecond : Z := 1000 * Microsecond.
Definition Second : Z := 1000 * Millisecond.
Definition Hour : Z := 3600 * Second.

(** [d.Seconds()] of the Go library:
    [float64(d / Second) + float64(d % Second) / 1e9]. *)
Definition Seconds (d : Z) : f64 :=
  f64_add (f64_of_Z (quot64 d Second))
          (f64_div (f64_of_Z (rem64 d Second)) (f64_of_Z 1000000000)).

(** Modelled from the spec: [internal/monotime] is not among the sources; an
    instant is a monotonic nanosecond count, and the zero instant means
    "unset". *)
Definition Time_Add (t d : Z) : Z := add64 t d.
Definition Time_Sub (t u : Z) : Z := sub64 t u.
Definition Time_After (t u : Z) : bool := u <? t.
Definition Time_Before (t u : Z) : bool := t <? u.
Definition Time_IsZero (t : Z) : bool := t =? 0.

(** ** The collaborators a controller reads *)

(** The RTT oracle ([utils.RTTStats]): three durations, zero meaning "no
    sample yet". *)
Record RTTStats := mkRTT {
  SmoothedRTT : Z;
  LatestRTT : Z;
  MinRTT : Z
}.

(** The connection counters ([utils.ConnectionStats]) the CUBIC sender
    touches; each is an atomic [uint64]. *)
Record ConnectionStats := mkStats {
  BytesSent : Z;
  BytesLost : Z;
  PacketsLost : Z
}.

(** What the sources take from packages that are not among them.  The
    constants of [internal/protocol] are parameters of the development;
    [quic_go_protocol] below holds the values quic-go declares and is used for
    concrete runs only. *)
Class Protocol := {
  InitialPacketSize : Z;
  MaxCongestionWindowPackets : Z;
  MaxByteCount : Z;
  InvalidPacketNumber : Z
}.

Definition quic_go_protocol : Protocol :=
  {| InitialPacketSize := 1280;
     MaxCongestionWindowPackets := 10000;
     MaxByteCount := 2 ^ 62 - 1;
     InvalidPacketNumber := -1 |}.

(** [math.Cbrt], the one library function [SpecFloat] does not define. *)
Class MathLib := { Cbrt : f64 -> f64 }.

(** The hybrid slow-start state and the pacer are fields of the CUBIC sender
    whose own files are not among the sources: the sender is verified against
    their interface, whatever their implementation. *)
Class HybridSlowStartOps (H : Type) := {
  hss_new : H;
  hss_OnPacketSent : Z -> H -> H;
  hss_OnPacketAcked : Z -> H -> H;
  hss_ShouldExitSlowStart : Z -> Z -> Z -> H -> bool * H;
  hss_Restart : H -> H
}.

Class PacerOps (P : Type) := {
  newPacer : P;
  pacer_SentPacket : Z -> Z -> P -> P;
  pacer_SetMaxDatagramSize : Z -> P -> P
}.

(** The states the sender reports to the observability sink ([qlog]). *)
Inductive CongestionState :=
| CongestionStateSlowStart
| CongestionStateCongestionAvoidance
| CongestionStateRecovery
| CongestionStateApplicationLimited.

Definition CongestionState_eqb (a b : CongestionState) : bool :=
  match a, b with
  | CongestionStateSlowStart, CongestionStateSlowStart
  | CongestionStateCongestionAvoidance, CongestionStateCongestionAvoidance
  | CongestionStateRecovery, CongestionStateRecovery
  | CongestionStateApplicationLimited, CongestionStateApplicationLimited => true
  | _, _ => false
  end.

(** ** The CUBIC curve ([cubic.go]) *)

Module Cubic.
Section Curve.
Context {proto : Protocol} {math : MathLib}.

Definition cubeScale : Z := 40.
Definition cubeCongestionWindowScale : Z := 410.
Definition maxDatagramSize : Z := InitialPacketSize.
Definition cubeFactor : Z :=
  Z.quot (Z.quot (Z.shiftl 1 cubeScale) cubeCongestionWindowScale) maxDatagramSize.

Definition defaultNumConnections : Z := 1.
Definition const_beta : f32 := f32_const 7 10.
Definition const_betaLastMax : f32 := f32_const 85 100.

Record Cubic := mk {
  numConnections : Z;
  epoch : Z;
  lastMaxCongestionWindow : Z;
  ackedBytesCount : Z;
  estimatedTCPcongestionWindow : Z;
  originPointCongestionWindow : Z;
  timeToOriginPoint : Z;
  lastTargetCongestionWindow : Z
}.

Definition Reset (c : Cubic) : Cubic :=
  mk (numConnections c) 0 0 0 0 0 0 0.

Definition NewCubic : Cubic :=
  Reset (mk defaultNumConnections 0 0 0 0 0 0 0).

Definition beta (c : Cubic) : f32 :=
  let n := f32_of_Z (numConnections c) in
  f32_div (f32_add (f32_sub n (f32_of_Z 1)) const_beta) n.

Definition alpha (c : Cubic) : f32 :=
  let b := beta c in
  let n := f32_of_Z (numConnections c) in
  f32_div
    (f32_mul (f32_mul (f32_mul (f32_of_Z 3) n) n) (f32_sub (f32_of_Z 1) b))
    (f32_add (f32_of_Z 1) b).

Definition betaLastMax (c : Cubic) : f32 :=
  let n := f32_of_Z (numConnections c) in
  f32_div (f32_add (f32_sub n (f32_of_Z 1)) const_betaLastMax) n.

Definition OnApplicationLimited (c : Cubic) : Cubic :=
  mk (numConnections c) 0 (lastMaxCongestionWindow c) (ackedBytesCount c)
     (estimatedTCPcongestionWindow c) (originPointCongestionWindow c)
     (timeToOriginPoint c) (lastTargetCongestionWindow c).

Definition CongestionWindowAfterPacketLoss (currentCongestionWindow : Z) (c : Cubic)
  : Cubic * Z :=
  let lastMax :=
    if add64 currentCongestionWindow maxDatagramSize <? lastMaxCongestionWindow c
    then float_to_int64 (f32_mul (betaLastMax c) (f32_of_Z currentCongestionWindow))
    else currentCongestionWindow in
  (mk (numConnections c) 0 lastMax (ackedBytesCount c)
      (estimatedTCPcongestionWindow c) (originPointCongestionWindow c)
      (timeToOriginPoint c) (lastTargetCongestionWindow c),
   float_to_int64 (f32_mul (f32_of_Z currentCongestionWindow) (beta c))).

(** [uint32(f)] of a [float64], through the 64-bit conversion. *)
Definition float_to_uint32 (f : f64) : Z := wrapU32 (float_to_int64 f).

Definition CongestionWindowAfterAck
    (ackedBytes currentCongestionWindow delayMin eventTime : Z) (c : Cubic)
  : Cubic * Z :=
  let acked := add64 (ackedBytesCount c) ackedBytes in
  (* the epoch starts here when it is unset *)
  let '(epoch1, acked, estimated, origin, tto) :=
    if Time_IsZero (epoch c) then
      if lastMaxCongestionWindow c <=? currentCongestionWindow then
        (eventTime, ackedBytes, currentCongestionWindow, currentCongestionWindow, 0)
      else
        (eventTime, ackedBytes, currentCongestionWindow, lastMaxCongestionWindow c,
         float_to_uint32
           (Cbrt (f64_of_Z
                    (mul64 cubeFactor
                       (sub64 (lastMaxCongestionWindow c) currentCongestionWindow)))))
    else
      (epoch c, acked, estimatedTCPcongestionWindow c,
       originPointCongestionWindow c, timeToOriginPoint c) in
  let elapsedTime :=
    quot64
      (shl64 (quot64 (Time_Sub (Time_Add eventTime delayMin) epoch1) Microsecond) 10)
      (1000 * 1000) in
  let offset := sub64 tto elapsedTime in
  let offset := if offset <? 0 then neg64 offset else offset in
  let deltaCongestionWindow :=
    shr64
      (mul64
         (mul64 (mul64 (mul64 cubeCongestionWindowScale offset) offset) offset)
         maxDatagramSize)
      cubeScale in
  let targetCongestionWindow :=
    if tto <? elapsedTime then add64 origin deltaCongestionWindow
    else sub64 origin deltaCongestionWindow in
  let targetCongestionWindow :=
    Z.min targetCongestionWindow
          (add64 currentCongestionWindow (quot64 acked 2)) in
  let estimated :=
    add64 estimated
      (float_to_int64
         (f32_div
            (f32_mul (f32_mul (f32_of_Z acked) (alpha c)) (f32_of_Z maxDatagramSize))
            (f32_of_Z estimated))) in
  (mk (numConnections c) epoch1 (lastMaxCongestionWindow c) 0 estimated origin tto
      targetCongestionWindow,
   if targetCongestionWindow <? estimated then estimated else targetCongestionWindow).

Definition SetNumConnections (n : Z) (c : Cubic) : Cubic :=
  mk n (epoch c) (lastMaxCongestionWindow c) (ackedBytesCount c)
     (estimatedTCPcongestionWindow c) (originPointCongestionWindow c)
     (timeToOriginPoint c) (lastTargetCongestionWindow c).

End Curve.
End Cubic.

(** ** The CUBIC sender ([cubic_sender.go]) *)

Module CubicSender.
Section Sender.
Context {proto : Protocol} {math : MathLib}.
Context {H : Type} {hss : HybridSlowStartOps H}.
Context {P : Type} {pacerOps : PacerOps P}.

Definition maxBurstPackets : Z := 3.
Definition renoBeta : f64 := f64_const 7 10.
Definition minCongestionWindowPackets : Z := 2.
Definition initialCongestionWindow_packets : Z := 32.
Definition minBandwidthLimit : Z := 5 * 1024 * 1024.
Definition lossToleranceThreshold : f64 := f64_const 10 100.

(** The struct, field for field; [rttStats] and [connStats] are the objects
    the two pointers lead to, [qlogger] is [None] for a nil recorder and
    otherwise the events recorded so far, oldest first.  [lastState] is [None]
    until a state was reported.  The [clock] field is never read by the
    sender and is left out. *)
Record cubicSender := mk {
  hybridSlowStart : H;
  rttStats : RTTStats;
  connStats : ConnectionStats;
  cubic : Cubic.Cubic;
  pacer : P;
  reno : bool;
  largestSentPacketNumber : Z;
  largestAckedPacketNumber : Z;
  largestSentAtLastCutback : Z;
  lastCutbackExitedSlowstart : bool;
  congestionWindow : Z;
  slowStartThreshold : Z;
  numAckedPackets : Z;
  initialCongestionWindow : Z;
  initialMaxCongestionWindow : Z;
  maxDatagramSize : Z;
  lastState : option CongestionState;
  qlogger : option (list CongestionState)
}.

Definition set_hybridSlowStart (v : H) (c : cubicSender) : cubicSender :=
  mk v (rttStats c) (connStats c) (cubic c) (pacer c) (reno c)
     (largestSentPacketNumber c) (largestAckedPacketNumber c)
     (largestSentAtLastCutback c) (lastCutbackExitedSlowstart c)
     (congestionWindow c) (slowStartThreshold c) (numAckedPackets c)
     (initialCongestionWindow c) (initialMaxCongestionWindow c)
     (maxDatagramSize c) (lastState c) (qlogger c).
Definition set_rttStats (v : RTTStats) (c : cubicSender) : cubicSender :=
  mk (hybridSlowStart c) v (connStats c) (cubic c) (pacer c) (reno c)
     (largestSentPacketNumber c) (largestAckedPacketNumber c)
     (largestSentAtLastCutback c) (lastCutbackExitedSlowstart c)
     (congestionWindow c) (slowStartThreshold c) (numAckedPackets c)
     (initialCongestionWindow c) (initialMaxCongestionWindow c)
     (maxDatagramSize c) (lastState c) (qlogger c).
Definition set_connStats (v : ConnectionStats) (c : cubicSender) : cubicSender :=
  mk (hybridSlowStart c) (rttStats c) v (cubic c) (pacer c) (reno c)
     (largestSentPacketNumber c) (largestAckedPacketNumber c)
     (largestSentAtLastCutback c) (lastCutbackExitedSlowstart c)
     (congestionWindow c) (slowStartThreshold c) (numAckedPackets c)
     (initialCongestionWindow c) (initialMaxCongestionWindow c)
     (maxDatagramSize c) (lastState c) (qlogger c).
Definition set_cubic (v : Cubic.Cubic) (c : cubicSender) : cubicSender :=
  mk (hybridSlowStart c) (rttStats c) (connStats c) v (pacer c) (reno c)
     (largestSentPacketNumber c) (largestAckedPacketNumber c)
     (largestSentAtLastCutback c) (lastCutbackExitedSlowstart c)
     (congestionWindow c) (slowStartThreshold c) (numAckedPackets c)
     (initialCongestionWindow c) (initialMaxCongestionWindow c)
     (maxDatagramSize c) (lastState c) (qlogger c).
Definition set_pacer (v : P) (c : cubicSender) : cubicSender :=
  mk (hybridSlowStart c) (rttStats c) (connStats c) (cubic c) v (reno c)
     (largestSentPacketNumber c) (largestAckedPacketNumber c)
     (largestSentAtLastCutback c) (lastCutbackExitedSlowstart c)
     (congestionWindow c) (slowStartThreshold c) (numAckedPackets c)
     (initialCongestionWindow c) (initialMaxCongestionWindow c)
     (maxDatagramSize c) (lastState c) (qlogger c).
Definition set_largestSentPacketNumber (v : Z) (c : cubicSender) : cubicSender :=
  mk (hybridSlowStart c) (rttStats c) (connStats c) (cubic c) (pacer c) (reno c)
     v (largestAckedPacketNumber c)
     (largestSentAtLastCutback c) (lastCutbackExitedSlowstart c)
     (congestionWindow c) (slowStartThreshold c) (numAckedPackets c)
     (initialCongestionWindow c) (initialMaxCongestionWindow c)
     (maxDatagramSize c) (lastState c) (qlogger c).
Definition set_largestAckedPacketNumber (v : Z) (c : cubicSender) : cubicSender :=
  mk (hybridSlowStart c) (rttStats c) (connStats c) (cubic c) (pacer c) (reno c)
     (largestSentPacketNumber c) v
     (largestSentAtLastCutback c) (lastCutbackExitedSlowstart c)
     (congestionWindow c) (slowStartThreshold c) (numAckedPackets c)
     (initialCongestionWindow c) (initialMaxCongestionWindow c)
     (maxDatagramSize c) (lastState c) (qlogger c).
Definition set_largestSentAtLastCutback (v : Z) (c : cubicSender) : cubicSender :=
  mk (hybridSlowStart c) (rttStats c) (connStats c) (cubic c) (pacer c) (reno c)
     (largestSentPacketNumber c) (largestAckedPacketNumber c)
     v (lastCutbackExitedSlowstart c)
     (congestionWindow c) (slowStartThreshold c) (numAckedPackets c)
     (initialCongestionWindow c) (initialMaxCongestionWindow c)
     (maxDatagramSize c) (lastState c) (qlogger c).
Definition set_lastCutbackExitedSlowstart (v : bool) (c : cubicSender) : cubicSender :=
  mk (hybridSlowStart c) (rttStats c) (connStats c) (cubic c) (pacer c) (reno c)
     (largestSentPacketNumber c) (largestAckedPacketNumber c)
     (largestSentAtLastCutback c) v
     (congestionWindow c) (slowStartThreshold c) (numAckedPackets c)
     (initialCongestionWindow c) (initialMaxCongestionWindow c)
     (maxDatagramSize c) (lastState c) (qlogger c).
Definition set_congestionWindow (v : Z) (c : cubicSender) : cubicSender :=
  mk (hybridSlowStart c) (rttStats c) (connStats c) (cubic c) (pacer c) (reno c)
     (largestSentPacketNumber c) (largestAckedPacketNumber c)
     (largestSentAtLastCutback c) (lastCutbackExitedSlowstart c)
     v (slowStartThreshold c) (numAckedPackets c)
     (initialCongestionWindow c) (initialMaxCongestionWindow c)
     (maxDatagramSize c) (lastState c) (qlogger c).
Definition set_slowStartThreshold (v : Z) (c : cubicSender) : cubicSender :=
  mk (hybridSlowStart c) (rttStats c) (connStats c) (cubic c) (pacer c) (reno c)
     (largestSentPacketNumber c) (largestAckedPacketNumber c)
     (largestSentAtLastCutback c) (lastCutbackExitedSlowstart c)
     (congestionWindow c) v (numAckedPackets c)
     (initialCongestionWindow c) (initialMaxCongestionWindow c)
     (maxDatagramSize c) (lastState c) (qlogger c).
Definition set_numAckedPackets (v : Z) (c : cubicSender) : cubicSender :=
  mk (hybridSlowStart c) (rttStats c) (connStats c) (cubic c) (pacer c) (reno c)
     (largestSentPacketNumber c) (largestAckedPacketNumber c)
     (largestSentAtLastCutback c) (lastCutbackExitedSlowstart c)
     (congestionWindow c) (slowStartThreshold c) v
     (initialCongestionWindow c) (initialMaxCongestionWindow c)
     (maxDatagramSize c) (lastState c) (qlogger c).
Definition set_maxDatagramSize (v : Z) (c : cubicSender) : cubicSender :=
  mk (hybridSlowStart c) (rttStats c) (connStats c) (cubic c) (pacer c) (reno c)
     (largestSentPacketNumber c) (largestAckedPacketNumber c)
     (largestSentAtLastCutback c) (lastCutbackExitedSlowstart c)
     (congestionWindow c) (slowStartThreshold c) (numAckedPackets c)
     (initialCongestionWindow c) (initialMaxCongestionWindow c)
     v (lastState c) (qlogger c).
Definition set_qlog (st : option CongestionState) (q : option (list CongestionState))
    (c : cubicSender) : cubicSender :=
  mk (hybridSlowStart c) (rttStats c) (connStats c) (cubic c) (pacer c) (reno c)
     (largestSentPacketNumber c) (largestAckedPacketNumber c)
     (largestSentAtLastCutback c) (lastCutbackExitedSlowstart c)
     (congestionWindow c) (slowStartThreshold c) (numAckedPackets c)
     (initialCongestionWindow c) (initialMaxCongestionWindow c)
     (maxDatagramSize c) st q.

Definition newCubicSender (rtt : RTTStats) (stats : ConnectionStats) (reno : bool)
    (initialMaxDatagramSize initialCongestionWindow initialMaxCongestionWindow : Z)
    (qlogger : option (list CongestionState)) : cubicSender :=
  {| hybridSlowStart := hss_new;
     rttStats := rtt;
     connStats := stats;
     cubic := Cubic.NewCubic;
     pacer := newPacer;
     reno := reno;
     largestSentPacketNumber := InvalidPacketNumber;
     largestAckedPacketNumber := InvalidPacketNumber;
     largestSentAtLastCutback := InvalidPacketNumber;
     lastCutbackExitedSlowstart := false;
     congestionWindow := initialCongestionWindow;
     slowStartThreshold := MaxByteCount;
     numAckedPackets := 0;
     initialCongestionWindow := initialCongestionWindow;
     initialMaxCongestionWindow := initialMaxCongestionWindow;
     maxDatagramSize := initialMaxDatagramSize;
     lastState :=
       match qlogger with
       | Some _ => Some CongestionStateSlowStart
       | None => None
       end;
     qlogger :=
       match qlogger with
       | Some log => Some (log ++ [CongestionStateSlowStart])
       | None => None
       end |}.

Definition NewCubicSender (rtt : RTTStats) (stats : ConnectionStats)
    (initialMaxDatagramSize : Z) (reno : bool)
    (qlogger : option (list CongestionState)) : cubicSender :=
  newCubicSender rtt stats reno initialMaxDatagramSize
    (mul64 initialCongestionWindow_packets initialMaxDatagramSize)
    (mul64 MaxCongestionWindowPackets initialMaxDatagramSize)
    qlogger.

Definition maxCongestionWindow (c : cubicSender) : Z :=
  mul64 (maxDatagramSize c) MaxCongestionWindowPackets.
Definition minCongestionWindow (c : cubicSender) : Z :=
  mul64 (maxDatagramSize c) minCongestionWindowPackets.

Definition OnPacketSent (sentTime bytesInFlight packetNumber bytes : Z)
    (isRetransmittable : bool) (c : cubicSender) : cubicSender :=
  let c := set_pacer (pacer_SentPacket sentTime bytes (pacer c)) c in
  if negb isRetransmittable then c
  else
    let c := set_largestSentPacketNumber packetNumber c in
    set_hybridSlowStart (hss_OnPacketSent packetNumber (hybridSlowStart c)) c.

Definition GetCongestionWindow (c : cubicSender) : Z := congestionWindow c.
Definition CanSend (bytesInFlight : Z) (c : cubicSender) : bool :=
  bytesInFlight <? GetCongestionWindow c.
Definition InRecovery (c : cubicSender) : bool :=
  negb (largestAckedPacketNumber c =? InvalidPacketNumber)
  && (largestAckedPacketNumber c <=? largestSentAtLastCutback c).
Definition InSlowStart (c : cubicSender) : bool :=
  GetCongestionWindow c <? slowStartThreshold c.

Definition maybeQlogStateChange (new : CongestionState) (c : cubicSender)
  : cubicSender :=
  match qlogger c with
  | None => c
  | Some log =>
      match lastState c with
      | Some old =>
          if CongestionState_eqb new old then c
          else set_qlog (Some new) (Some (log ++ [new])) c
      | None => set_qlog (Some new) (Some (log ++ [new])) c
      end
  end.

(** The division by [maxDatagramSize] panics on zero; it is reached only once
    [InSlowStart] holds. *)
Definition MaybeExitSlowStart (c : cubicSender) : option cubicSender :=
  if InSlowStart c then
    if maxDatagramSize c =? 0 then None
    else
      let '(exit, h) :=
        hss_ShouldExitSlowStart (LatestRTT (rttStats c)) (MinRTT (rttStats c))
          (quot64 (GetCongestionWindow c) (maxDatagramSize c)) (hybridSlowStart c) in
      let c := set_hybridSlowStart h c in
      if exit then
        Some (maybeQlogStateChange CongestionStateCongestionAvoidance
                (set_slowStartThreshold (congestionWindow c) c))
      else Some c
  else Some c.

Definition isCwndLimited (bytesInFlight : Z) (c : cubicSender) : bool :=
  let congestionWindow := GetCongestionWindow c in
  if congestionWindow <=? bytesInFlight then true
  else
    let availableBytes := sub64 congestionWindow bytesInFlight in
    let slowStartLimited :=
      InSlowStart c && (quot64 congestionWindow 2 <? bytesInFlight) in
    slowStartLimited
    || (availableBytes <=? mul64 maxBurstPackets (maxDatagramSize c)).

Definition maybeIncreaseCwnd (ackedPacketNumber ackedBytes priorInFlight eventTime : Z)
    (c : cubicSender) : option cubicSender :=
  if negb (isCwndLimited priorInFlight c) then
    Some (maybeQlogStateChange CongestionStateApplicationLimited
            (set_cubic (Cubic.OnApplicationLimited (cubic c)) c))
  else if maxCongestionWindow c <=? congestionWindow c then Some c
  else if InSlowStart c then
    Some (maybeQlogStateChange CongestionStateSlowStart
            (set_congestionWindow (add64 (congestionWindow c) (maxDatagramSize c)) c))
  else
    let c := maybeQlogStateChange CongestionStateCongestionAvoidance c in
    if reno c then
      let c := set_numAckedPackets (wrapU64 (numAckedPackets c + 1)) c in
      if maxDatagramSize c =? 0 then None
      else if wrapU64 (quot64 (congestionWindow c) (maxDatagramSize c))
                <=? numAckedPackets c then
        Some (set_numAckedPackets 0
                (set_congestionWindow
                   (add64 (congestionWindow c) (maxDatagramSize c)) c))
      else Some c
    else
      let '(curve, w) :=
        Cubic.CongestionWindowAfterAck ackedBytes (congestionWindow c)
          (MinRTT (rttStats c)) eventTime (cubic c) in
      Some (set_congestionWindow (Z.min (maxCongestionWindow c) w)
              (set_cubic curve c)).

Definition OnPacketAcked (ackedPacketNumber ackedBytes priorInFlight eventTime : Z)
    (c : cubicSender) : option cubicSender :=
  let c :=
    set_largestAckedPacketNumber
      (Z.max ackedPacketNumber (largestAckedPacketNumber c)) c in
  if InRecovery c then Some c
  else
    c <- maybeIncreaseCwnd ackedPacketNumber ackedBytes priorInFlight eventTime c ;;
    if InSlowStart c then
      Some (set_hybridSlowStart
              (hss_OnPacketAcked ackedPacketNumber (hybridSlowStart c)) c)
    else Some c.

(** [float64(totalLost)/float64(totalSent) < lossToleranceThreshold], the
    second half of the tolerance gate. *)
Definition lossRatioBelowTolerance (totalLost totalSent : Z) : bool :=
  SFltb (f64_div (f64_of_Z totalLost) (f64_of_Z totalSent)) lossToleranceThreshold.

Definition applyMinRateProtection (c : cubicSender) : cubicSender :=
  let srtt := SmoothedRTT (rttStats c) in
  let srtt := if srtt <=? 0 then 100 * Millisecond else srtt in
  let minCwnd :=
    float_to_int64
      (f64_div (f64_mul (f64_of_Z minBandwidthLimit) (Seconds srtt)) (f64_of_Z 8)) in
  let absoluteMin := minCongestionWindow c in
  let minCwnd := if minCwnd <? absoluteMin then absoluteMin else minCwnd in
  if congestionWindow c <? minCwnd then set_congestionWindow minCwnd c else c.

Definition OnCongestionEvent (packetNumber lostBytes priorInFlight : Z)
    (c : cubicSender) : cubicSender :=
  let stats := connStats c in
  let stats := mkStats (BytesSent stats) (BytesLost stats)
                       (wrapU64 (PacketsLost stats + 1)) in
  let stats := mkStats (BytesSent stats)
                       (wrapU64 (BytesLost stats + wrapU64 lostBytes))
                       (PacketsLost stats) in
  let c := set_connStats stats c in
  if packetNumber <=? largestSentAtLastCutback c then c
  else
    let totalSent := BytesSent (connStats c) in
    let totalLost := BytesLost (connStats c) in
    if (0 <? totalSent) && lossRatioBelowTolerance totalLost totalSent then c
    else
      let c := set_lastCutbackExitedSlowstart (InSlowStart c) c in
      let c := maybeQlogStateChange CongestionStateRecovery c in
      let c :=
        if reno c then
          set_congestionWindow
            (float_to_int64 (f64_mul (f64_of_Z (congestionWindow c)) renoBeta)) c
        else
          let '(curve, w) :=
            Cubic.CongestionWindowAfterPacketLoss (congestionWindow c) (cubic c) in
          set_congestionWindow w (set_cubic curve c) in
      let c := applyMinRateProtection c in
      let c := set_slowStartThreshold (congestionWindow c) c in
      let c := set_largestSentAtLastCutback (largestSentPacketNumber c) c in
      set_numAckedPackets 0 c.

Definition OnRetransmissionTimeout (packetsRetransmitted : bool) (c : cubicSender)
  : cubicSender :=
  let c := set_largestSentAtLastCutback InvalidPacketNumber c in
  if negb packetsRetransmitted then c
  else
    let c := set_hybridSlowStart (hss_Restart (hybridSlowStart c)) c in
    let c := set_cubic (Cubic.Reset (cubic c)) c in
    let c := set_slowStartThreshold (quot64 (congestionWindow c) 2) c in
    let c := set_congestionWindow (minCongestionWindow c) c in
    applyMinRateProtection c.

Definition OnConnectionMigration (c : cubicSender) : cubicSender :=
  let c := set_hybridSlowStart (hss_Restart (hybridSlowStart c)) c in
  let c := set_largestSentPacketNumber InvalidPacketNumber c in
  let c := set_largestAckedPacketNumber InvalidPacketNumber c in
  let c := set_largestSentAtLastCutback InvalidPacketNumber c in
  let c := set_lastCutbackExitedSlowstart false c in
  let c := set_cubic (Cubic.Reset (cubic c)) c in
  let c := set_numAckedPackets 0 c in
  let c := set_congestionWindow (initialCongestionWindow c) c in
  set_slowStartThreshold (initialMaxCongestionWindow c) c.

(** [None] is the panic on a decreased size. *)
Definition SetMaxDatagramSize (s : Z) (c : cubicSender) : option cubicSender :=
  if s <? maxDatagramSize c then None
  else
    let cwndIsMinCwnd := congestionWindow c =? minCongestionWindow c in
    let c := set_maxDatagramSize s c in
    let c := if cwndIsMinCwnd then set_congestionWindow (minCongestionWindow c) c
             else c in
    Some (set_pacer (pacer_SetMaxDatagramSize s (pacer c)) c).

(** *** Runs: the calls of the send loop, and what the rest of the stack does
    to the two shared objects between them. *)
Inductive call :=
| CallOnPacketSent (sentTime bytesInFlight packetNumber bytes : Z)
    (isRetransmittable : bool)
| CallOnPacketAcked (ackedPacketNumber ackedBytes priorInFlight eventTime : Z)
| CallOnCongestionEvent (packetNumber lostBytes priorInFlight : Z)
| CallOnRetransmissionTimeout (packetsRetransmitted : bool)
| CallOnConnectionMigration
| CallMaybeExitSlowStart
| CallSetMaxDatagramSize (s : Z)
| EnvRTTStats (r : RTTStats)
| EnvConnStats (s : ConnectionStats).

Definition step (k : call) (c : cubicSender) : option cubicSender :=
  match k with
  | CallOnPacketSent t f pn b r => Some (OnPacketSent t f pn b r c)
  | CallOnPacketAcked pn b f t => OnPacketAcked pn b f t c
  | CallOnCongestionEvent pn b f => Some (OnCongestionEvent pn b f c)
  | CallOnRetransmissionTimeout r => Some (OnRetransmissionTimeout r c)
  | CallOnConnectionMigration => Some (OnConnectionMigration c)
  | CallMaybeExitSlowStart => MaybeExitSlowStart c
  | CallSetMaxDatagramSize s => SetMaxDatagramSize s c
  | EnvRTTStats r => Some (set_rttStats r c)
  | EnvConnStats s => Some (set_connStats s c)
  end.

Fixpoint run (ks : list call) (c : cubicSender) : option cubicSender :=
  match ks with
  | [] => Some c
  | k :: ks => c' <- step k c ;; run ks c'
  end.

End Sender.
End CubicSender.

(** ** Hysteria ([hysteria.go]) *)

Module Hysteria.

Definition rttWindowSize : Z := 10.
Definition minStartBps : Z := 1024 * 1024 / 8.

Record hysteriaSender := mk {
  rttStats : RTTStats;
  targetBps : Z;
  currentBps : Z;
  stableBps : Z;
  maxDatagram : Z;
  nextSendTime : Z;
  rttHistory : list Z;
  rttIdx : Z;
  maxRTT : Z;
  rttCount : Z
}.

Definition set_rttStats (r : RTTStats) (h : hysteriaSender) : hysteriaSender :=
  mk r (targetBps h) (currentBps h) (stableBps h) (maxDatagram h)
     (nextSendTime h) (rttHistory h) (rttIdx h) (maxRTT h) (rttCount h).
Definition set_currentBps (v : Z) (h : hysteriaSender) : hysteriaSender :=
  mk (rttStats h) (targetBps h) v (stableBps h) (maxDatagram h)
     (nextSendTime h) (rttHistory h) (rttIdx h) (maxRTT h) (rttCount h).
Definition set_stableBps (v : Z) (h : hysteriaSender) : hysteriaSender :=
  mk (rttStats h) (targetBps h) (currentBps h) v (maxDatagram h)
     (nextSendTime h) (rttHistory h) (rttIdx h) (maxRTT h) (rttCount h).
Definition set_maxDatagram (v : Z) (h : hysteriaSender) : hysteriaSender :=
  mk (rttStats h) (targetBps h) (currentBps h) (stableBps h) v
     (nextSendTime h) (rttHistory h) (rttIdx h) (maxRTT h) (rttCount h).
Definition set_nextSendTime (v : Z) (h : hysteriaSender) : hysteriaSender :=
  mk (rttStats h) (targetBps h) (currentBps h) (stableBps h) (maxDatagram h)
     v (rttHistory h) (rttIdx h) (maxRTT h) (rttCount h).
Definition set_rttHistory (v : list Z) (h : hysteriaSender) : hysteriaSender :=
  mk (rttStats h) (targetBps h) (currentBps h) (stableBps h) (maxDatagram h)
     (nextSendTime h) v (rttIdx h) (maxRTT h) (rttCount h).
Definition set_rttIdx (v : Z) (h : hysteriaSender) : hysteriaSender :=
  mk (rttStats h) (targetBps h) (currentBps h) (stableBps h) (maxDatagram h)
     (nextSendTime h) (rttHistory h) v (maxRTT h) (rttCount h).
Definition set_maxRTT (v : Z) (h : hysteriaSender) : hysteriaSender :=
  mk (rttStats h) (targetBps h) (currentBps h) (stableBps h) (maxDatagram h)
     (nextSendTime h) (rttHistory h) (rttIdx h) v (rttCount h).
Definition set_rttCount (v : Z) (h : hysteriaSender) : hysteriaSender :=
  mk (rttStats h) (targetBps h) (currentBps h) (stableBps h) (maxDatagram h)
     (nextSendTime h) (rttHistory h) (rttIdx h) (maxRTT h) v.

(** [a[i] = v] on a fixed array: [None] is the index-out-of-range panic. *)
Fixpoint array_set (a : list Z) (i : nat) (v : Z) : option (list Z) :=
  match a, i with
  | [], _ => None
  | _ :: t, O => Some (v :: t)
  | x :: t, S j => t' <- array_set t j v ;; Some (x :: t')
  end.

Definition array_store (a : list Z) (i v : Z) : option (list Z) :=
  if i <? 0 then None else array_set a (Z.to_nat i) v.

(** [protocol.ByteCount(float64(b) * num/den)]. *)
Definition scaleBps (b : Z) (factor : f64) : Z :=
  float_to_int64 (f64_mul (f64_of_Z b) factor).

Definition NewHysteriaSender (rtt : RTTStats) (initialMaxDatagramSize mbps now : Z)
  : hysteriaSender :=
  let mbps := if mbps <=? 0 then 10 else mbps in
  let targetBps := quot64 (mul64 (mul64 mbps 1024) 1024) 8 in
  let initialBps :=
    if 100 <? mbps then 100 * 1024 * 1024 / 8
    else scaleBps targetBps (f64_const 6 10) in
  let initialBps := if initialBps <? minStartBps then minStartBps else initialBps in
  {| rttStats := rtt;
     targetBps := targetBps;
     currentBps := initialBps;
     stableBps := initialBps;
     maxDatagram := initialMaxDatagramSize;
     nextSendTime := Time_Add now (neg64 (100 * Millisecond));
     rttHistory := repeat 0 (Z.to_nat rttWindowSize);
     rttIdx := 0;
     maxRTT := 0;
     rttCount := 0 |}.

Definition GetCongestionWindow (h : hysteriaSender) : Z :=
  let rtt := SmoothedRTT (rttStats h) in
  if rtt =? 0 then 1 * 1024 * 1024
  else
    let multiplier :=
      if 180 * Millisecond <=? rtt then f64_const 11 10
      else if 100 * Millisecond <=? rtt then f64_const 13 10
      else f64_const 15 10 in
    let cwnd :=
      float_to_int64
        (f64_mul (f64_mul (f64_of_Z (currentBps h)) (Seconds rtt)) multiplier) in
    let minCwnd := mul64 32 (maxDatagram h) in
    if cwnd <? minCwnd then minCwnd else cwnd.

Definition TimeUntilSend (now bytesInFlight : Z) (h : hysteriaSender) : Z :=
  if GetCongestionWindow h <=? bytesInFlight then Time_Add now Hour
  else if Time_After (nextSendTime h) (Time_Add now Millisecond) then nextSendTime h
  else 0.

Definition HasPacingBudget (now : Z) (h : hysteriaSender) : bool :=
  negb (Time_After (nextSendTime h) (Time_Add now Millisecond)).

Definition CanSend (bytesInFlight : Z) (h : hysteriaSender) : bool :=
  bytesInFlight <? GetCongestionWindow h.

(** [now] is the reading of [monotime.Now()]; the division by [currentBps]
    panics when the rate is zero. *)
Definition OnPacketSent (now : Z) (sentTime bytesInFlight packetNumber bytes : Z)
    (isRetransmittable : bool) (h : hysteriaSender) : option hysteriaSender :=
  if currentBps h =? 0 then None
  else
    let interval := quot64 (mul64 bytes Second) (currentBps h) in
    let h :=
      if Time_Before (nextSendTime h) now
      then set_nextSendTime (Time_Add now interval) h
      else set_nextSendTime (Time_Add (nextSendTime h) interval) h in
    let rtt := LatestRTT (rttStats h) in
    let limitTime := 20 * Millisecond in
    let halfRTT := quot64 rtt 2 in
    let limitTime := if limitTime <? halfRTT then halfRTT else limitTime in
    let limit := Time_Add now limitTime in
    Some (if Time_After (nextSendTime h) limit then set_nextSendTime limit h else h).

Definition updateRTTAndCheckJitter (h : hysteriaSender) : option hysteriaSender :=
  let rtt := LatestRTT (rttStats h) in
  if rtt <=? 0 then Some h
  else
    hist <- array_store (rttHistory h) (rttIdx h) rtt ;;
    let h := set_rttHistory hist h in
    let h := set_rttIdx (rem64 (add64 (rttIdx h) 1) rttWindowSize) h in
    let h := if maxRTT h <? rtt then set_maxRTT rtt h else h in
    let smoothed := SmoothedRTT (rttStats h) in
    if (20 * Millisecond <? smoothed) && (mul64 smoothed 2 <? rtt) then
      let h := set_currentBps (scaleBps (currentBps h) (f64_const 85 100)) h in
      Some (if currentBps h <? minStartBps then set_currentBps minStartBps h else h)
    else Some h.

Definition OnPacketAcked (pn ackedBytes priorInFlight eventTime : Z)
    (h : hysteriaSender) : option hysteriaSender :=
  h <- updateRTTAndCheckJitter h ;;
  let rtt := SmoothedRTT (rttStats h) in
  let growFactor :=
    if 150 * Millisecond <? rtt then f64_const 125 100 else f64_const 11 10 in
  let h := set_rttCount (add64 (rttCount h) 1) h in
  if 4 <=? rttCount h then
    let h := set_rttCount 0 h in
    if currentBps h <? targetBps h then
      let h := set_currentBps (scaleBps (currentBps h) growFactor) h in
      Some (if targetBps h <? currentBps h then set_currentBps (targetBps h) h else h)
    else Some h
  else Some h.

Definition OnCongestionEvent (pn lostBytes priorInFlight : Z)
    (h : hysteriaSender) : hysteriaSender :=
  let rtt := SmoothedRTT (rttStats h) in
  let threshold :=
    if rtt <? 50 * Millisecond then f64_const 10 100
    else if rtt <? 100 * Millisecond then f64_const 15 100
    else if rtt <? 180 * Millisecond then f64_const 20 100
    else f64_const 30 100 in
  let lossRate := f64_div (f64_of_Z lostBytes) (f64_of_Z (add64 priorInFlight 1)) in
  if SFltb threshold lossRate then
    set_rttCount (-2) (set_currentBps (scaleBps (stableBps h) (f64_const 75 100)) h)
  else set_stableBps (currentBps h) h.

Definition OnRetransmissionTimeout (packetsRetransmitted : bool)
    (h : hysteriaSender) : hysteriaSender :=
  set_currentBps minStartBps h.

Definition MaybeExitSlowStart (h : hysteriaSender) : hysteriaSender := h.
Definition SetMaxDatagramSize (s : Z) (h : hysteriaSender) : hysteriaSender :=
  set_maxDatagram s h.
Definition InSlowStart (h : hysteriaSender) : bool := false.
Definition InRecovery (h : hysteriaSender) : bool := false.

End Hysteria.

(** *** Runs of a Hysteria sender *)

Module HysteriaRun.
Import Hysteria.

Inductive call :=
| CallOnPacketSent (now sentTime bytesInFlight packetNumber bytes : Z)
    (isRetransmittable : bool)
| CallOnPacketAcked (pn ackedBytes priorInFlight eventTime : Z)
| CallOnCongestionEvent (pn lostBytes priorInFlight : Z)
| CallOnRetransmissionTimeout (packetsRetransmitted : bool)
| CallMaybeExitSlowStart
| CallSetMaxDatagramSize (s : Z)
| EnvRTTStats (r : RTTStats).

Definition step (k : call) (h : hysteriaSender) : option hysteriaSender :=
  match k with
  | CallOnPacketSent now t f pn b r => OnPacketSent now t f pn b r h
  | CallOnPacketAcked pn b f t => OnPacketAcked pn b f t h
  | CallOnCongestionEvent pn b f => Some (OnCongestionEvent pn b f h)
  | CallOnRetransmissionTimeout r => Some (OnRetransmissionTimeout r h)
  | CallMaybeExitSlowStart => Some (MaybeExitSlowStart h)
  | CallSetMaxDatagramSize s => Some (SetMaxDatagramSize s h)
  | EnvRTTStats r => Some (set_rttStats r h)
  end.

Fixpoint run (ks : list call) (h : hysteriaSender) : option hysteriaSender :=
  match ks with
  | [] => Some h
  | k :: ks => h' <- step k h ;; run ks h'
  end.

(** A sender is reachable when a run of calls leads to it from the
    constructor, called with a bandwidth whose byte rate fits [int64]
    ([mbps < 2^43]). *)
Definition reachable (h : hysteriaSender) : Prop :=
  exists rtt mds mbps now ks,
    MinInt64 <= mbps < 2 ^ 43 /\
    run ks (NewHysteriaSender rtt mds mbps now) = Some h.

End HysteriaRun.

(** ** Collaborators for concrete runs

    The free implementations of the two interfaces: the state of the hybrid
    slow-start (of the pacer) is the list of calls it received, latest first.
    [ShouldExitSlowStart] answers [false]. *)

Inductive hss_event :=
| HssOnPacketSent (packetNumber : Z)
| HssOnPacketAcked (packetNumber : Z)
| HssShouldExitSlowStart (latestRTT minRTT congestionWindow : Z)
| HssRestart.

Definition hss_trace : HybridSlowStartOps (list hss_event) :=
  {| hss_new := [];
     hss_OnPacketSent pn h := HssOnPacketSent pn :: h;
     hss_OnPacketAcked pn h := HssOnPacketAcked pn :: h;
     hss_ShouldExitSlowStart l m w h := (false, HssShouldExitSlowStart l m w :: h);
     hss_Restart h := HssRestart :: h |}.

Inductive pacer_event :=
| PacerSentPacket (sentTime bytes : Z)
| PacerSetMaxDatagramSize (s : Z).

Definition pacer_trace : PacerOps (list pacer_event) :=
  {| newPacer := [];
     pacer_SentPacket t b p := PacerSentPacket t b :: p;
     pacer_SetMaxDatagramSize s p := PacerSetMaxDatagramSize s :: p |}.

(** The integer cube root, by bits from the top; [cbrt_floor] stands in for
    [math.Cbrt] in concrete runs (the curve converts its result to [uint32]
    at once). *)
Fixpoint icbrt_bits (n : nat) (x r : Z) : Z :=
  match n with
  | O => r
  | S n' =>
      let r' := r + 2 ^ Z.of_nat n' in
      icbrt_bits n' x (if r' * r' * r' <=? x then r' else r)
  end.

Definition cbrt_floor : MathLib :=
  {| Cbrt f := f64_of_Z (icbrt_bits 22 (float_to_int64 f) 0) |}.

(** ** What the statements about Hysteria speak of *)

Module HysteriaSpec.
Import Hysteria HysteriaRun.

(** What every reachable Hysteria sender satisfies. *)
Record invariant (h : hysteriaSender) : Prop := {
  inv_current : 0 <= currentBps h <= targetBps h;
  inv_stable : 0 <= stableBps h <= targetBps h;
  inv_target : minStartBps <= targetBps h < 2 ^ 60;
  inv_rttCount : -2 <= rttCount h <= 3;
  inv_rttIdx : 0 <= rttIdx h < rttWindowSize;
  inv_history : length (rttHistory h) = Z.to_nat rttWindowSize
}.

(** The two halves of [updateRTTAndCheckJitter]: recording the sample, and
    damping the rate when the sample is a spike. *)
Definition recordRTT (rtt : Z) (hist : list Z) (h : hysteriaSender) : hysteriaSender :=
  let h := set_rttHistory hist h in
  let h := set_rttIdx (rem64 (add64 (rttIdx h) 1) rttWindowSize) h in
  if maxRTT h <? rtt then set_maxRTT rtt h else h.

Definition dampOnJitter (rtt : Z) (h : hysteriaSender) : hysteriaSender :=
  let smoothed := SmoothedRTT (rttStats h) in
  if (20 * Millisecond <? smoothed) && (mul64 smoothed 2 <? rtt) then
    let h := set_currentBps (scaleBps (currentBps h) (f64_const 85 100)) h in
    if currentBps h <? minStartBps then set_currentBps minStartBps h else h
  else h.

(** The factor of the growth step, by the smoothed RTT. *)
Definition growFactor (rtt : RTTStats) : f64 :=
  if 150 * Millisecond <? SmoothedRTT rtt then f64_const 125 100 else f64_const 11 10.

(** The cut compounds: a loss above the threshold followed by one below it
    (which stores the cut rate as the stable one) multiplies the rate by
    [0.75] each time. *)
Definition cut_and_consolidate (rounds : nat) : list call :=
  flat_map (fun _ => [CallOnCongestionEvent 1 1200 1200; CallOnCongestionEvent 2 0 1200])
           (seq 0 rounds).

(** The calls of a run that are acknowledgements. *)
Definition is_ack (k : call) : bool :=
  match k with
  | CallOnPacketAcked _ _ _ _ => true
  | _ => false
  end.

(** The spike test of [updateRTTAndCheckJitter]: the latest sample is over
    twice a smoothed RTT of more than 20 ms. *)
Definition isSpike (r : RTTStats) : bool :=
  (20 * Millisecond <? SmoothedRTT r) && (mul64 (SmoothedRTT r) 2 <? LatestRTT r).


(** The loss tolerance of [OnCongestionEvent], by the smoothed RTT. *)
Definition lossThreshold (r : RTTStats) : f64 :=
  let rtt := SmoothedRTT r in
  if rtt <? 50 * Millisecond then f64_const 10 100
  else if rtt <? 100 * Millisecond then f64_const 15 100
  else if rtt <? 180 * Millisecond then f64_const 20 100
  else f64_const 30 100.

(** Whether the loss rate of an event is over the tolerance. *)
Definition overThreshold (r : RTTStats) (lostBytes priorInFlight : Z) : bool :=
  SFltb (lossThreshold r)
        (f64_div (f64_of_Z lostBytes) (f64_of_Z (add64 priorInFlight 1))).

End HysteriaSpec.

(** ** What the statements about the CUBIC sender speak of *)

Module CubicSenderSpec.
Import CubicSender.

(** The 5 Mbps bandwidth-delay floor of [applyMinRateProtection]:
    [5 Mbps * smoothedRTT / 8] bytes, the RTT replaced by 100 ms when the
    oracle has none. *)
Definition bdpFloor (smoothedRTT : Z) : Z :=
  let srtt := if smoothedRTT <=? 0 then 100 * Millisecond else smoothedRTT in
  float_to_int64
    (f64_div (f64_mul (f64_of_Z minBandwidthLimit) (Seconds srtt)) (f64_of_Z 8)).

(** The counters as [OnCongestionEvent] leaves them: one more packet lost,
    [lostBytes] more bytes lost. *)
Definition count_loss (lostBytes : Z) (s : ConnectionStats) : ConnectionStats :=
  mkStats (BytesSent s)
          (wrapU64 (BytesLost s + wrapU64 lostBytes))
          (wrapU64 (PacketsLost s + 1)).

(** No state occurs twice in a row. *)
Fixpoint no_repeat (l : list CongestionState) : bool :=
  match l with
  | a :: t =>
      match t with
      | b :: _ => negb (CongestionState_eqb a b) && no_repeat t
      | [] => true
      end
  | [] => true
  end.

(** What [maybeQlogStateChange] does to the two recorder fields. *)
Definition qlog_step (new : CongestionState)
    (ls : option CongestionState) (q : option (list CongestionState))
  : option CongestionState * option (list CongestionState) :=
  match q with
  | None => (ls, q)
  | Some log =>
      match ls with
      | Some old =>
          if CongestionState_eqb new old then (ls, q)
          else (Some new, Some (log ++ [new]))
      | None => (Some new, Some (log ++ [new]))
      end
  end.

(** The recorder fields of a sender built with recorder [q0]: nothing is
    ever reported to a nil recorder; to a recorder that held [log0] the
    sender has reported the slow-start state and then [ev], the last of them
    being [lastState], no state twice in a row. *)
Definition recorded (q0 : option (list CongestionState))
    (ls : option CongestionState) (q : option (list CongestionState)) : Prop :=
  match q0 with
  | None => q = None /\ ls = None
  | Some log0 =>
      exists ev,
        q = Some (log0 ++ CongestionStateSlowStart :: ev)
        /\ ls = Some (last ev CongestionStateSlowStart)
        /\ no_repeat (CongestionStateSlowStart :: ev) = true
  end.


Section Spec.
Context {proto : Protocol} {math : MathLib}.
Context {H : Type} {hss : HybridSlowStartOps H}.
Context {P : Type} {pacerOps : PacerOps P}.

(** The tolerance gate of [OnCongestionEvent] as it reads the counters once
    the event is counted in: something was sent and the loss ratio is below
    the threshold. *)
Definition withinTolerance (lostBytes : Z) (s : ConnectionStats) : bool :=
  (0 <? BytesSent s)
  && lossRatioBelowTolerance (BytesLost (count_loss lostBytes s)) (BytesSent s).

(** An acknowledgement of a valid packet number up to [upto]. *)
Definition is_ack_upto (upto : Z) (k : call) : bool :=
  match k with
  | CallOnPacketAcked pn _ _ _ => (InvalidPacketNumber <? pn) && (pn <=? upto)
  | _ => false
  end.


(** The same of a sender. *)
Definition recorded_in (q0 : option (list CongestionState))
    (c : @cubicSender H P) : Prop :=
  recorded q0 (lastState c) (qlogger c).

End Spec.

(** Senders for concrete runs: quic-go's protocol constants, the trace
    collaborators and [cbrt_floor]. *)

#[local] Existing Instance quic_go_protocol.
#[local] Existing Instance cbrt_floor.
#[local] Existing Instance hss_trace.
#[local] Existing Instance pacer_trace.

(** A CUBIC sender as the connection builds it, with no recorder. *)
Definition fresh (rtt : RTTStats) (stats : ConnectionStats) (mds : Z)
  : @cubicSender (list hss_event) (list pacer_event) :=
  NewCubicSender rtt stats mds false None.

(** The same with a recorder attached. *)
Definition fresh_logged (rtt : RTTStats) (stats : ConnectionStats) (mds : Z)
  : @cubicSender (list hss_event) (list pacer_event) :=
  NewCubicSender rtt stats mds false (Some []).

Definition no_rtt : RTTStats := mkRTT 0 0 0.
Definition rtt_of (d : Z) : RTTStats := mkRTT d d d.
Definition no_stats : ConnectionStats := mkStats 0 0 0.

(** The specification's scenario for a loss below the tolerance: a million
    bytes sent, 50,000 lost. *)
Definition scenario_below : @cubicSender (list hss_event) (list pacer_event) :=
  fresh_logged no_rtt (mkStats 1000000 50000 0) 1200.

(** [n] acks of [d] bytes each, the [k]-th with the window [w + k * d] in
    flight. *)
Definition slow_start_acks (w d : Z) (n : nat) : list call :=
  map (fun k => CallOnPacketAcked (Z.of_nat k) d (w + Z.of_nat k * d) 0) (seq 0 n).

End CubicSenderSpec.

(** ** Rational reading of a float, for the rounding bounds *)

(** The value [m * 2^e] of a positive finite float. *)
Definition Qval (m : positive) (e : Z) : Q := (inject_Z (Zpos m) * 2 ^ e)%Q.

(** [1 + 2^-52]: one rounding of binary64 grows a value by at most this
    factor. *)
Definition ulp_ratio : Q := (1 + (1 # 4503599627370496))%Q.

(** [1 + 2^-23]: the same for one rounding of binary32. *)
Definition ulp_ratio32 : Q := (1 + (1 # 8388608))%Q.

(** * Properties *)

(** ** Rounding in binary64

    What the proofs below need of [SpecFloat]'s rounding: in the normal
    range, rounding a positive value to nearest keeps the sign and grows the
    value by at most the factor [ulp_ratio]. *)

Lemma digits2_pos_bounds (m : positive) :
  2 ^ (Zpos (digits2_pos m) - 1) <= Zpos m < 2 ^ Zpos (digits2_pos m).
Proof.
  induction m as [m IH | m IH | ]; cbn [digits2_pos].
  - rewrite Pos2Z.inj_succ.
    replace (Z.succ (Zpos (digits2_pos m)) - 1) with (Z.succ (Zpos (digits2_pos m) - 1)) by lia.
    rewrite !Z.pow_succ_r by lia. lia.
  - rewrite Pos2Z.inj_succ.
    replace (Z.succ (Zpos (digits2_pos m)) - 1) with (Z.succ (Zpos (digits2_pos m) - 1)) by lia.
    rewrite !Z.pow_succ_r by lia. lia.
  - cbn. lia.
Qed.

Lemma digits2_pos_unique (m : positive) (k : Z) :
  2 ^ (k - 1) <= Zpos m < 2 ^ k -> Zpos (digits2_pos m) = k.
Proof.
  intros [Hlo Hhi].
  pose proof (digits2_pos_bounds m) as [Dlo Dhi].
  set (d := Zpos (digits2_pos m)) in *.
  assert (0 < k).
  { destruct (Z_lt_le_dec 0 k) as [|Hk]; [assumption|].
    destruct (Z.eq_dec k 0) as [->|Hk0]; [cbn in Hhi; lia|].
    rewrite Z.pow_neg_r in Hhi by lia. lia. }
  destruct (Z_lt_le_dec d k) as [H1|H1].
  - assert (2 ^ d <= 2 ^ (k - 1)) by (apply Z.pow_le_mono_r; lia). lia.
  - destruct (Z_lt_le_dec k d) as [H2|H2]; [|lia].
    assert (2 ^ k <= 2 ^ (d - 1)) by (apply Z.pow_le_mono_r; lia). lia.
Qed.

Lemma shr_1_m (mrs : shr_record) :
  0 <= shr_m mrs -> shr_m (shr_1 mrs) = shr_m mrs / 2.
Proof.
  destruct mrs as [m r s]; cbn [shr_m]. intros Hm.
  destruct m as [|p|p]; [reflexivity | | lia].
  destruct p as [p|p|]; cbn [shr_1 shr_m].
  - rewrite Pos2Z.inj_xI. apply Z.div_unique with 1; lia.
  - rewrite Pos2Z.inj_xO. apply Z.div_unique with 0; lia.
  - reflexivity.
Qed.

Lemma iter_shr_1_m (p : positive) : forall mrs : shr_record,
  0 <= shr_m mrs -> shr_m (iter_pos shr_1 p mrs) = shr_m mrs / 2 ^ Zpos p.
Proof.
  induction p as [p IH | p IH | ]; intros mrs Hm; cbn [iter_pos].
  - assert (Hp : 0 < 2 ^ Zpos p) by (apply Z.pow_pos_nonneg; lia).
    assert (H1 : 0 <= shr_m (shr_1 mrs)).
    { rewrite shr_1_m by assumption. apply Z.div_pos; lia. }
    assert (H2 : 0 <= shr_m (iter_pos shr_1 p (shr_1 mrs))).
    { rewrite IH by assumption. apply Z.div_pos; lia. }
    rewrite IH, IH, shr_1_m by assumption.
    replace (Zpos p~1) with (1 + Zpos p + Zpos p) by lia.
    rewrite !Z.pow_add_r, Z.pow_1_r by lia.
    rewrite !Z.div_div by lia. f_equal; ring.
  - assert (Hp : 0 < 2 ^ Zpos p) by (apply Z.pow_pos_nonneg; lia).
    assert (H2 : 0 <= shr_m (iter_pos shr_1 p mrs)).
    { rewrite IH by assumption. apply Z.div_pos; lia. }
    rewrite IH, IH by assumption.
    replace (Zpos p~0) with (Zpos p + Zpos p) by lia.
    rewrite Z.pow_add_r by lia.
    rewrite !Z.div_div by lia. f_equal; ring.
  - rewrite shr_1_m by assumption. reflexivity.
Qed.

Lemma shr_spec (mrs : shr_record) (e n : Z) :
  0 <= shr_m mrs ->
  shr_m (fst (shr mrs e n)) = shr_m mrs / 2 ^ Z.max 0 n /\
  snd (shr mrs e n) = e + Z.max 0 n.
Proof.
  intros Hm. destruct n as [|p|p]; cbn [shr fst snd].
  - cbn. rewrite Z.div_1_r. lia.
  - rewrite iter_shr_1_m by assumption. rewrite Z.max_r by lia. lia.
  - cbn. rewrite Z.div_1_r. lia.
Qed.

Lemma round_nearest_even_bounds (m : Z) (l : location) :
  m <= round_nearest_even m l <= m + 1.
Proof.
  destruct l as [|[ | | ]]; cbn [round_nearest_even]; try lia.
  destruct (Z.even m); lia.
Qed.

Lemma fexp64_normal (x : Z) : -1074 <= x - 53 -> fexp 53 1024 x = x - 53.
Proof. intros H. unfold fexp, emin. lia. Qed.

Lemma shr_record_of_loc_m (m : Z) (l : location) : shr_m (shr_record_of_loc m l) = m.
Proof. destruct l as [|[ | | ]]; reflexivity. Qed.

Lemma binary_round_aux_normal (mx : positive) (ex : Z) (lx : location) :
  let d := Zpos (digits2_pos mx) in
  53 <= d -> -1074 <= ex + d - 53 -> ex + d <= 1023 ->
  exists m' e',
    binary_round_aux 53 1024 false (Zpos mx) ex lx = S754_finite false m' e'
    /\ 2 ^ 52 <= Zpos m' < 2 ^ 53
    /\ ex + d - 53 <= e' <= ex + d - 52
    /\ Zpos m' * 2 ^ (e' - ex) <= Zpos mx + 2 ^ (d - 53).
Proof.
  intros d Hd Hlo Hhi.
  pose proof (digits2_pos_bounds mx) as [Dlo Dhi]. fold d in Dlo, Dhi.
  unfold binary_round_aux, shr_fexp.
  cbn [Zdigits2]. fold d.
  rewrite fexp64_normal by lia.
  set (n1 := d + ex - 53 - ex).
  assert (Hn1 : n1 = d - 53) by (unfold n1; lia).
  pose proof (shr_spec (shr_record_of_loc (Zpos mx) lx) ex n1) as [S1m S1e];
    [rewrite shr_record_of_loc_m; lia|].
  destruct (shr _ ex n1) as [mrs1 e1]. cbn [fst snd] in S1m, S1e.
  rewrite shr_record_of_loc_m in S1m.
  rewrite Z.max_r in S1m, S1e by lia.
  set (m1 := shr_m mrs1) in *.
  assert (Hp : 0 < 2 ^ n1) by (apply Z.pow_pos_nonneg; lia).
  assert (Hsplit : 2 ^ d = 2 ^ 53 * 2 ^ n1).
  { rewrite <- Z.pow_add_r by lia. f_equal. lia. }
  assert (Hsplit' : 2 ^ (d - 1) = 2 ^ 52 * 2 ^ n1).
  { rewrite <- Z.pow_add_r by lia. f_equal. lia. }
  assert (Hm1 : 2 ^ 52 <= m1 < 2 ^ 53).
  { rewrite S1m. split.
    - apply Z.div_le_lower_bound; lia.
    - apply Z.div_lt_upper_bound; lia. }
  assert (Hm1x : m1 * 2 ^ n1 <= Zpos mx).
  { rewrite S1m. rewrite Z.mul_comm. apply Z.mul_div_le. lia. }
  pose proof (round_nearest_even_bounds m1 (loc_of_shr_record mrs1)) as Hr.
  set (m2 := round_nearest_even m1 (loc_of_shr_record mrs1)) in *.
  assert (Hm2pos : 0 < m2) by lia.
  destruct m2 as [|q|q] eqn:Em2; try lia.
  cbn [Zdigits2 shr_record_of_loc].
  destruct (Z.eq_dec (Zpos q) (2 ^ 53)) as [Htop|Htop].
  - (* the rounding carried into a 54th digit *)
    assert (Dq : Zpos (digits2_pos q) = 54).
    { apply digits2_pos_unique. rewrite Htop. cbn. lia. }
    rewrite Dq, fexp64_normal by lia.
    replace (54 + e1 - 53 - e1) with 1 by lia.
    cbn [shr iter_pos].
    assert (Hs : shr_m (shr_1 (Build_shr_record (Zpos q) false false)) = 2 ^ 52).
    { rewrite shr_1_m by (cbn; lia). cbn [shr_m]. rewrite Htop. reflexivity. }
    destruct (shr_m (shr_1 _)) as [|m3|m3] eqn:E3; try (cbn in Hs; lia).
    assert (Hle : (e1 + 1 <=? 1024 - 53) = true) by (apply Z.leb_le; lia).
    rewrite Hle.
    exists m3, (e1 + 1). split; [reflexivity|].
    rewrite Hs. split; [cbn; lia|]. split; [lia|].
    replace (e1 + 1 - ex) with (n1 + 1) by lia.
    rewrite Z.pow_add_r, Z.pow_1_r by lia.
    rewrite <- Hn1.
    assert (m1 = 2 ^ 53 - 1) by lia.
    assert (2 ^ 52 * 2 = 2 ^ 53) by reflexivity.
    nia.
  - assert (Dq : Zpos (digits2_pos q) = 53).
    { apply digits2_pos_unique. change (53 - 1) with 52. lia. }
    rewrite Dq, fexp64_normal by lia.
    replace (53 + e1 - 53 - e1) with 0 by lia.
    cbn [shr shr_m].
    assert (Hle : (e1 <=? 1024 - 53) = true) by (apply Z.leb_le; lia).
    rewrite Hle.
    exists q, e1. split; [reflexivity|].
    split; [lia|]. split; [lia|].
    replace (e1 - ex) with n1 by lia. rewrite <- Hn1. nia.
Qed.

Lemma Qpow2_pos (e : Z) : (0 < 2 ^ e)%Q.
Proof. apply Qpower_0_lt. reflexivity. Qed.

Lemma Qpow2_add (a b : Z) : (2 ^ (a + b) == 2 ^ a * 2 ^ b)%Q.
Proof. apply Qpower_plus. discriminate. Qed.

Lemma Qpow2_inject (n : Z) : 0 <= n -> (inject_Z (2 ^ n) == 2 ^ n)%Q.
Proof. intros H. apply (Zpower_Qpower 2 n H). Qed.

Lemma Qval_pos (m : positive) (e : Z) : (0 < Qval m e)%Q.
Proof.
  unfold Qval. apply Qmult_lt_0_compat; [|apply Qpow2_pos].
  change 0%Q with (inject_Z 0). rewrite <- Zlt_Qlt. lia.
Qed.

Lemma Qval_mul (m1 m2 : positive) (e1 e2 : Z) :
  (Qval (m1 * m2) (e1 + e2) == Qval m1 e1 * Qval m2 e2)%Q.
Proof.
  unfold Qval. rewrite Qpow2_add, Pos2Z.inj_mul, inject_Z_mult. ring.
Qed.

Lemma binary_round_aux_normal_Q (mx : positive) (ex : Z) (lx : location) :
  let d := Zpos (digits2_pos mx) in
  53 <= d -> -1074 <= ex + d - 53 -> ex + d <= 1023 ->
  exists m' e',
    binary_round_aux 53 1024 false (Zpos mx) ex lx = S754_finite false m' e'
    /\ 2 ^ 52 <= Zpos m' < 2 ^ 53
    /\ ex + d - 53 <= e' <= ex + d - 52
    /\ (Qval m' e' <= Qval mx ex * ulp_ratio)%Q.
Proof.
  intros d Hd Hlo Hhi.
  destruct (binary_round_aux_normal mx ex lx Hd Hlo Hhi) as (m' & e' & E & Hm & He & Hb).
  fold d in He, Hb.
  exists m', e'. repeat split; try assumption; try lia.
  pose proof (digits2_pos_bounds mx) as [Dlo _]. fold d in Dlo.
  assert (Hk : 2 ^ 52 * 2 ^ (d - 53) = 2 ^ (d - 1)).
  { rewrite <- Z.pow_add_r by lia. f_equal. lia. }
  assert (Hz : 2 ^ 52 * (Zpos m' * 2 ^ (e' - ex)) <= (2 ^ 52 + 1) * Zpos mx) by nia.
  unfold Qval, ulp_ratio.
  replace e' with ((e' - ex) + ex) at 1 by lia.
  rewrite Qpow2_add, <- Qpow2_inject by lia.
  pose proof (Qpow2_pos ex) as Hpx.
  rewrite Zle_Qle in Hz.
  rewrite !inject_Z_mult, inject_Z_plus in Hz.
  change (inject_Z (2 ^ 52)) with (4503599627370496 # 1)%Q in Hz.
  change (inject_Z 1) with 1%Q in Hz.
  set (a := inject_Z (Zpos m')) in *. set (p := inject_Z (2 ^ (e' - ex))) in *.
  set (x := inject_Z (Zpos mx)) in *. set (t := (2 ^ ex)%Q) in *.
  assert (Hgoal : ((4503599627370496 # 1) * (a * p * t) <= (4503599627370496 # 1) * (x * t * (1 + (1 # 4503599627370496))))%Q).
  { setoid_replace ((4503599627370496 # 1) * (x * t * (1 + (1 # 4503599627370496))))%Q
      with ((((4503599627370496 # 1) + 1) * x) * t)%Q by (field).
    setoid_replace ((4503599627370496 # 1) * (a * p * t))%Q
      with (((4503599627370496 # 1) * (a * p)) * t)%Q by ring.
    apply Qmult_le_compat_r; [assumption | apply Qlt_le_weak; assumption]. }
  apply Qmult_le_l in Hgoal; [|reflexivity].
  setoid_replace (a * (p * t))%Q with (a * p * t)%Q by ring. assumption.
Qed.

Lemma iter_xO_mul (k b : positive) : Zpos (Pos.iter xO b k) = Zpos b * 2 ^ Zpos k.
Proof.
  induction k as [|k IH] using Pos.peano_ind.
  - cbn. lia.
  - rewrite Pos.iter_succ, Pos2Z.inj_xO, IH, Pos2Z.inj_succ, Z.pow_succ_r by lia. ring.
Qed.

Lemma Qval_exact_shift (b : positive) (k : Z) :
  0 <= k -> forall mz : positive, Zpos mz = Zpos b * 2 ^ k ->
  (Qval mz (- k) == inject_Z (Zpos b))%Q.
Proof.
  intros Hk mz E. unfold Qval. rewrite E, inject_Z_mult, Qpow2_inject by assumption.
  rewrite <- Qmult_assoc, <- Qpow2_add.
  replace (k + - k) with 0 by lia. cbn. ring.
Qed.

Lemma f64_of_Z_pos_spec (b : positive) :
  let d := Zpos (digits2_pos b) in
  d <= 1023 ->
  exists m e,
    f64_of_Z (Zpos b) = S754_finite false m e
    /\ 2 ^ 52 <= Zpos m < 2 ^ 53
    /\ d - 53 <= e <= d - 52
    /\ (Qval m e <= inject_Z (Zpos b) * ulp_ratio)%Q.
Proof.
  intros d Hd.
  pose proof (digits2_pos_bounds b) as [Dlo Dhi]. fold d in Dlo, Dhi.
  assert (Hd1 : 1 <= d) by (unfold d; lia).
  unfold f64_of_Z, binary_normalize, binary_round, shl_align. fold d.
  rewrite fexp64_normal by lia.
  destruct (d + 0 - 53 - 0) as [|k|k] eqn:Ek.
  - destruct (binary_round_aux_normal_Q b 0 loc_Exact) as (m & e & E & Hm & He & Hq); fold d; try lia.
    fold d in He. exists m, e. repeat split; try assumption; try lia.
    eapply Qle_trans; [exact Hq|]. apply Qmult_le_compat_r; [|unfold ulp_ratio; lra].
    unfold Qval. cbn. lra.
  - destruct (binary_round_aux_normal_Q b 0 loc_Exact) as (m & e & E & Hm & He & Hq); fold d; try lia.
    fold d in He. exists m, e. repeat split; try assumption; try lia.
    eapply Qle_trans; [exact Hq|]. apply Qmult_le_compat_r; [|unfold ulp_ratio; lra].
    unfold Qval. cbn. lra.
  - pose proof (iter_xO_mul k b) as Hmz.
    set (mz := Pos.iter xO b k) in *.
    assert (Hk : Zpos k = 53 - d) by lia.
    assert (Hsplit : 2 ^ 53 = 2 ^ d * 2 ^ Zpos k).
    { rewrite <- Z.pow_add_r by lia. f_equal. lia. }
    assert (Hsplit' : 2 ^ 52 = 2 ^ (d - 1) * 2 ^ Zpos k).
    { rewrite <- Z.pow_add_r by lia. f_equal. lia. }
    assert (Hp : 0 < 2 ^ Zpos k) by (apply Z.pow_pos_nonneg; lia).
    assert (Dz : Zpos (digits2_pos mz) = 53).
    { apply digits2_pos_unique. change (53 - 1) with 52. rewrite Hmz. nia. }
    destruct (binary_round_aux_normal_Q mz (d + 0 - 53) loc_Exact) as (m & e & E & Hm & He & Hq);
      rewrite ?Dz; try lia.
    rewrite Dz in He.
    exists m, e. repeat split; try assumption; try lia.
    eapply Qle_trans; [exact Hq|]. apply Qmult_le_compat_r; [|unfold ulp_ratio; lra].
    replace (d + 0 - 53) with (- Zpos k) by lia.
    rewrite (Qval_exact_shift b (Zpos k)) by (try lia; assumption). apply Qle_refl.
Qed.

Lemma SFmul_normal_spec (m1 m2 : positive) (e1 e2 : Z) :
  2 ^ 52 <= Zpos m1 < 2 ^ 53 -> 2 ^ 52 <= Zpos m2 < 2 ^ 53 ->
  -1000 <= e1 + e2 <= 900 ->
  exists m e,
    SFmul 53 1024 (S754_finite false m1 e1) (S754_finite false m2 e2)
      = S754_finite false m e
    /\ 2 ^ 52 <= Zpos m < 2 ^ 53
    /\ e1 + e2 + 52 <= e <= e1 + e2 + 54
    /\ (Qval m e <= Qval m1 e1 * Qval m2 e2 * ulp_ratio)%Q.
Proof.
  intros H1 H2 He.
  cbn [SFmul xorb].
  pose proof (digits2_pos_bounds (m1 * m2)) as [Dlo Dhi].
  set (d := Zpos (digits2_pos (m1 * m2))) in *.
  rewrite Pos2Z.inj_mul in Dlo, Dhi.
  assert (Hd : 105 <= d <= 106).
  { split.
    - destruct (Z_lt_le_dec d 105) as [Hlt|]; [|assumption].
      assert (2 ^ d <= 2 ^ 104) by (apply Z.pow_le_mono_r; lia).
      assert (2 ^ 104 = 2 ^ 52 * 2 ^ 52) by reflexivity. nia.
    - destruct (Z_lt_le_dec 106 d) as [Hlt|]; [|assumption].
      assert (2 ^ 106 <= 2 ^ (d - 1)) by (apply Z.pow_le_mono_r; lia).
      assert (2 ^ 106 = 2 ^ 53 * 2 ^ 53) by reflexivity. nia. }
  destruct (binary_round_aux_normal_Q (m1 * m2) (e1 + e2) loc_Exact) as (m & e & E & Hm & Hee & Hq);
    fold d; try lia.
  fold d in Hee.
  exists m, e. repeat split; try assumption; try lia.
  rewrite <- Qval_mul. assumption.
Qed.

Lemma SFtrunc_finite_pos (m : positive) (e : Z) :
  exists z, SFtrunc (S754_finite false m e) = Some z /\ 0 <= z
            /\ (inject_Z z <= Qval m e)%Q.
Proof.
  cbn [SFtrunc cond_Zopp]. destruct (Z.leb_spec 0 e) as [He|He].
  - exists (Zpos m * 2 ^ e). split; [reflexivity|]. split.
    + apply Z.mul_nonneg_nonneg; [lia | apply Z.pow_nonneg; lia].
    + unfold Qval. rewrite inject_Z_mult, Qpow2_inject by assumption. apply Qle_refl.
  - exists (Zpos m / 2 ^ (- e)). split; [reflexivity|].
    assert (Hp : 0 < 2 ^ (- e)) by (apply Z.pow_pos_nonneg; lia).
    split; [apply Z.div_pos; lia|].
    assert (Hz : Zpos m / 2 ^ (- e) * 2 ^ (- e) <= Zpos m).
    { rewrite Z.mul_comm. apply Z.mul_div_le. assumption. }
    rewrite Zle_Qle, inject_Z_mult, Qpow2_inject in Hz by lia.
    unfold Qval.
    pose proof (Qpow2_pos e) as Hpe. pose proof (Qpow2_pos (- e)) as Hpne.
    assert (Hinv : (2 ^ (- e) * 2 ^ e == 1)%Q).
    { rewrite <- Qpow2_add. replace (- e + e) with 0 by lia. reflexivity. }
    set (a := inject_Z (Zpos m / 2 ^ (- e))) in *. set (x := inject_Z (Zpos m)) in *.
    set (p := (2 ^ (- e))%Q) in *. set (q := (2 ^ e)%Q) in *.
    setoid_replace a with (a * p * q)%Q by (rewrite <- Qmult_assoc, Hinv; ring).
    apply Qmult_le_compat_r; [assumption | apply Qlt_le_weak; assumption].
Qed.

Lemma digits2_pos_le (b : positive) (k : Z) :
  Zpos b < 2 ^ k -> Zpos (digits2_pos b) <= k.
Proof.
  intros Hb. pose proof (digits2_pos_bounds b) as [Dlo _].
  destruct (Z_lt_le_dec k (Zpos (digits2_pos b))) as [Hlt|]; [|assumption].
  assert (2 ^ k <= 2 ^ (Zpos (digits2_pos b) - 1)).
  { apply Z.pow_le_mono_r; [lia|]. lia. }
  lia.
Qed.

Lemma scale_trunc_spec (b : Z) (mc : positive) (ec : Z) :
  0 < b < 2 ^ 63 -> 2 ^ 52 <= Zpos mc < 2 ^ 53 -> -60 <= ec <= -40 ->
  exists z,
    SFtrunc (f64_mul (f64_of_Z b) (S754_finite false mc ec)) = Some z
    /\ 0 <= z
    /\ (inject_Z z <= inject_Z b * (ulp_ratio * Qval mc ec * ulp_ratio))%Q.
Proof.
  intros Hb Hmc Hec.
  destruct b as [|p|p]; try lia.
  pose proof (digits2_pos_le p 63 (proj2 Hb)) as Hd.
  pose proof (digits2_pos_bounds p) as [_ Dhi].
  assert (Hd1 : 1 <= Zpos (digits2_pos p)) by lia.
  destruct (f64_of_Z_pos_spec p) as (m1 & e1 & E1 & Hm1 & He1 & Hq1); [lia|].
  destruct (SFmul_normal_spec m1 mc e1 ec) as (m & e & E & Hm & He & Hq); try assumption; [lia|].
  destruct (SFtrunc_finite_pos m e) as (z & Ez & Hz & Hzq).
  exists z. unfold f64_mul. rewrite E1, E. repeat split; try assumption.
  pose proof (Qval_pos mc ec) as Hc.
  assert (Hu : (0 < ulp_ratio)%Q) by (unfold ulp_ratio; lra).
  eapply Qle_trans; [exact Hzq|]. eapply Qle_trans; [exact Hq|].
  setoid_replace (inject_Z (Zpos p) * (ulp_ratio * Qval mc ec * ulp_ratio))%Q
    with ((inject_Z (Zpos p) * ulp_ratio) * (Qval mc ec * ulp_ratio))%Q by ring.
  rewrite <- Qmult_assoc.
  apply Qmult_le_compat_r; [assumption|].
  apply Qlt_le_weak, Qmult_lt_0_compat; assumption.
Qed.

Lemma scale_to_int64_bound (b : Z) (mc : positive) (ec : Z) (N D : positive) :
  0 <= b -> 2 ^ 52 <= Zpos mc < 2 ^ 53 -> -60 <= ec <= -40 ->
  (ulp_ratio * Qval mc ec * ulp_ratio <= Zpos N # D)%Q ->
  b * Zpos N < 2 ^ 63 * Zpos D -> b < 2 ^ 63 ->
  let r := float_to_int64 (f64_mul (f64_of_Z b) (S754_finite false mc ec)) in
  0 <= r /\ r * Zpos D <= b * Zpos N.
Proof.
  intros Hb Hmc Hec HK Hrange Hb63 r.
  destruct (Z.eq_dec b 0) as [->|Hb0].
  - subst r. cbn. lia.
  - destruct (scale_trunc_spec b mc ec) as (z & Ez & Hz & Hzq); try assumption; [lia|].
    assert (Hzb : z * Zpos D <= b * Zpos N).
    { assert (Hq : (inject_Z z <= inject_Z b * (Zpos N # D))%Q).
      { eapply Qle_trans; [exact Hzq|].
        rewrite !(Qmult_comm (inject_Z b)).
        apply Qmult_le_compat_r; [exact HK|].
        change 0%Q with (inject_Z 0). rewrite <- Zle_Qle. lia. }
      unfold Qle in Hq. cbn in Hq. lia. }
    subst r. unfold float_to_int64. rewrite Ez.
    assert (Hin : (MinInt64 <=? z) && (z <=? MaxInt64) = true).
    { apply andb_true_iff. unfold MinInt64, MaxInt64. split; apply Z.leb_le; nia. }
    rewrite Hin. split; assumption.
Qed.

(** An aligned mantissa is kept as it is. *)
Lemma binary_round_aux_aligned (mx : positive) (ex : Z) :
  Zpos (digits2_pos mx) = 53 -> -1074 <= ex <= 971 ->
  binary_round_aux 53 1024 false (Zpos mx) ex loc_Exact = S754_finite false mx ex.
Proof.
  intros Hd He. unfold binary_round_aux, shr_fexp. cbn [Zdigits2 shr_record_of_loc].
  rewrite Hd, fexp64_normal by lia.
  replace (53 + ex - 53 - ex) with 0 by lia. cbn [shr shr_m loc_of_shr_record round_nearest_even].
  cbn [Zdigits2 shr_record_of_loc]. rewrite Hd, fexp64_normal by lia.
  replace (53 + ex - 53 - ex) with 0 by lia. cbn [shr shr_m].
  assert (Hle : (ex <=? 1024 - 53) = true) by (apply Z.leb_le; lia).
  rewrite Hle. reflexivity.
Qed.

Lemma f64_of_Z_small (b : positive) :
  Zpos b < 2 ^ 53 ->
  exists m e,
    f64_of_Z (Zpos b) = S754_finite false m e
    /\ 2 ^ 52 <= Zpos m < 2 ^ 53
    /\ -52 <= e <= 0
    /\ (Qval m e == inject_Z (Zpos b))%Q.
Proof.
  intros Hb.
  pose proof (digits2_pos_bounds b) as [Dlo Dhi].
  pose proof (digits2_pos_le b 53 Hb) as Hd.
  set (d := Zpos (digits2_pos b)) in *.
  assert (Hd1 : 1 <= d) by (unfold d; lia).
  unfold f64_of_Z, binary_normalize, binary_round, shl_align. fold d.
  rewrite fexp64_normal by lia.
  destruct (d + 0 - 53 - 0) as [|k|k] eqn:Ek; try lia.
  - assert (Hd53 : d = 53) by lia.
    rewrite binary_round_aux_aligned by (fold d; lia).
    assert (Hb52 : 2 ^ 52 <= Zpos b).
    { replace 52 with (d - 1) by lia. exact Dlo. }
    exists b, 0. split; [reflexivity|]. split; [lia|]. split; [lia|].
    unfold Qval. cbn. ring.
  - pose proof (iter_xO_mul k b) as Hmz.
    set (mz := Pos.iter xO b k) in *.
    assert (Hk : Zpos k = 53 - d) by lia.
    assert (Hsplit : 2 ^ 53 = 2 ^ d * 2 ^ Zpos k).
    { rewrite <- Z.pow_add_r by lia. f_equal. lia. }
    assert (Hsplit' : 2 ^ 52 = 2 ^ (d - 1) * 2 ^ Zpos k).
    { rewrite <- Z.pow_add_r by lia. f_equal. lia. }
    assert (Hp : 0 < 2 ^ Zpos k) by (apply Z.pow_pos_nonneg; lia).
    assert (Hmzb : 2 ^ 52 <= Zpos mz < 2 ^ 53) by (rewrite Hmz; nia).
    assert (Dz : Zpos (digits2_pos mz) = 53).
    { apply digits2_pos_unique. change (53 - 1) with 52. exact Hmzb. }
    rewrite binary_round_aux_aligned by (try exact Dz; lia).
    exists mz, (d + 0 - 53). split; [reflexivity|]. split; [lia|]. split; [lia|].
    replace (d + 0 - 53) with (- Zpos k) by lia.
    apply (Qval_exact_shift b (Zpos k)); [lia | exact Hmz].
Qed.

Lemma SFdiv_normal_upper (m1 m2 : positive) (e1 e2 : Z) :
  2 ^ 52 <= Zpos m1 < 2 ^ 53 -> 2 ^ 52 <= Zpos m2 < 2 ^ 53 ->
  -900 <= e1 - e2 <= 900 ->
  exists m e,
    SFdiv 53 1024 (S754_finite false m1 e1) (S754_finite false m2 e2)
      = S754_finite false m e
    /\ 2 ^ 52 <= Zpos m < 2 ^ 53
    /\ (Qval m e * Qval m2 e2 <= Qval m1 e1 * ulp_ratio)%Q.
Proof.
  intros H1 H2 He.
  assert (D1 : Zpos (digits2_pos m1) = 53)
    by (apply digits2_pos_unique; change (53 - 1) with 52; lia).
  assert (D2 : Zpos (digits2_pos m2) = 53)
    by (apply digits2_pos_unique; change (53 - 1) with 52; lia).
  cbn [SFdiv xorb]. unfold SFdiv_core_binary. cbn [Zdigits2].
  rewrite D1, D2, fexp64_normal by lia.
  replace (Z.min (53 + e1 - (53 + e2) - 53) (e1 - e2)) with (e1 - e2 - 53) by lia.
  replace (e1 - e2 - (e1 - e2 - 53)) with 53 by lia.
  rewrite Z.shiftl_mul_pow2 by lia.
  pose proof (Z_div_mod (Zpos m1 * 2 ^ 53) (Zpos m2)) as Hdm.
  destruct (Z.div_eucl (Zpos m1 * 2 ^ 53) (Zpos m2)) as [q r].
  destruct Hdm as [Hq Hr]; [lia|].
  assert (Hqb : 2 ^ 52 <= q < 2 ^ 54).
  { assert (2 ^ 52 * 2 ^ 53 = 2 ^ 105) by reflexivity.
    assert (2 ^ 54 * 2 ^ 52 = 2 ^ 106) by reflexivity.
    assert (2 ^ 53 * 2 ^ 53 = 2 ^ 106) by reflexivity.
    split; nia. }
  destruct q as [|qp|qp]; try lia.
  pose proof (digits2_pos_bounds qp) as [Dlo Dhi].
  set (d := Zpos (digits2_pos qp)) in *.
  assert (Hd : 53 <= d <= 54).
  { split.
    - destruct (Z_lt_le_dec d 53) as [Hlt|]; [|assumption].
      assert (2 ^ d <= 2 ^ 52) by (apply Z.pow_le_mono_r; lia). lia.
    - destruct (Z_lt_le_dec 54 d) as [Hlt|]; [|assumption].
      assert (2 ^ 54 <= 2 ^ (d - 1)) by (apply Z.pow_le_mono_r; lia). lia. }
  destruct (binary_round_aux_normal_Q qp (e1 - e2 - 53) (new_location (Zpos m2) r))
    as (m & e & E & Hm & Hee & Hqv); fold d; try lia.
  exists m, e. split; [exact E|]. split; [exact Hm|].
  assert (Hprod : (Qval qp (e1 - e2 - 53) * Qval m2 e2 <= Qval m1 e1)%Q).
  { rewrite <- Qval_mul. replace (e1 - e2 - 53 + e2) with (- 53 + e1) by lia.
    unfold Qval. rewrite Qpow2_add.
    assert (Hz : Zpos (qp * m2) * 1 <= Zpos m1 * 2 ^ 53) by (rewrite Pos2Z.inj_mul; nia).
    rewrite Zle_Qle, !inject_Z_mult in Hz.
    change (inject_Z (2 ^ 53)) with (9007199254740992 # 1)%Q in Hz.
    change (inject_Z 1) with 1%Q in Hz.
    change (2 ^ (- 53))%Q with (1 # 9007199254740992)%Q.
    pose proof (Qpow2_pos e1) as Hp.
    set (a := inject_Z (Zpos (qp * m2))) in *. set (b := inject_Z (Zpos m1)) in *.
    set (t := (2 ^ e1)%Q) in *.
    setoid_replace (a * ((1 # 9007199254740992) * t))%Q
      with (((1 # 9007199254740992) * (a * 1)) * t)%Q by ring.
    apply Qmult_le_compat_r; [|apply Qlt_le_weak; assumption]. lra. }
  pose proof (Qval_pos m2 e2) as Hp2.
  eapply Qle_trans.
  - apply Qmult_le_compat_r; [exact Hqv | apply Qlt_le_weak; exact Hp2].
  - setoid_replace (Qval qp (e1 - e2 - 53) * ulp_ratio * Qval m2 e2)%Q
      with ((Qval qp (e1 - e2 - 53) * Qval m2 e2) * ulp_ratio)%Q by ring.
    apply Qmult_le_compat_r; [exact Hprod | unfold ulp_ratio; lra].
Qed.

Lemma SFltb_normal (m1 m2 : positive) (e1 e2 : Z) :
  2 ^ 52 <= Zpos m1 < 2 ^ 53 -> 2 ^ 52 <= Zpos m2 < 2 ^ 53 ->
  (Qval m1 e1 < Qval m2 e2)%Q ->
  SFltb (S754_finite false m1 e1) (S754_finite false m2 e2) = true.
Proof.
  intros H1 H2 Hlt. unfold SFltb, SFcompare.
  destruct (Z.compare_spec e1 e2) as [Heq|Hl|Hg].
  - subst e2. unfold Qval in Hlt.
    apply Qmult_lt_r in Hlt; [|apply Qpow2_pos].
    rewrite <- Zlt_Qlt in Hlt.
    replace (Pos.compare_cont Eq m1 m2) with (Pos.compare m1 m2) by reflexivity.
    assert (Hc : (m1 ?= m2)%positive = Lt) by (apply Pos.compare_lt_iff; lia).
    rewrite Hc. reflexivity.
  - reflexivity.
  - exfalso. unfold Qval in Hlt.
    replace e1 with ((e1 - e2) + e2) in Hlt by lia.
    rewrite Qpow2_add, <- Qpow2_inject in Hlt by lia.
    rewrite Qmult_assoc in Hlt.
    apply Qmult_lt_r in Hlt; [|apply Qpow2_pos].
    rewrite <- inject_Z_mult, <- Zlt_Qlt in Hlt.
    assert (2 ^ 1 <= 2 ^ (e1 - e2)) by (apply Z.pow_le_mono_r; lia).
    change (2 ^ 1) with 2 in *. nia.
Qed.

(** ** Rounding in binary32

    The same bounds for the float32 arithmetic of the curve. *)

Lemma fexp32_normal (x : Z) : -149 <= x - 24 -> fexp 24 128 x = x - 24.
Proof. intros H. unfold fexp, emin. lia. Qed.

Lemma binary_round_aux_normal32 (mx : positive) (ex : Z) (lx : location) :
  let d := Zpos (digits2_pos mx) in
  24 <= d -> -149 <= ex + d - 24 -> ex + d <= 127 ->
  exists m' e',
    binary_round_aux 24 128 false (Zpos mx) ex lx = S754_finite false m' e'
    /\ 2 ^ 23 <= Zpos m' < 2 ^ 24
    /\ ex + d - 24 <= e' <= ex + d - 23
    /\ Zpos m' * 2 ^ (e' - ex) <= Zpos mx + 2 ^ (d - 24).
Proof.
  intros d Hd Hlo Hhi.
  pose proof (digits2_pos_bounds mx) as [Dlo Dhi]. fold d in Dlo, Dhi.
  unfold binary_round_aux, shr_fexp.
  cbn [Zdigits2]. fold d.
  rewrite fexp32_normal by lia.
  set (n1 := d + ex - 24 - ex).
  assert (Hn1 : n1 = d - 24) by (unfold n1; lia).
  pose proof (shr_spec (shr_record_of_loc (Zpos mx) lx) ex n1) as [S1m S1e];
    [rewrite shr_record_of_loc_m; lia|].
  destruct (shr _ ex n1) as [mrs1 e1]. cbn [fst snd] in S1m, S1e.
  rewrite shr_record_of_loc_m in S1m.
  rewrite Z.max_r in S1m, S1e by lia.
  set (m1 := shr_m mrs1) in *.
  assert (Hp : 0 < 2 ^ n1) by (apply Z.pow_pos_nonneg; lia).
  assert (Hsplit : 2 ^ d = 2 ^ 24 * 2 ^ n1).
  { rewrite <- Z.pow_add_r by lia. f_equal. lia. }
  assert (Hsplit' : 2 ^ (d - 1) = 2 ^ 23 * 2 ^ n1).
  { rewrite <- Z.pow_add_r by lia. f_equal. lia. }
  assert (Hm1 : 2 ^ 23 <= m1 < 2 ^ 24).
  { rewrite S1m. split.
    - apply Z.div_le_lower_bound; lia.
    - apply Z.div_lt_upper_bound; lia. }
  assert (Hm1x : m1 * 2 ^ n1 <= Zpos mx).
  { rewrite S1m. rewrite Z.mul_comm. apply Z.mul_div_le. lia. }
  pose proof (round_nearest_even_bounds m1 (loc_of_shr_record mrs1)) as Hr.
  set (m2 := round_nearest_even m1 (loc_of_shr_record mrs1)) in *.
  assert (Hm2pos : 0 < m2) by lia.
  destruct m2 as [|q|q] eqn:Em2; try lia.
  cbn [Zdigits2 shr_record_of_loc].
  destruct (Z.eq_dec (Zpos q) (2 ^ 24)) as [Htop|Htop].
  - (* the rounding carried into a 25th digit *)
    assert (Dq : Zpos (digits2_pos q) = 25).
    { apply digits2_pos_unique. rewrite Htop. cbn. lia. }
    rewrite Dq, fexp32_normal by lia.
    replace (25 + e1 - 24 - e1) with 1 by lia.
    cbn [shr iter_pos].
    assert (Hs : shr_m (shr_1 (Build_shr_record (Zpos q) false false)) = 2 ^ 23).
    { rewrite shr_1_m by (cbn; lia). cbn [shr_m]. rewrite Htop. reflexivity. }
    destruct (shr_m (shr_1 _)) as [|m3|m3] eqn:E3; try (cbn in Hs; lia).
    assert (Hle : (e1 + 1 <=? 128 - 24) = true) by (apply Z.leb_le; lia).
    rewrite Hle.
    exists m3, (e1 + 1). split; [reflexivity|].
    rewrite Hs. split; [cbn; lia|]. split; [lia|].
    replace (e1 + 1 - ex) with (n1 + 1) by lia.
    rewrite Z.pow_add_r, Z.pow_1_r by lia.
    rewrite <- Hn1.
    assert (m1 = 2 ^ 24 - 1) by lia.
    assert (2 ^ 23 * 2 = 2 ^ 24) by reflexivity.
    nia.
  - assert (Dq : Zpos (digits2_pos q) = 24).
    { apply digits2_pos_unique. change (24 - 1) with 23. lia. }
    rewrite Dq, fexp32_normal by lia.
    replace (24 + e1 - 24 - e1) with 0 by lia.
    cbn [shr shr_m].
    assert (Hle : (e1 <=? 128 - 24) = true) by (apply Z.leb_le; lia).
    rewrite Hle.
    exists q, e1. split; [reflexivity|].
    split; [lia|]. split; [lia|].
    replace (e1 - ex) with n1 by lia. rewrite <- Hn1. nia.
Qed.

Lemma binary_round_aux_normal32_Q (mx : positive) (ex : Z) (lx : location) :
  let d := Zpos (digits2_pos mx) in
  24 <= d -> -149 <= ex + d - 24 -> ex + d <= 127 ->
  exists m' e',
    binary_round_aux 24 128 false (Zpos mx) ex lx = S754_finite false m' e'
    /\ 2 ^ 23 <= Zpos m' < 2 ^ 24
    /\ ex + d - 24 <= e' <= ex + d - 23
    /\ (Qval m' e' <= Qval mx ex * ulp_ratio32)%Q.
Proof.
  intros d Hd Hlo Hhi.
  destruct (binary_round_aux_normal32 mx ex lx Hd Hlo Hhi) as (m' & e' & E & Hm & He & Hb).
  fold d in He, Hb.
  exists m', e'. repeat split; try assumption; try lia.
  pose proof (digits2_pos_bounds mx) as [Dlo _]. fold d in Dlo.
  assert (Hk : 2 ^ 23 * 2 ^ (d - 24) = 2 ^ (d - 1)).
  { rewrite <- Z.pow_add_r by lia. f_equal. lia. }
  assert (Hz : 2 ^ 23 * (Zpos m' * 2 ^ (e' - ex)) <= (2 ^ 23 + 1) * Zpos mx) by nia.
  unfold Qval, ulp_ratio32.
  replace e' with ((e' - ex) + ex) at 1 by lia.
  rewrite Qpow2_add, <- Qpow2_inject by lia.
  pose proof (Qpow2_pos ex) as Hpx.
  rewrite Zle_Qle in Hz.
  rewrite !inject_Z_mult, inject_Z_plus in Hz.
  change (inject_Z (2 ^ 23)) with (8388608 # 1)%Q in Hz.
  change (inject_Z 1) with 1%Q in Hz.
  set (a := inject_Z (Zpos m')) in *. set (p := inject_Z (2 ^ (e' - ex))) in *.
  set (x := inject_Z (Zpos mx)) in *. set (t := (2 ^ ex)%Q) in *.
  assert (Hgoal : ((8388608 # 1) * (a * p * t) <= (8388608 # 1) * (x * t * (1 + (1 # 8388608))))%Q).
  { setoid_replace ((8388608 # 1) * (x * t * (1 + (1 # 8388608))))%Q
      with ((((8388608 # 1) + 1) * x) * t)%Q by (field).
    setoid_replace ((8388608 # 1) * (a * p * t))%Q
      with (((8388608 # 1) * (a * p)) * t)%Q by ring.
    apply Qmult_le_compat_r; [assumption | apply Qlt_le_weak; assumption]. }
  apply Qmult_le_l in Hgoal; [|reflexivity].
  setoid_replace (a * (p * t))%Q with (a * p * t)%Q by ring. assumption.
Qed.

Lemma f32_of_Z_pos_spec (b : positive) :
  let d := Zpos (digits2_pos b) in
  d <= 127 ->
  exists m e,
    f32_of_Z (Zpos b) = S754_finite false m e
    /\ 2 ^ 23 <= Zpos m < 2 ^ 24
    /\ d - 24 <= e <= d - 23
    /\ (Qval m e <= inject_Z (Zpos b) * ulp_ratio32)%Q.
Proof.
  intros d Hd.
  pose proof (digits2_pos_bounds b) as [Dlo Dhi]. fold d in Dlo, Dhi.
  assert (Hd1 : 1 <= d) by (unfold d; lia).
  unfold f32_of_Z, binary_normalize, binary_round, shl_align. fold d.
  rewrite fexp32_normal by lia.
  destruct (d + 0 - 24 - 0) as [|k|k] eqn:Ek.
  - destruct (binary_round_aux_normal32_Q b 0 loc_Exact) as (m & e & E & Hm & He & Hq); fold d; try lia.
    fold d in He. exists m, e. repeat split; try assumption; try lia.
    eapply Qle_trans; [exact Hq|]. apply Qmult_le_compat_r; [|unfold ulp_ratio32; lra].
    unfold Qval. cbn. lra.
  - destruct (binary_round_aux_normal32_Q b 0 loc_Exact) as (m & e & E & Hm & He & Hq); fold d; try lia.
    fold d in He. exists m, e. repeat split; try assumption; try lia.
    eapply Qle_trans; [exact Hq|]. apply Qmult_le_compat_r; [|unfold ulp_ratio32; lra].
    unfold Qval. cbn. lra.
  - pose proof (iter_xO_mul k b) as Hmz.
    set (mz := Pos.iter xO b k) in *.
    assert (Hk : Zpos k = 24 - d) by lia.
    assert (Hsplit : 2 ^ 24 = 2 ^ d * 2 ^ Zpos k).
    { rewrite <- Z.pow_add_r by lia. f_equal. lia. }
    assert (Hsplit' : 2 ^ 23 = 2 ^ (d - 1) * 2 ^ Zpos k).
    { rewrite <- Z.pow_add_r by lia. f_equal. lia. }
    assert (Hp : 0 < 2 ^ Zpos k) by (apply Z.pow_pos_nonneg; lia).
    assert (Dz : Zpos (digits2_pos mz) = 24).
    { apply digits2_pos_unique. change (24 - 1) with 23. rewrite Hmz. nia. }
    destruct (binary_round_aux_normal32_Q mz (d + 0 - 24) loc_Exact) as (m & e & E & Hm & He & Hq);
      rewrite ?Dz; try lia.
    rewrite Dz in He.
    exists m, e. repeat split; try assumption; try lia.
    eapply Qle_trans; [exact Hq|]. apply Qmult_le_compat_r; [|unfold ulp_ratio32; lra].
    replace (d + 0 - 24) with (- Zpos k) by lia.
    rewrite (Qval_exact_shift b (Zpos k)) by (try lia; assumption). apply Qle_refl.
Qed.

Lemma SFmul32_normal_spec (m1 m2 : positive) (e1 e2 : Z) :
  2 ^ 23 <= Zpos m1 < 2 ^ 24 -> 2 ^ 23 <= Zpos m2 < 2 ^ 24 ->
  -100 <= e1 + e2 <= 70 ->
  exists m e,
    SFmul 24 128 (S754_finite false m1 e1) (S754_finite false m2 e2)
      = S754_finite false m e
    /\ 2 ^ 23 <= Zpos m < 2 ^ 24
    /\ e1 + e2 + 23 <= e <= e1 + e2 + 25
    /\ (Qval m e <= Qval m1 e1 * Qval m2 e2 * ulp_ratio32)%Q.
Proof.
  intros H1 H2 He.
  cbn [SFmul xorb].
  pose proof (digits2_pos_bounds (m1 * m2)) as [Dlo Dhi].
  set (d := Zpos (digits2_pos (m1 * m2))) in *.
  rewrite Pos2Z.inj_mul in Dlo, Dhi.
  assert (Hd : 47 <= d <= 48).
  { split.
    - destruct (Z_lt_le_dec d 47) as [Hlt|]; [|assumption].
      assert (2 ^ d <= 2 ^ 46) by (apply Z.pow_le_mono_r; lia).
      assert (2 ^ 46 = 2 ^ 23 * 2 ^ 23) by reflexivity. nia.
    - destruct (Z_lt_le_dec 48 d) as [Hlt|]; [|assumption].
      assert (2 ^ 48 <= 2 ^ (d - 1)) by (apply Z.pow_le_mono_r; lia).
      assert (2 ^ 48 = 2 ^ 24 * 2 ^ 24) by reflexivity. nia. }
  destruct (binary_round_aux_normal32_Q (m1 * m2) (e1 + e2) loc_Exact) as (m & e & E & Hm & Hee & Hq);
    fold d; try lia.
  fold d in Hee.
  exists m, e. repeat split; try assumption; try lia.
  rewrite <- Qval_mul. assumption.
Qed.

Lemma scale_trunc32_spec (b : Z) (mc : positive) (ec : Z) :
  0 < b < 2 ^ 63 -> 2 ^ 23 <= Zpos mc < 2 ^ 24 -> -30 <= ec <= -20 ->
  exists z,
    SFtrunc (f32_mul (f32_of_Z b) (S754_finite false mc ec)) = Some z
    /\ 0 <= z
    /\ (inject_Z z <= inject_Z b * (ulp_ratio32 * Qval mc ec * ulp_ratio32))%Q.
Proof.
  intros Hb Hmc Hec.
  destruct b as [|p|p]; try lia.
  pose proof (digits2_pos_le p 63 (proj2 Hb)) as Hd.
  pose proof (digits2_pos_bounds p) as [_ Dhi].
  assert (Hd1 : 1 <= Zpos (digits2_pos p)) by lia.
  destruct (f32_of_Z_pos_spec p) as (m1 & e1 & E1 & Hm1 & He1 & Hq1); [lia|].
  destruct (SFmul32_normal_spec m1 mc e1 ec) as (m & e & E & Hm & He & Hq); try assumption; [lia|].
  destruct (SFtrunc_finite_pos m e) as (z & Ez & Hz & Hzq).
  exists z. unfold f32_mul. rewrite E1, E. repeat split; try assumption.
  pose proof (Qval_pos mc ec) as Hc.
  assert (Hu : (0 < ulp_ratio32)%Q) by (unfold ulp_ratio32; lra).
  eapply Qle_trans; [exact Hzq|]. eapply Qle_trans; [exact Hq|].
  setoid_replace (inject_Z (Zpos p) * (ulp_ratio32 * Qval mc ec * ulp_ratio32))%Q
    with ((inject_Z (Zpos p) * ulp_ratio32) * (Qval mc ec * ulp_ratio32))%Q by ring.
  rewrite <- Qmult_assoc.
  apply Qmult_le_compat_r; [assumption|].
  apply Qlt_le_weak, Qmult_lt_0_compat; assumption.
Qed.

Lemma scale32_to_int64_bound (b : Z) (mc : positive) (ec : Z) (N D : positive) :
  0 <= b -> 2 ^ 23 <= Zpos mc < 2 ^ 24 -> -30 <= ec <= -20 ->
  (ulp_ratio32 * Qval mc ec * ulp_ratio32 <= Zpos N # D)%Q ->
  b * Zpos N < 2 ^ 63 * Zpos D -> b < 2 ^ 63 ->
  let r := float_to_int64 (f32_mul (f32_of_Z b) (S754_finite false mc ec)) in
  0 <= r /\ r * Zpos D <= b * Zpos N.
Proof.
  intros Hb Hmc Hec HK Hrange Hb63 r.
  destruct (Z.eq_dec b 0) as [->|Hb0].
  - subst r. cbn. lia.
  - destruct (scale_trunc32_spec b mc ec) as (z & Ez & Hz & Hzq); try assumption; [lia|].
    assert (Hzb : z * Zpos D <= b * Zpos N).
    { assert (Hq : (inject_Z z <= inject_Z b * (Zpos N # D))%Q).
      { eapply Qle_trans; [exact Hzq|].
        rewrite !(Qmult_comm (inject_Z b)).
        apply Qmult_le_compat_r; [exact HK|].
        change 0%Q with (inject_Z 0). rewrite <- Zle_Qle. lia. }
      unfold Qle in Hq. cbn in Hq. lia. }
    subst r. unfold float_to_int64. rewrite Ez.
    assert (Hin : (MinInt64 <=? z) && (z <=? MaxInt64) = true).
    { apply andb_true_iff. unfold MinInt64, MaxInt64. split; apply Z.leb_le; nia. }
    rewrite Hin. split; assumption.
Qed.

Lemma SFmul_finite_comm (prec emax : Z) (s1 s2 : bool) (m1 m2 : positive) (e1 e2 : Z) :
  SFmul prec emax (S754_finite s1 m1 e1) (S754_finite s2 m2 e2)
  = SFmul prec emax (S754_finite s2 m2 e2) (S754_finite s1 m1 e1).
Proof.
  cbn [SFmul]. rewrite (Pos.mul_comm m1 m2), (Z.add_comm e1 e2), (xorb_comm s1 s2).
  reflexivity.
Qed.

Lemma f32_mul_of_Z_comm (b : Z) (mc : positive) (ec : Z) :
  0 <= b < 2 ^ 63 ->
  f32_mul (S754_finite false mc ec) (f32_of_Z b)
  = f32_mul (f32_of_Z b) (S754_finite false mc ec).
Proof.
  intros Hb. destruct b as [|p|p]; [reflexivity | | lia].
  pose proof (digits2_pos_le p 63 (proj2 Hb)) as Hd.
  destruct (f32_of_Z_pos_spec p) as (m & e & E & _); [lia|].
  rewrite E. apply SFmul_finite_comm.
Qed.

(** ** Integers that do not wrap *)

Lemma wrap64_small (z : Z) : MinInt64 <= z <= MaxInt64 -> wrap64 z = z.
Proof.
  unfold MinInt64, MaxInt64, wrap64. intros Hz.
  rewrite Z.mod_small by lia. lia.
Qed.

Lemma wrap64_range (z : Z) : MinInt64 <= wrap64 z <= MaxInt64.
Proof.
  unfold MinInt64, MaxInt64, wrap64.
  pose proof (Z.mod_pos_bound (z + 2 ^ 63) (2 ^ 64)). lia.
Qed.

(** ** Hysteria *)

Module HysteriaFacts.
Import Hysteria HysteriaRun HysteriaSpec.

(** The constants of [hysteria.go] as binary64 values. *)
Lemma const_0_75 : f64_const 75 100 = S754_finite false 6755399441055744 (-53).
Proof. vm_compute. reflexivity. Qed.

Lemma const_0_85 : f64_const 85 100 = S754_finite false 7656119366529843 (-53).
Proof. vm_compute. reflexivity. Qed.

Lemma const_1_25 : f64_const 125 100 = S754_finite false 5629499534213120 (-52).
Proof. vm_compute. reflexivity. Qed.

Lemma const_1_1 : f64_const 11 10 = S754_finite false 4953959590107546 (-52).
Proof. vm_compute. reflexivity. Qed.

(** Scaling a rate down by [0.75] or [0.85] never raises it, and keeps it
    non-negative. *)
Lemma scaleBps_shrinks (b : Z) (c : f64) :
  c = f64_const 75 100 \/ c = f64_const 85 100 ->
  0 <= b <= MaxInt64 ->
  0 <= scaleBps b c <= b.
Proof.
  intros Hc Hb. unfold MaxInt64 in Hb. unfold scaleBps.
  destruct Hc as [-> | ->]; rewrite ?const_0_75, ?const_0_85.
  - destruct (scale_to_int64_bound b 6755399441055744 (-53) 1 1) as [H0 H1];
      try lia; apply Qle_bool_imp_le; vm_compute; reflexivity.
  - destruct (scale_to_int64_bound b 7656119366529843 (-53) 1 1) as [H0 H1];
      try lia; apply Qle_bool_imp_le; vm_compute; reflexivity.
Qed.

(** Growing a rate by [1.25] or [1.1] stays within [int64] for rates below
    [2^61]: the result is non-negative and at most twice the rate. *)
Lemma scaleBps_grows_in_range (b : Z) (g : f64) :
  g = f64_const 125 100 \/ g = f64_const 11 10 ->
  0 <= b < 2 ^ 61 ->
  0 <= scaleBps b g <= 2 * b.
Proof.
  intros Hg Hb. unfold scaleBps.
  destruct Hg as [-> | ->]; rewrite ?const_1_25, ?const_1_1.
  - destruct (scale_to_int64_bound b 5629499534213120 (-52) 2 1) as [H0 H1];
      try lia; apply Qle_bool_imp_le; vm_compute; reflexivity.
  - destruct (scale_to_int64_bound b 4953959590107546 (-52) 2 1) as [H0 H1];
      try lia; apply Qle_bool_imp_le; vm_compute; reflexivity.
Qed.

(** *** The constructor *)

(** For the bandwidths of the [0.6] branch the float product, truncated, is
    the integer [6 * targetBps / 10]: checked on each of the hundred cases. *)
Lemma scaleBps_0_6_table :
  forallb (fun k => scaleBps (Z.of_nat k * 131072) (f64_const 6 10)
                    =? 6 * (Z.of_nat k * 131072) / 10)
          (seq 1 100) = true.
Proof. vm_compute. reflexivity. Qed.

Lemma scaleBps_0_6 (m : Z) :
  1 <= m <= 100 ->
  scaleBps (m * 131072) (f64_const 6 10) = 6 * (m * 131072) / 10.
Proof.
  intros Hm.
  pose proof scaleBps_0_6_table as T. rewrite forallb_forall in T.
  specialize (T (Z.to_nat m)). rewrite Z2Nat.id in T by lia.
  apply Z.eqb_eq, T, in_seq. lia.
Qed.

Lemma NewHysteriaSender_targetBps (rtt : RTTStats) (mds mbps now : Z) :
  mbps < 2 ^ 43 ->
  targetBps (NewHysteriaSender rtt mds mbps now)
  = (if mbps <=? 0 then 10 else mbps) * 131072.
Proof.
  intros Hm. cbn [NewHysteriaSender targetBps].
  set (m := if mbps <=? 0 then 10 else mbps).
  assert (Hm' : 1 <= m < 2 ^ 43) by (unfold m; destruct (Z.leb_spec mbps 0); lia).
  unfold mul64.
  rewrite (wrap64_small (m * 1024)) by (unfold MinInt64, MaxInt64; lia).
  rewrite (wrap64_small (m * 1024 * 1024)) by (unfold MinInt64, MaxInt64; lia).
  unfold quot64.
  replace (m * 1024 * 1024) with (m * 131072 * 8) by lia.
  rewrite Z.quot_mul by lia.
  apply wrap64_small. unfold MinInt64, MaxInt64; lia.
Qed.

Lemma NewHysteriaSender_currentBps (rtt : RTTStats) (mds mbps now : Z) :
  let h := NewHysteriaSender rtt mds mbps now in
  let m := if mbps <=? 0 then 10 else mbps in
  let initialBps :=
    if 100 <? m then 100 * 1024 * 1024 / 8
    else scaleBps (targetBps h) (f64_const 6 10) in
  currentBps h = (if initialBps <? minStartBps then minStartBps else initialBps)
  /\ stableBps h = currentBps h.
Proof. split; reflexivity. Qed.

(** The rates the constructor sets, with the constants evaluated. *)
Lemma NewHysteriaSender_initialBps (rtt : RTTStats) (mds mbps now : Z) :
  mbps < 2 ^ 43 ->
  let m := if mbps <=? 0 then 10 else mbps in
  let h := NewHysteriaSender rtt mds mbps now in
  targetBps h = m * 131072
  /\ stableBps h = currentBps h
  /\ currentBps h =
       (if 100 <? m then 13107200 else Z.max (6 * targetBps h / 10) 131072).
Proof.
  intros Hm m h.
  pose proof (NewHysteriaSender_targetBps rtt mds mbps now Hm) as Ht.
  fold m h in Ht.
  destruct (NewHysteriaSender_currentBps rtt mds mbps now) as [Hc Hs].
  fold m h in Hc, Hs.
  change (100 * 1024 * 1024 / 8) with 13107200 in *.
  split; [exact Ht|]. split; [exact Hs|].
  rewrite Hc. change minStartBps with 131072.
  destruct (Z.ltb_spec 100 m) as [Hbig|Hsmall].
  - reflexivity.
  - assert (Hm' : 1 <= m <= 100) by (unfold m in *; destruct (Z.leb_spec mbps 0); lia).
    rewrite Ht, scaleBps_0_6 by assumption.
    destruct (Z.ltb_spec (6 * (m * 131072) / 10) 131072); lia.
Qed.

(** C8, as amended.  For every [mbps] whose byte rate the constructor can
    compute without overflow ([mbps < 2^43]), with [m] standing for [mbps],
    or for 10 when [mbps <= 0]: [targetBps = m * 1 Mbps/8]; the initial and
    the stable rate are equal, [100 Mbps/8] when [m > 100] and otherwise
    [0.6 * targetBps] (the integer [6 * targetBps / 10]) floored at
    [1 Mbps/8]. *)
Theorem NewHysteriaSender_rates (rtt : RTTStats) (mds mbps now : Z) :
  mbps < 2 ^ 43 ->
  let m := if mbps <=? 0 then 10 else mbps in
  let h := NewHysteriaSender rtt mds mbps now in
  targetBps h = m * (1024 * 1024 / 8)
  /\ stableBps h = currentBps h
  /\ currentBps h =
       (if 100 <? m then 100 * 1024 * 1024 / 8
        else Z.max (6 * targetBps h / 10) (1024 * 1024 / 8)).
Proof.
  intros Hm. exact (NewHysteriaSender_initialBps rtt mds mbps now Hm).
Qed.

(** The witness of C8: the constructor at 50 Mbps. *)
Lemma NewHysteriaSender_rates_witness :
  50 < 2 ^ 43 /\
  let m := if 50 <=? 0 then 10 else 50 in
  let h := NewHysteriaSender (mkRTT 0 0 0) 1200 50 0 in
  targetBps h = m * (1024 * 1024 / 8)
  /\ stableBps h = currentBps h
  /\ currentBps h =
       (if 100 <? m then 100 * 1024 * 1024 / 8
        else Z.max (6 * targetBps h / 10) (1024 * 1024 / 8)).
Proof.
  split; [lia | apply (NewHysteriaSender_rates (mkRTT 0 0 0) 1200 50 0); lia].
Defined.

(** The three boundary cases the specification lists. *)
Lemma NewHysteriaSender_boundary_cases (rtt : RTTStats) (mds now : Z) :
  currentBps (NewHysteriaSender rtt mds 50 now) = 6 * (50 * (1024 * 1024 / 8)) / 10
  /\ currentBps (NewHysteriaSender rtt mds 200 now) = 100 * (1024 * 1024 / 8)
  /\ currentBps (NewHysteriaSender rtt mds 1 now) = 1024 * 1024 / 8.
Proof. repeat split; vm_compute; reflexivity. Qed.

(** The counterexample to C8 as stated: at [mbps = 2^43] the product
    [mbps * 1024 * 1024] wraps, and the target rate is [-2^60] where the
    claim has [2^60]. *)
Lemma NewHysteriaSender_target_wraps :
  targetBps (NewHysteriaSender (mkRTT 0 0 0) 1200 (2 ^ 43) 0) = - 2 ^ 60
  /\ 2 ^ 43 * (1024 * 1024 / 8) = 2 ^ 60.
Proof. split; vm_compute; reflexivity. Qed.

(** *** The floor of one megabit per second *)

(** C2 fails on the code.  A sender built for 1 Mbps starts at the floor;
    one congestion event whose loss rate is over the threshold cuts it to
    [0.75 * stableBps = 98304], below [minStartBps = 131072]. *)
Theorem OnCongestionEvent_cuts_below_minStartBps :
  let h0 := NewHysteriaSender (mkRTT 0 0 0) 1200 1 0 in
  let h1 := OnCongestionEvent 1 1200 1200 h0 in
  currentBps h0 = minStartBps
  /\ currentBps h1 = 98304
  /\ currentBps h1 < minStartBps.
Proof. repeat split. Qed.

(** After 39 such rounds the rate is zero, and the next [OnPacketSent]
    divides by it. *)
Lemma repeated_cuts_reach_zero :
  let h0 := NewHysteriaSender (mkRTT 0 0 0) 1200 1 0 in
  option_map currentBps (run (cut_and_consolidate 39) h0) = Some 0
  /\ run (cut_and_consolidate 39 ++ [CallOnPacketSent 0 0 0 3 1200 true]) h0 = None.
Proof. split; vm_compute; reflexivity. Qed.

(** *** The ceiling: [currentBps <= targetBps] *)

Ltac fields :=
  cbn [rttStats targetBps currentBps stableBps maxDatagram nextSendTime rttHistory
       rttIdx maxRTT rttCount set_rttStats set_currentBps set_stableBps
       set_maxDatagram set_nextSendTime set_rttHistory set_rttIdx set_maxRTT
       set_rttCount] in *.

Lemma invariant_new (rtt : RTTStats) (mds mbps now : Z) :
  mbps < 2 ^ 43 -> invariant (NewHysteriaSender rtt mds mbps now).
Proof.
  intros Hm.
  destruct (NewHysteriaSender_initialBps rtt mds mbps now Hm) as (Ht & Hs & Hc).
  set (h := NewHysteriaSender rtt mds mbps now) in *.
  set (m := if mbps <=? 0 then 10 else mbps) in *.
  assert (Hm' : 1 <= m < 2 ^ 43) by (unfold m; destruct (Z.leb_spec mbps 0); lia).
  assert (Hcur : 0 <= currentBps h <= targetBps h).
  { rewrite Hc. destruct (Z.ltb_spec 100 m); [lia|].
    assert (6 * targetBps h / 10 <= targetBps h).
    { apply Z.div_le_upper_bound; lia. }
    lia. }
  split.
  - exact Hcur.
  - rewrite Hs. exact Hcur.
  - unfold minStartBps. change (1024 * 1024 / 8) with 131072. lia.
  - unfold h. cbn. lia.
  - unfold h, rttWindowSize. cbn. lia.
  - reflexivity.
Qed.

Lemma array_set_length (a : list Z) : forall (i : nat) (v : Z),
  (i < length a)%nat ->
  exists a', array_set a i v = Some a' /\ length a' = length a.
Proof.
  induction a as [|x a IH]; intros i v Hi; cbn in Hi; [lia|].
  destruct i as [|j]; cbn [array_set].
  - exists (v :: a). split; reflexivity.
  - destruct (IH j v) as (a' & E & L); [lia|].
    rewrite E. cbn [bind]. exists (x :: a'). cbn. split; [reflexivity | lia].
Qed.

Lemma array_store_length (a : list Z) (i v : Z) :
  0 <= i < Z.of_nat (length a) ->
  exists a', array_store a i v = Some a' /\ length a' = length a.
Proof.
  intros Hi. unfold array_store.
  destruct (Z.ltb_spec i 0); [lia|].
  apply array_set_length. lia.
Qed.

Lemma updateRTTAndCheckJitter_unfold (h : hysteriaSender) :
  updateRTTAndCheckJitter h =
  let rtt := LatestRTT (rttStats h) in
  if rtt <=? 0 then Some h
  else hist <- array_store (rttHistory h) (rttIdx h) rtt ;;
       Some (dampOnJitter rtt (recordRTT rtt hist h)).
Proof.
  unfold updateRTTAndCheckJitter, dampOnJitter, recordRTT. cbv zeta.
  destruct (LatestRTT (rttStats h) <=? 0); [reflexivity|].
  destruct (array_store _ _ _) as [hist|]; [|reflexivity]. cbn [bind].
  cbn [rttIdx set_rttHistory maxRTT set_rttIdx rttStats].
  destruct (maxRTT h <? LatestRTT (rttStats h));
    cbn [rttStats set_maxRTT set_rttIdx set_rttHistory currentBps];
    destruct ((20 * Millisecond <? SmoothedRTT (rttStats h))
              && (mul64 (SmoothedRTT (rttStats h)) 2 <? LatestRTT (rttStats h)));
    reflexivity.
Qed.

Lemma recordRTT_invariant (rtt : Z) (hist : list Z) (h : hysteriaSender) :
  invariant h -> length hist = length (rttHistory h) ->
  invariant (recordRTT rtt hist h)
  /\ rttCount (recordRTT rtt hist h) = rttCount h
  /\ targetBps (recordRTT rtt hist h) = targetBps h
  /\ rttStats (recordRTT rtt hist h) = rttStats h
  /\ currentBps (recordRTT rtt hist h) = currentBps h.
Proof.
  intros [Hc Hs Ht Hn Hi Hl] L. unfold recordRTT. cbv zeta.
  cbn [rttIdx set_rttHistory].
  assert (Hidx' : 0 <= rem64 (add64 (rttIdx h) 1) rttWindowSize < rttWindowSize).
  { unfold rem64, add64, rttWindowSize in *.
    rewrite wrap64_small by (unfold MinInt64, MaxInt64; lia).
    apply Z.rem_bound_pos; lia. }
  destruct (_ <? rtt); (split; [split; fields; try assumption; rewrite L; exact Hl
                               | repeat split]).
Qed.

Lemma dampOnJitter_invariant (rtt : Z) (h : hysteriaSender) :
  invariant h ->
  invariant (dampOnJitter rtt h)
  /\ rttCount (dampOnJitter rtt h) = rttCount h
  /\ targetBps (dampOnJitter rtt h) = targetBps h
  /\ rttStats (dampOnJitter rtt h) = rttStats h.
Proof.
  intros Hinv. pose proof Hinv as [Hc Hs Ht Hn Hi Hl]. unfold dampOnJitter. cbv zeta.
  destruct (_ && _); [|split; [exact Hinv | repeat split]].
  assert (Hb : 0 <= currentBps h <= MaxInt64) by (unfold MaxInt64; lia).
  pose proof (scaleBps_shrinks (currentBps h) (f64_const 85 100)
                (or_intror eq_refl) Hb) as Hsh.
  fields.
  destruct (Z.ltb_spec (scaleBps (currentBps h) (f64_const 85 100)) minStartBps);
    (split; [split; fields; try assumption; unfold minStartBps in *; lia
            | repeat split]).
Qed.

(** The jitter check never panics on a reachable sender; it keeps the
    invariant and touches neither [rttCount], [targetBps] nor the oracle. *)
Lemma updateRTTAndCheckJitter_invariant (h : hysteriaSender) :
  invariant h ->
  exists h1,
    updateRTTAndCheckJitter h = Some h1
    /\ invariant h1
    /\ rttCount h1 = rttCount h
    /\ targetBps h1 = targetBps h
    /\ rttStats h1 = rttStats h.
Proof.
  intros Hinv. pose proof Hinv as [Hc Hs Ht Hn Hi Hl].
  rewrite updateRTTAndCheckJitter_unfold. cbv zeta.
  destruct (Z.leb_spec (LatestRTT (rttStats h)) 0) as [_|Hrtt].
  { exists h. split; [reflexivity|]. split; [exact Hinv|]. repeat split. }
  destruct (array_store_length (rttHistory h) (rttIdx h) (LatestRTT (rttStats h)))
    as (a' & E & L).
  { rewrite Hl. unfold rttWindowSize in *. lia. }
  rewrite E. cbn [bind].
  destruct (recordRTT_invariant (LatestRTT (rttStats h)) a' h Hinv L)
    as (I2 & R2 & T2 & S2 & _).
  destruct (dampOnJitter_invariant (LatestRTT (rttStats h)) _ I2)
    as (I3 & R3 & T3 & S3).
  eexists. split; [reflexivity|]. split; [exact I3|].
  repeat split; congruence.
Qed.

(** What [OnPacketAcked] does to a sender that satisfies the invariant: it
    returns, keeps the invariant, counts the ack, and on the fourth count
    resets the counter and grows the rate towards the target. *)
Lemma OnPacketAcked_invariant (h : hysteriaSender) (pn ackedBytes priorInFlight eventTime : Z) :
  invariant h ->
  exists h1 h',
    updateRTTAndCheckJitter h = Some h1
    /\ OnPacketAcked pn ackedBytes priorInFlight eventTime h = Some h'
    /\ invariant h'
    /\ targetBps h' = targetBps h
    /\ rttCount h' = (if rttCount h + 1 =? 4 then 0 else rttCount h + 1)
    /\ currentBps h' =
         (if (rttCount h + 1 =? 4) && (currentBps h1 <? targetBps h)
          then Z.min (scaleBps (currentBps h1) (growFactor (rttStats h))) (targetBps h)
          else currentBps h1).
Proof.
  intros Hinv.
  destruct (updateRTTAndCheckJitter_invariant h Hinv) as (h1 & E & I1 & R1 & T1 & S1).
  pose proof Hinv as [_ _ _ Hn _ _].
  pose proof I1 as [Hc Hs Ht _ Hi Hl].
  exists h1. unfold OnPacketAcked. rewrite E. cbn [bind]. fields.
  rewrite R1, S1, T1 in *. fold (growFactor (rttStats h)).
  assert (Hadd : add64 (rttCount h) 1 = rttCount h + 1).
  { unfold add64. apply wrap64_small. unfold MinInt64, MaxInt64. lia. }
  rewrite Hadd.
  destruct (Z.leb_spec 4 (rttCount h + 1)) as [H4|H4];
    destruct (Z.eqb_spec (rttCount h + 1) 4) as [H4'|H4']; try lia; cbn [andb].
  - destruct (Z.ltb_spec (currentBps h1) (targetBps h)) as [Hlt|Hge].
    + assert (Hg : 0 <= scaleBps (currentBps h1) (growFactor (rttStats h))
                   <= 2 * currentBps h1).
      { apply scaleBps_grows_in_range; [|lia].
        unfold growFactor. destruct (_ <? _); auto. }
      destruct (Z.ltb_spec (targetBps h)
                  (scaleBps (currentBps h1) (growFactor (rttStats h)))) as [Hup|Hup];
        eexists; (split; [reflexivity|]); (split; [reflexivity|]);
        (split; [split; fields; rewrite ?T1; try assumption; lia|]);
        fields; repeat split; try assumption; lia.
    + eexists. split; [reflexivity|]. split; [reflexivity|].
      split; [split; fields; rewrite ?T1; try assumption; lia|].
      fields. repeat split; assumption.
  - eexists. split; [reflexivity|]. split; [reflexivity|].
    split; [split; fields; rewrite ?T1; try assumption; lia|].
    fields. repeat split; assumption.
Qed.

Lemma OnCongestionEvent_invariant (pn lostBytes priorInFlight : Z) (h : hysteriaSender) :
  invariant h -> invariant (OnCongestionEvent pn lostBytes priorInFlight h).
Proof.
  intros [Hc Hs Ht Hn Hi Hl]. unfold OnCongestionEvent. cbv zeta.
  destruct (SFltb _ _).
  - assert (Hb : 0 <= stableBps h <= MaxInt64) by (unfold MaxInt64; lia).
    pose proof (scaleBps_shrinks (stableBps h) (f64_const 75 100)
                  (or_introl eq_refl) Hb) as Hsh.
    split; fields; try assumption; lia.
  - split; fields; try assumption; lia.
Qed.

Lemma OnRetransmissionTimeout_invariant (b : bool) (h : hysteriaSender) :
  invariant h -> invariant (OnRetransmissionTimeout b h).
Proof.
  intros [Hc Hs Ht Hn Hi Hl]. unfold OnRetransmissionTimeout.
  split; fields; try assumption. change minStartBps with 131072 in *. lia.
Qed.

Lemma OnPacketSent_only_nextSendTime
    (now sentTime bytesInFlight packetNumber bytes : Z) (r : bool)
    (h h' : hysteriaSender) :
  OnPacketSent now sentTime bytesInFlight packetNumber bytes r h = Some h' ->
  exists t, h' = set_nextSendTime t h.
Proof.
  unfold OnPacketSent. cbv zeta.
  destruct (currentBps h =? 0); [discriminate|].
  intros E. injection E as <-.
  destruct (Time_Before _ _); fields;
    destruct (Time_After _ _); eexists; reflexivity.
Qed.

Lemma step_invariant (k : call) (h h' : hysteriaSender) :
  invariant h -> step k h = Some h' -> invariant h'.
Proof.
  intros Hinv E. destruct k; cbn [step] in E.
  - destruct (OnPacketSent_only_nextSendTime _ _ _ _ _ _ _ _ E) as [t ->].
    destruct Hinv. split; fields; assumption.
  - destruct (OnPacketAcked_invariant h pn ackedBytes priorInFlight eventTime Hinv)
      as (h1 & h2 & _ & E2 & I2 & _).
    congruence.
  - injection E as <-. apply OnCongestionEvent_invariant, Hinv.
  - injection E as <-. apply OnRetransmissionTimeout_invariant, Hinv.
  - injection E as <-. exact Hinv.
  - injection E as <-. destruct Hinv. split; fields; assumption.
  - injection E as <-. destruct Hinv. split; fields; assumption.
Qed.

Lemma run_invariant (ks : list call) : forall h h' : hysteriaSender,
  invariant h -> run ks h = Some h' -> invariant h'.
Proof.
  induction ks as [|k ks IH]; intros h h' Hinv E; cbn [run] in E.
  - injection E as <-. exact Hinv.
  - destruct (step k h) as [h1|] eqn:E1; cbn [bind] in E; [|discriminate].
    eapply IH; [|exact E]. eapply step_invariant; eassumption.
Qed.

Lemma reachable_invariant (h : hysteriaSender) : reachable h -> invariant h.
Proof.
  intros (rtt & mds & mbps & now & ks & [_ Hm] & E).
  eapply run_invariant; [|exact E]. apply invariant_new, Hm.
Qed.



(** The growth cadence of the specification's scenario: 50 Mbps target, the
    rate at 5 Mbps/8, RTT 200 ms.  Four acks count 1, 2, 3 and then reset to
    0 with the rate multiplied by 1.25; the fifth counts 1 and leaves the
    rate. *)
Lemma growth_cadence_scenario :
  let h := set_currentBps (5 * 131072)
             (NewHysteriaSender (mkRTT (200 * Millisecond) 0 0) 1200 50 0) in
  let ack := CallOnPacketAcked 1 1200 1200 0 in
  option_map (fun h => (rttCount h, currentBps h)) (run [ack; ack; ack] h)
    = Some (3, 5 * 131072)
  /\ option_map (fun h => (rttCount h, currentBps h)) (run [ack; ack; ack; ack] h)
    = Some (0, 125 * (5 * 131072) / 100)
  /\ option_map (fun h => (rttCount h, currentBps h))
       (run [ack; ack; ack; ack; ack] h)
    = Some (1, 125 * (5 * 131072) / 100).
Proof. repeat split; vm_compute; reflexivity. Qed.

(** The pacing scenario: at 1,000,000 bytes per second a 1000-byte packet
    moves the next send time one millisecond past [max(now, nextSendTime)],
    within the 20 ms burst limit. *)
Lemma pacing_scenario :
  let h := set_currentBps 1000000
             (NewHysteriaSender (mkRTT 0 0 0) 1200 50 0) in
  nextSendTime h = - (100 * Millisecond)
  /\ option_map nextSendTime (OnPacketSent 0 0 0 1 1000 true h)
     = Some (1 * Millisecond)
  /\ option_map nextSendTime
       (run [CallOnPacketSent 0 0 0 1 1000 true; CallOnPacketSent 0 0 1000 2 1000 true] h)
     = Some (2 * Millisecond).
Proof. repeat split. Qed.

(** The window of a Hysteria sender is 1 MiB without an RTT sample and at
    least 32 datagrams with one; for datagram sizes up to 512 KiB it is never
    below two datagrams. *)
Lemma GetCongestionWindow_at_least_two_datagrams (h : hysteriaSender) :
  0 <= maxDatagram h <= 524288 ->
  2 * maxDatagram h <= GetCongestionWindow h.
Proof.
  intros Hd. unfold GetCongestionWindow. cbv zeta.
  destruct (SmoothedRTT (rttStats h) =? 0); [lia|].
  unfold mul64. rewrite wrap64_small by (unfold MinInt64, MaxInt64; lia).
  destruct (Z.ltb_spec (float_to_int64
                          (f64_mul (f64_mul (f64_of_Z (currentBps h))
                                      (Seconds (SmoothedRTT (rttStats h))))
                             (if 180 * Millisecond <=? SmoothedRTT (rttStats h)
                              then f64_const 11 10
                              else if 100 * Millisecond <=? SmoothedRTT (rttStats h)
                                   then f64_const 13 10 else f64_const 15 10)))
             (32 * maxDatagram h)); lia.
Qed.

(** *** The ring of RTT samples *)

Lemma array_set_nth (a : list Z) : forall (i : nat) (v : Z) (a' : list Z),
  array_set a i v = Some a' ->
  nth i a' 0 = v
  /\ (forall j, j <> i -> nth j a' 0 = nth j a 0)
  /\ length a' = length a.
Proof.
  induction a as [|x a IH]; intros i v a' E; cbn [array_set] in E; [discriminate|].
  destruct i as [|i].
  - injection E as <-. split; [reflexivity|]. split; [|reflexivity].
    intros [|j] Hj; [lia | reflexivity].
  - destruct (array_set a i v) as [t|] eqn:Et; cbn [bind] in E; [|discriminate].
    injection E as <-. destruct (IH i v t Et) as (N & O & L).
    split; [exact N|]. split; [|cbn; lia].
    intros [|j] Hj; [reflexivity|]. cbn [nth]. apply O. lia.
Qed.

Lemma array_set_none (a : list Z) : forall (i : nat) (v : Z),
  (length a <= i)%nat -> array_set a i v = None.
Proof.
  induction a as [|x a IH]; intros i v Hi; [reflexivity|].
  destruct i as [|i]; cbn in Hi; [lia|].
  cbn [array_set]. rewrite IH by lia. reflexivity.
Qed.

(** A positive sample is written at [rttIdx], the other nine slots keep
    their values, the index moves on modulo the ring size and [maxRTT] is the
    larger of its old value and the sample.  An index outside the ring is the
    index-out-of-range panic. *)
Theorem updateRTTAndCheckJitter_records_sample (h : hysteriaSender) :
  0 < LatestRTT (rttStats h) ->
  length (rttHistory h) = Z.to_nat rttWindowSize ->
  (0 <= rttIdx h < rttWindowSize ->
   exists h1,
     updateRTTAndCheckJitter h = Some h1
     /\ nth (Z.to_nat (rttIdx h)) (rttHistory h1) 0 = LatestRTT (rttStats h)
     /\ (forall j, j <> Z.to_nat (rttIdx h) ->
                   nth j (rttHistory h1) 0 = nth j (rttHistory h) 0)
     /\ length (rttHistory h1) = Z.to_nat rttWindowSize
     /\ rttIdx h1 = (rttIdx h + 1) mod rttWindowSize
     /\ maxRTT h1 = Z.max (maxRTT h) (LatestRTT (rttStats h)))
  /\ (rttIdx h < 0 \/ rttWindowSize <= rttIdx h ->
      updateRTTAndCheckJitter h = None).
Proof.
  intros Hrtt Hlen. rewrite updateRTTAndCheckJitter_unfold. cbv zeta.
  destruct (Z.leb_spec (LatestRTT (rttStats h)) 0) as [?|_]; [lia|].
  split.
  - intros Hidx.
    destruct (array_store_length (rttHistory h) (rttIdx h) (LatestRTT (rttStats h)))
      as (a' & E & L).
    { rewrite Hlen. unfold rttWindowSize in *. lia. }
    rewrite E. cbn [bind].
    unfold array_store in E. destruct (Z.ltb_spec (rttIdx h) 0); [lia|].
    destruct (array_set_nth _ _ _ _ E) as (N & O & _).
    eexists. split; [reflexivity|].
    assert (Hi : rem64 (add64 (rttIdx h) 1) rttWindowSize
                 = (rttIdx h + 1) mod rttWindowSize).
    { unfold rem64, add64, rttWindowSize in *.
      rewrite wrap64_small by (unfold MinInt64, MaxInt64; lia).
      apply Z.rem_mod_nonneg; lia. }
    unfold dampOnJitter, recordRTT. cbv zeta. fields.
    destruct (Z.ltb_spec (maxRTT h) (LatestRTT (rttStats h)));
      fields; destruct (_ && _); fields;
      try destruct (_ <? minStartBps); fields;
      (split; [exact N|]); (split; [exact O|]);
      (split; [congruence|]); (split; [exact Hi|]); lia.
  - intros Hout. unfold array_store.
    destruct (Z.ltb_spec (rttIdx h) 0); [reflexivity|].
    rewrite array_set_none; [reflexivity|].
    rewrite Hlen. unfold rttWindowSize in *. lia.
Qed.


(** *** [maxRTT] *)

Lemma array_set_Forall (P : Z -> Prop) (a : list Z) : forall (i : nat) (v : Z) (a' : list Z),
  Forall P a -> P v -> array_set a i v = Some a' -> Forall P a'.
Proof.
  induction a as [|x a IH]; intros i v a' Ha Hv E; cbn [array_set] in E; [discriminate|].
  apply Forall_cons_iff in Ha. destruct Ha as [Hx Ht].
  destruct i as [|i].
  - injection E as <-. constructor; assumption.
  - destruct (array_set a i v) as [t|] eqn:Et; cbn [bind] in E; [|discriminate].
    injection E as <-. constructor; [assumption|]. exact (IH i v t Ht Hv Et).
Qed.

Lemma step_maxRTT (k : call) (h h' : hysteriaSender) :
  Forall (fun x => 0 <= x <= maxRTT h) (rttHistory h) ->
  step k h = Some h' ->
  maxRTT h <= maxRTT h'
  /\ Forall (fun x => 0 <= x <= maxRTT h') (rttHistory h').
Proof.
  intros Hall E. destruct k; cbn [step] in E.
  - destruct (OnPacketSent_only_nextSendTime _ _ _ _ _ _ _ _ E) as [t ->].
    fields. split; [lia | exact Hall].
  - unfold OnPacketAcked in E. rewrite updateRTTAndCheckJitter_unfold in E.
    cbv zeta in E.
    assert (G : forall h1 : hysteriaSender,
              maxRTT h <= maxRTT h1
              /\ Forall (fun x => 0 <= x <= maxRTT h1) (rttHistory h1) ->
              (let rtt := SmoothedRTT (rttStats h1) in
               let growFactor :=
                 if 150 * Millisecond <? rtt then f64_const 125 100 else f64_const 11 10 in
               let h2 := set_rttCount (add64 (rttCount h1) 1) h1 in
               if 4 <=? rttCount h2 then
                 let h2 := set_rttCount 0 h2 in
                 if currentBps h2 <? targetBps h2 then
                   let h2 := set_currentBps (scaleBps (currentBps h2) growFactor) h2 in
                   Some (if targetBps h2 <? currentBps h2
                         then set_currentBps (targetBps h2) h2 else h2)
                 else Some h2
               else Some h2) = Some h' ->
              maxRTT h <= maxRTT h'
              /\ Forall (fun x => 0 <= x <= maxRTT h') (rttHistory h')).
    { intros h1 Hh1. cbv zeta. fields.
      destruct (4 <=? _); [destruct (_ <? _); [destruct (_ <? _)|]|];
        intros E'; injection E' as <-; fields; exact Hh1. }
    destruct (Z.leb_spec (LatestRTT (rttStats h)) 0) as [Hrtt|Hrtt]; cbn [bind] in E.
    + apply (G h); [|exact E]. split; [lia | exact Hall].
    + destruct (array_store _ _ _) as [a'|] eqn:Ea; cbn [bind] in E; [|discriminate].
      eapply G; [|exact E].
      unfold array_store in Ea. destruct (rttIdx h <? 0); [discriminate|].
      unfold dampOnJitter, recordRTT. cbv zeta. fields.
      destruct (Z.ltb_spec (maxRTT h) (LatestRTT (rttStats h))) as [Hm|Hm];
        fields; destruct (_ && _); fields;
        try destruct (_ <? minStartBps); fields;
        (split; [lia|]);
        (eapply array_set_Forall; [| |exact Ea]; [|lia]);
        (eapply Forall_impl; [|exact Hall]); cbv beta; intros; lia.
  - injection E as <-. unfold OnCongestionEvent. cbv zeta.
    destruct (SFltb _ _); fields; (split; [lia | exact Hall]).
  - injection E as <-. unfold OnRetransmissionTimeout. fields.
    split; [lia | exact Hall].
  - injection E as <-. split; [unfold MaybeExitSlowStart; lia | exact Hall].
  - injection E as <-. unfold SetMaxDatagramSize. fields. split; [lia | exact Hall].
  - injection E as <-. fields. split; [lia | exact Hall].
Qed.

Lemma run_maxRTT (ks : list call) : forall h h' : hysteriaSender,
  Forall (fun x => 0 <= x <= maxRTT h) (rttHistory h) ->
  run ks h = Some h' ->
  maxRTT h <= maxRTT h'
  /\ Forall (fun x => 0 <= x <= maxRTT h') (rttHistory h').
Proof.
  induction ks as [|k ks IH]; intros h h' Hall E; cbn [run] in E.
  - injection E as <-. split; [lia | exact Hall].
  - destruct (step k h) as [h1|] eqn:E1; cbn [bind] in E; [|discriminate].
    destruct (step_maxRTT k h h1 Hall E1) as [M1 A1].
    destruct (IH h1 h' A1 E) as [M2 A2]. split; [lia | exact A2].
Qed.

(** On every reachable sender [maxRTT] is an upper bound of the ten recorded
    samples, and no run from it lowers [maxRTT]. *)
Theorem maxRTT_bounds_history (h : hysteriaSender) :
  reachable h ->
  Forall (fun x => 0 <= x <= maxRTT h) (rttHistory h)
  /\ forall ks h', run ks h = Some h' -> maxRTT h <= maxRTT h'.
Proof.
  intros (rtt & mds & mbps & now & ks & _ & E).
  assert (A0 : Forall (fun x => 0 <= x <= maxRTT (NewHysteriaSender rtt mds mbps now))
                 (rttHistory (NewHysteriaSender rtt mds mbps now))).
  { cbn. repeat constructor; lia. }
  destruct (run_maxRTT ks _ _ A0 E) as [_ A].
  split; [exact A|].
  intros ks' h' E'. apply (run_maxRTT ks' h h' A E').
Qed.


(** *** Pacing *)

(** With a positive rate and times that stay inside [int64], [OnPacketSent]
    returns and sets the next send time one packet interval
    [bytes * 1s / currentBps] after the later of [now] and the old value,
    capped at [now] plus the burst limit, the larger of 20 ms and half the
    latest RTT.  So the next send time is never before [now] and never
    further than the burst limit ahead of it. *)
Theorem OnPacketSent_schedule
    (now sentTime bytesInFlight packetNumber bytes : Z) (r : bool)
    (h : hysteriaSender) :
  0 < currentBps h ->
  0 <= bytes <= 2 ^ 31 ->
  0 <= now <= 2 ^ 61 ->
  - 2 ^ 61 <= nextSendTime h <= 2 ^ 61 ->
  0 <= LatestRTT (rttStats h) <= 2 ^ 61 ->
  let interval := bytes * Second / currentBps h in
  let limit := Z.max (20 * Millisecond) (LatestRTT (rttStats h) / 2) in
  let next := Z.min (Z.max now (nextSendTime h) + interval) (now + limit) in
  OnPacketSent now sentTime bytesInFlight packetNumber bytes r h
  = Some (set_nextSendTime next h)
  /\ now <= next <= now + limit.
Proof.
  intros Hbps Hb Hnow Hnext Hrtt interval limit next.
  assert (Hiv0 : 0 <= interval).
  { unfold interval. apply Z.div_pos; [|lia].
    apply Z.mul_nonneg_nonneg; [lia | discriminate]. }
  assert (Hl0 : 0 <= limit).
  { unfold limit. change (20 * Millisecond) with 20000000. lia. }
  split; [|unfold next; lia].
  unfold next. unfold OnPacketSent. cbv zeta.
  destruct (Z.eqb_spec (currentBps h) 0); [lia|].
  assert (Hs : Second = 1000000000) by reflexivity.
  assert (Hms : 20 * Millisecond = 20000000) by reflexivity.
  assert (Hiv : quot64 (mul64 bytes Second) (currentBps h) = interval).
  { unfold quot64, mul64, interval. rewrite Hs.
    rewrite (wrap64_small (bytes * 1000000000))
      by (unfold MinInt64, MaxInt64; lia).
    rewrite Z.quot_div_nonneg by lia.
    apply wrap64_small.
    assert (0 <= bytes * 1000000000 / currentBps h <= bytes * 1000000000).
    { split; [apply Z.div_pos; lia|]. apply Z.div_le_upper_bound; nia. }
    unfold MinInt64, MaxInt64; lia. }
  assert (Hiv' : 0 <= interval <= 2 ^ 61).
  { unfold interval. rewrite Hs. split; [apply Z.div_pos; lia|].
    apply Z.div_le_upper_bound; nia. }
  assert (Hhalf : quot64 (LatestRTT (rttStats h)) 2 = LatestRTT (rttStats h) / 2).
  { unfold quot64. rewrite Z.quot_div_nonneg by lia.
    apply wrap64_small.
    assert (0 <= LatestRTT (rttStats h) / 2 <= LatestRTT (rttStats h)).
    { split; [apply Z.div_pos; lia|]. apply Z.div_le_upper_bound; lia. }
    unfold MinInt64, MaxInt64; lia. }
  assert (Hhalf' : 0 <= LatestRTT (rttStats h) / 2 <= 2 ^ 61).
  { split; [apply Z.div_pos; lia|]. apply Z.div_le_upper_bound; lia. }
  rewrite Hiv. unfold Time_Before, Time_After, Time_Add, add64.
  assert (Hlim : (if 20 * Millisecond <? LatestRTT (rttStats h) / 2
                  then LatestRTT (rttStats h) / 2 else 20 * Millisecond) = limit).
  { unfold limit. destruct (Z.ltb_spec (20 * Millisecond) (LatestRTT (rttStats h) / 2)); lia. }
  assert (Hl' : 0 <= limit <= 2 ^ 61) by (unfold limit; lia).
  destruct (Z.ltb_spec (nextSendTime h) now) as [Hbefore|Hafter]; fields;
    rewrite Hhalf, Hlim;
    rewrite (wrap64_small (now + limit)) by (unfold MinInt64, MaxInt64; lia).
  - rewrite (wrap64_small (now + interval)) by (unfold MinInt64, MaxInt64; lia).
    rewrite (Z.max_l now) by lia.
    destruct (Z.ltb_spec (now + limit) (now + interval)).
    + rewrite Z.min_r by lia. reflexivity.
    + rewrite Z.min_l by lia. reflexivity.
  - rewrite (wrap64_small (nextSendTime h + interval))
      by (unfold MinInt64, MaxInt64; lia).
    rewrite (Z.max_r now) by lia.
    destruct (Z.ltb_spec (now + limit) (nextSendTime h + interval)).
    + rewrite Z.min_r by lia. reflexivity.
    + rewrite Z.min_l by lia. reflexivity.
Qed.

(** [CanSend], [HasPacingBudget] and [TimeUntilSend] agree: a full window
    answers an hour from [now]; otherwise the answer is the zero instant
    exactly when there is pacing budget, and the next send time when there is
    none. *)
Theorem TimeUntilSend_agrees_with_budget (now bytesInFlight : Z) (h : hysteriaSender) :
  TimeUntilSend now bytesInFlight h
  = if negb (CanSend bytesInFlight h) then Time_Add now Hour
    else if HasPacingBudget now h then 0
    else nextSendTime h.
Proof.
  unfold TimeUntilSend, CanSend, HasPacingBudget.
  rewrite Z.leb_antisym.
  destruct (bytesInFlight <? GetCongestionWindow h); cbn [negb]; [|reflexivity].
  destruct (Time_After _ _); reflexivity.
Qed.

(** *** Losses *)

(** An event that lost no bytes never cuts the rate, whatever was in flight
    (also when [priorInFlight + 1] is zero and the ratio is 0/0): it only
    stores the current rate as the stable one. *)
Theorem OnCongestionEvent_no_bytes_lost (pn priorInFlight : Z) (h : hysteriaSender) :
  OnCongestionEvent pn 0 priorInFlight h = set_stableBps (currentBps h) h.
Proof.
  unfold OnCongestionEvent. cbv zeta.
  change (f64_of_Z 0) with (S754_zero false).
  assert (T : forall t x, t = f64_const 10 100 \/ t = f64_const 15 100
                          \/ t = f64_const 20 100 \/ t = f64_const 30 100 ->
              SFltb t (f64_div (S754_zero false) x) = false).
  { intros t x Ht.
    destruct Ht as [-> | [-> | [-> | ->]]];
      destruct x as [[|]|[|]| |[|] m e]; reflexivity. }
  rewrite T; [reflexivity|].
  destruct (_ <? _); [auto|]. destruct (_ <? _); [auto|]. destruct (_ <? _); auto.
Qed.


(** *** Acknowledgements *)

Lemma dampOnJitter_calm (rtt : Z) (h : hysteriaSender) :
  (20 * Millisecond <? SmoothedRTT (rttStats h)) && (mul64 (SmoothedRTT (rttStats h)) 2 <? rtt)
  = false ->
  dampOnJitter rtt h = h.
Proof. intros Hc. unfold dampOnJitter. cbv zeta. rewrite Hc. reflexivity. Qed.

(** One ack outside a spike, below the fourth count: the rate stays and the
    count goes up by one. *)
Lemma OnPacketAcked_calm_count (h : hysteriaSender) (pn ackedBytes priorInFlight eventTime : Z) :
  invariant h ->
  isSpike (rttStats h) = false ->
  rttCount h + 1 <= 3 ->
  exists h',
    OnPacketAcked pn ackedBytes priorInFlight eventTime h = Some h'
    /\ invariant h'
    /\ rttStats h' = rttStats h
    /\ currentBps h' = currentBps h
    /\ stableBps h' = stableBps h
    /\ rttCount h' = rttCount h + 1.
Proof.
  intros Hinv Hcalm Hcount.
  destruct (OnPacketAcked_invariant h pn ackedBytes priorInFlight eventTime Hinv)
    as (h1 & h' & E1 & E & I' & T' & R' & C').
  exists h'. split; [exact E|]. split; [exact I'|].
  destruct (Z.eqb_spec (rttCount h + 1) 4) as [?|_]; [lia|].
  cbn [andb] in C'.
  assert (F : rttStats h1 = rttStats h /\ currentBps h1 = currentBps h
              /\ stableBps h1 = stableBps h /\ rttCount h1 = rttCount h).
  { rewrite updateRTTAndCheckJitter_unfold in E1. cbv zeta in E1.
    destruct (LatestRTT (rttStats h) <=? 0).
    - injection E1 as <-. repeat split.
    - destruct (array_store _ _ _) as [a|]; cbn [bind] in E1; [|discriminate].
      injection E1 as <-.
      assert (Hrec : rttStats (recordRTT (LatestRTT (rttStats h)) a h) = rttStats h).
      { unfold recordRTT. cbv zeta. fields.
        destruct (maxRTT h <? LatestRTT (rttStats h)); reflexivity. }
      rewrite dampOnJitter_calm by (rewrite Hrec; exact Hcalm).
      unfold recordRTT. cbv zeta. fields.
      destruct (maxRTT h <? LatestRTT (rttStats h)); repeat split. }
  destruct F as (F1 & F2 & F3 & F4).
  assert (G : rttStats h' = rttStats h1 /\ stableBps h' = stableBps h1).
  { pose proof Hinv as [_ _ _ Hn _ _].
    unfold OnPacketAcked in E. rewrite E1 in E. cbn [bind] in E. fields.
    assert (Hadd : add64 (rttCount h1) 1 = rttCount h + 1).
    { rewrite F4. unfold add64. apply wrap64_small. unfold MinInt64, MaxInt64. lia. }
    rewrite Hadd in E.
    destruct (Z.leb_spec 4 (rttCount h + 1)); [lia|].
    injection E as <-. split; reflexivity. }
  destruct G as (G1 & G2).
  repeat split; congruence.
Qed.

(** The growth cadence, and the penalty after a cut: on a reachable sender
    whose oracle shows no spike, a run of acks that does not take [rttCount]
    past 3 leaves the rate where it is.  After a cut ([rttCount = -2]) that
    is five acks instead of three. *)
Theorem acks_below_fourth_count_keep_rate (ks : list call) : forall h : hysteriaSender,
  reachable h ->
  isSpike (rttStats h) = false ->
  forallb is_ack ks = true ->
  rttCount h + Z.of_nat (length ks) <= 3 ->
  exists h',
    run ks h = Some h'
    /\ currentBps h' = currentBps h
    /\ stableBps h' = stableBps h
    /\ rttCount h' = rttCount h + Z.of_nat (length ks).
Proof.
  intros h Hr. pose proof (reachable_invariant h Hr) as Hinv. clear Hr.
  revert h Hinv.
  induction ks as [|k ks IH]; intros h Hinv Hcalm Hacks Hcount.
  - exists h. cbn. repeat split. lia.
  - cbn [forallb] in Hacks. apply andb_prop in Hacks. destruct Hacks as [Hk Hks].
    destruct k; try discriminate. cbn [length] in Hcount.
    destruct (OnPacketAcked_calm_count h pn ackedBytes priorInFlight eventTime Hinv Hcalm)
      as (h1 & E1 & I1 & S1 & C1 & B1 & R1); [lia|].
    destruct (IH h1 I1) as (h' & E' & C' & B' & R'); [congruence | exact Hks | lia |].
    exists h'. cbn [run step]. rewrite E1. cbn [bind].
    split; [exact E'|]. cbn [length]. repeat split; try congruence. lia.
Qed.

(** A spike (latest RTT over twice a smoothed RTT above 20 ms) scales the
    rate by 0.85 and floors it at [minStartBps]: the rate after the jitter
    check is at least the floor, and above the old rate only when that was
    below the floor. *)
Theorem updateRTTAndCheckJitter_spike_floor (h : hysteriaSender) :
  reachable h ->
  0 < LatestRTT (rttStats h) ->
  isSpike (rttStats h) = true ->
  exists h1,
    updateRTTAndCheckJitter h = Some h1
    /\ currentBps h1 = Z.max (scaleBps (currentBps h) (f64_const 85 100)) minStartBps
    /\ minStartBps <= currentBps h1 <= Z.max (currentBps h) minStartBps.
Proof.
  intros Hr Hrtt Hspike. pose proof (reachable_invariant h Hr) as Hinv.
  pose proof Hinv as [Hc Hs Ht Hn Hi Hl].
  rewrite updateRTTAndCheckJitter_unfold. cbv zeta.
  destruct (Z.leb_spec (LatestRTT (rttStats h)) 0) as [?|_]; [lia|].
  destruct (array_store_length (rttHistory h) (rttIdx h) (LatestRTT (rttStats h)))
    as (a' & E & L).
  { rewrite Hl. unfold rttWindowSize in *. lia. }
  rewrite E. cbn [bind]. eexists. split; [reflexivity|].
  assert (Hb : 0 <= currentBps h <= MaxInt64) by (unfold MaxInt64; lia).
  pose proof (scaleBps_shrinks (currentBps h) (f64_const 85 100)
                (or_intror eq_refl) Hb) as Hsh.
  unfold isSpike in Hspike.
  unfold dampOnJitter, recordRTT. cbv zeta. fields.
  destruct (maxRTT h <? LatestRTT (rttStats h)); fields; rewrite Hspike; fields;
    destruct (Z.ltb_spec (scaleBps (currentBps h) (f64_const 85 100)) minStartBps);
    fields; lia.
Qed.

Lemma OnCongestionEvent_by_threshold (pn lostBytes priorInFlight : Z) (h : hysteriaSender) :
  OnCongestionEvent pn lostBytes priorInFlight h
  = if overThreshold (rttStats h) lostBytes priorInFlight
    then set_rttCount (-2)
           (set_currentBps (scaleBps (stableBps h) (f64_const 75 100)) h)
    else set_stableBps (currentBps h) h.
Proof.
  unfold OnCongestionEvent, overThreshold, lossThreshold. cbv zeta.
  destruct (_ <? _); [reflexivity|].
  destruct (_ <? _); [reflexivity|].
  destruct (_ <? _); reflexivity.
Qed.

(** Cuts do not compound.  The cut is taken from the stable rate, which a
    cut leaves alone: a second loss over the tolerance, with no event under
    it in between, arrives at the very same sender as the first, whatever the
    two events lost. *)
Theorem OnCongestionEvent_cuts_do_not_compound
    (pn1 lost1 prior1 pn2 lost2 prior2 : Z) (h : hysteriaSender) :
  overThreshold (rttStats h) lost1 prior1 = true ->
  overThreshold (rttStats h) lost2 prior2 = true ->
  OnCongestionEvent pn2 lost2 prior2 (OnCongestionEvent pn1 lost1 prior1 h)
  = OnCongestionEvent pn1 lost1 prior1 h
  /\ currentBps (OnCongestionEvent pn1 lost1 prior1 h)
     = scaleBps (stableBps h) (f64_const 75 100)
  /\ stableBps (OnCongestionEvent pn1 lost1 prior1 h) = stableBps h.
Proof.
  intros H1 H2. rewrite !OnCongestionEvent_by_threshold. rewrite H1. fields.
  rewrite H2. repeat split.
Qed.

(** *** The window *)

(** Without an RTT sample the window is one mebibyte, whatever the datagram
    size; with one it is never below 32 datagrams. *)
Theorem GetCongestionWindow_floor (h : hysteriaSender) :
  (SmoothedRTT (rttStats h) = 0 -> GetCongestionWindow h = 1048576)
  /\ (SmoothedRTT (rttStats h) <> 0 ->
      0 <= maxDatagram h <= 2 ^ 57 ->
      32 * maxDatagram h <= GetCongestionWindow h
      /\ CanSend (32 * maxDatagram h - 1) h = true).
Proof.
  unfold CanSend, GetCongestionWindow. cbv zeta. split.
  - intros ->. reflexivity.
  - intros Hrtt Hd.
    destruct (Z.eqb_spec (SmoothedRTT (rttStats h)) 0); [contradiction|].
    unfold mul64. rewrite wrap64_small by (unfold MinInt64, MaxInt64; lia).
    set (cwnd := float_to_int64 _).
    destruct (Z.ltb_spec cwnd (32 * maxDatagram h)); (split; [lia|]);
      apply Z.ltb_lt; lia.
Qed.

(** *** The reachable states *)

(** What every sender reachable from the constructor satisfies, besides the
    ceiling on the rate: the rate and the stable rate are not negative, the
    stable rate is at most the target, the target is at least one megabit
    per second and below [2^60], the ack count stays within -2..3, and the
    ring index within the ten slots of the history. *)
Theorem reachable_state_bounds (h : hysteriaSender) :
  reachable h ->
  0 <= currentBps h
  /\ 0 <= stableBps h <= targetBps h
  /\ minStartBps <= targetBps h < 2 ^ 60
  /\ -2 <= rttCount h <= 3
  /\ 0 <= rttIdx h < rttWindowSize
  /\ length (rttHistory h) = Z.to_nat rttWindowSize.
Proof.
  intros Hr. destruct (reachable_invariant h Hr) as [Hc Hs Ht Hn Hi Hl].
  split; [apply Hc|]. split; [exact Hs|]. split; [exact Ht|].
  split; [exact Hn|]. split; [exact Hi | exact Hl].
Qed.

(** *** Panics *)

(** From a reachable sender the only call that panics is [OnPacketSent] at a
    rate of zero (the division by [currentBps]); in particular the ring of
    RTT samples is never indexed out of range. *)
Theorem step_panics_only_at_rate_zero (k : call) (h : hysteriaSender) :
  reachable h ->
  step k h = None
  <-> (exists now t f pn b r, k = CallOnPacketSent now t f pn b r) /\ currentBps h = 0.
Proof.
  intros Hr. pose proof (reachable_invariant h Hr) as Hinv. split.
  - intros E. destruct k; cbn [step] in E; try discriminate.
    + split; [repeat eexists|].
      unfold OnPacketSent in E. cbv zeta in E.
      destruct (Z.eqb_spec (currentBps h) 0); [assumption | discriminate].
    + destruct (OnPacketAcked_invariant h pn ackedBytes priorInFlight eventTime Hinv)
        as (h1 & h' & _ & E' & _). congruence.
  - intros [(now & t & f & pn & b & r & ->) Hz]. cbn [step].
    unfold OnPacketSent. rewrite Hz. reflexivity.
Qed.

(** *** Witnesses *)

(** A 30 ms sample on a fresh sender lands in slot 0. *)
Lemma updateRTTAndCheckJitter_records_sample_witness :
  let h := NewHysteriaSender (mkRTT 0 (30 * Millisecond) 0) 1200 50 0 in
  (0 < LatestRTT (rttStats h)
   /\ length (rttHistory h) = Z.to_nat rttWindowSize
   /\ 0 <= rttIdx h < rttWindowSize)
  /\ exists h1,
       updateRTTAndCheckJitter h = Some h1
       /\ nth (Z.to_nat (rttIdx h)) (rttHistory h1) 0 = LatestRTT (rttStats h)
       /\ rttIdx h1 = (rttIdx h + 1) mod rttWindowSize
       /\ maxRTT h1 = Z.max (maxRTT h) (LatestRTT (rttStats h)).
Proof.
  intros h.
  assert (H1 : 0 < LatestRTT (rttStats h)) by reflexivity.
  assert (H2 : length (rttHistory h) = Z.to_nat rttWindowSize) by reflexivity.
  assert (H3 : 0 <= rttIdx h < rttWindowSize) by (split; [discriminate | reflexivity]).
  split; [auto|].
  destruct (proj1 (updateRTTAndCheckJitter_records_sample h H1 H2) H3)
    as (h1 & E & N & _ & _ & I & M).
  exists h1. auto.
Defined.

(** The constructor's sender is reachable, by the empty run. *)
Lemma maxRTT_bounds_history_witness :
  let h := NewHysteriaSender (mkRTT 0 (30 * Millisecond) 0) 1200 50 0 in
  reachable h
  /\ Forall (fun x => 0 <= x <= maxRTT h) (rttHistory h)
  /\ forall ks h', run ks h = Some h' -> maxRTT h <= maxRTT h'.
Proof.
  intros h.
  assert (Hr : reachable h).
  { exists (mkRTT 0 (30 * Millisecond) 0), 1200, 50, 0, [].
    split; [unfold MinInt64; lia | reflexivity]. }
  split; [exact Hr|]. exact (maxRTT_bounds_history h Hr).
Defined.

(** A 1200-byte packet at 3,932,160 bytes per second: the next send time
    moves from 100 ms in the past to 305,175 ns after [now]. *)
Lemma OnPacketSent_schedule_witness :
  let h := NewHysteriaSender (mkRTT 0 0 0) 1200 50 0 in
  (0 < currentBps h
   /\ 0 <= 1200 <= 2 ^ 31
   /\ 0 <= 0 <= 2 ^ 61
   /\ - 2 ^ 61 <= nextSendTime h <= 2 ^ 61
   /\ 0 <= LatestRTT (rttStats h) <= 2 ^ 61)
  /\ OnPacketSent 0 0 0 1 1200 true h
     = Some (set_nextSendTime
               (Z.min (Z.max 0 (nextSendTime h) + 1200 * Second / currentBps h)
                      (0 + Z.max (20 * Millisecond) (LatestRTT (rttStats h) / 2))) h)
  /\ option_map nextSendTime (OnPacketSent 0 0 0 1 1200 true h) = Some 305175.
Proof.
  intros h.
  assert (H1 : 0 < currentBps h) by reflexivity.
  assert (H2 : 0 <= 1200 <= 2 ^ 31) by lia.
  assert (H3 : 0 <= 0 <= 2 ^ 61) by lia.
  assert (H4 : - 2 ^ 61 <= nextSendTime h <= 2 ^ 61)
    by (split; vm_compute; discriminate).
  assert (H5 : 0 <= LatestRTT (rttStats h) <= 2 ^ 61)
    by (split; vm_compute; discriminate).
  split; [auto|]. split; [|reflexivity].
  exact (proj1 (OnPacketSent_schedule 0 0 0 1 1200 true h H1 H2 H3 H4 H5)).
Defined.

(** After a cut the count is -2: five acks leave the rate at the cut rate. *)
Lemma acks_below_fourth_count_keep_rate_witness :
  let h := OnCongestionEvent 1 1200 1200 (NewHysteriaSender (mkRTT 0 0 0) 1200 50 0) in
  let ks := repeat (CallOnPacketAcked 1 1200 1200 0) 5 in
  (reachable h
   /\ isSpike (rttStats h) = false
   /\ forallb is_ack ks = true
   /\ rttCount h + Z.of_nat (length ks) <= 3)
  /\ rttCount h = -2
  /\ exists h',
       run ks h = Some h'
       /\ currentBps h' = currentBps h
       /\ stableBps h' = stableBps h
       /\ rttCount h' = rttCount h + Z.of_nat (length ks).
Proof.
  intros h ks.
  assert (H1 : reachable h).
  { exists (mkRTT 0 0 0), 1200, 50, 0, [CallOnCongestionEvent 1 1200 1200].
    split; [unfold MinInt64; lia | reflexivity]. }
  assert (H2 : isSpike (rttStats h) = false) by reflexivity.
  assert (H3 : forallb is_ack ks = true) by reflexivity.
  assert (H4 : rttCount h + Z.of_nat (length ks) <= 3) by (vm_compute; discriminate).
  split; [auto|]. split; [reflexivity|].
  exact (acks_below_fourth_count_keep_rate ks h H1 H2 H3 H4).
Defined.

(** A 100 ms sample against a smoothed RTT of 30 ms is a spike. *)
Lemma updateRTTAndCheckJitter_spike_floor_witness :
  let h := NewHysteriaSender (mkRTT (30 * Millisecond) (100 * Millisecond) 0) 1200 50 0 in
  (reachable h /\ 0 < LatestRTT (rttStats h) /\ isSpike (rttStats h) = true)
  /\ exists h1,
       updateRTTAndCheckJitter h = Some h1
       /\ currentBps h1 = Z.max (scaleBps (currentBps h) (f64_const 85 100)) minStartBps
       /\ minStartBps <= currentBps h1 <= Z.max (currentBps h) minStartBps.
Proof.
  intros h.
  assert (H1 : reachable h).
  { exists (mkRTT (30 * Millisecond) (100 * Millisecond) 0), 1200, 50, 0, [].
    split; [unfold MinInt64; lia | reflexivity]. }
  assert (H2 : 0 < LatestRTT (rttStats h)) by reflexivity.
  assert (H3 : isSpike (rttStats h) = true) by reflexivity.
  split; [auto|].
  exact (updateRTTAndCheckJitter_spike_floor h H1 H2 H3).
Defined.

(** The sender a cut leaves behind. *)
Lemma reachable_state_bounds_witness :
  let h := OnCongestionEvent 1 1200 1200 (NewHysteriaSender (mkRTT 0 0 0) 1200 50 0) in
  reachable h
  /\ 0 <= currentBps h
  /\ 0 <= stableBps h <= targetBps h
  /\ minStartBps <= targetBps h < 2 ^ 60
  /\ -2 <= rttCount h <= 3
  /\ 0 <= rttIdx h < rttWindowSize
  /\ length (rttHistory h) = Z.to_nat rttWindowSize.
Proof.
  intros h.
  assert (Hr : reachable h).
  { exists (mkRTT 0 0 0), 1200, 50, 0, [CallOnCongestionEvent 1 1200 1200].
    split; [unfold MinInt64; lia | reflexivity]. }
  split; [exact Hr|]. exact (reachable_state_bounds h Hr).
Defined.

(** On the constructor's sender, whose rate is positive, no call panics. *)
Lemma step_panics_only_at_rate_zero_witness :
  let h := NewHysteriaSender (mkRTT 0 0 0) 1200 50 0 in
  reachable h
  /\ (step (CallOnPacketSent 0 0 0 1 1200 true) h = None
      <-> (exists now t f pn b r,
             CallOnPacketSent 0 0 0 1 1200 true = CallOnPacketSent now t f pn b r)
          /\ currentBps h = 0).
Proof.
  intros h.
  assert (Hr : reachable h).
  { exists (mkRTT 0 0 0), 1200, 50, 0, [].
    split; [unfold MinInt64; lia | reflexivity]. }
  split; [exact Hr|].
  exact (step_panics_only_at_rate_zero (CallOnPacketSent 0 0 0 1 1200 true) h Hr).
Defined.

(** Two losses of everything in flight, at no RTT sample. *)
Lemma OnCongestionEvent_cuts_do_not_compound_witness :
  let h := NewHysteriaSender (mkRTT 0 0 0) 1200 50 0 in
  (overThreshold (rttStats h) 1200 1200 = true
   /\ overThreshold (rttStats h) 600 1200 = true)
  /\ OnCongestionEvent 2 600 1200 (OnCongestionEvent 1 1200 1200 h)
     = OnCongestionEvent 1 1200 1200 h
  /\ currentBps (OnCongestionEvent 1 1200 1200 h)
     = scaleBps (stableBps h) (f64_const 75 100)
  /\ stableBps (OnCongestionEvent 1 1200 1200 h) = stableBps h.
Proof.
  intros h.
  assert (H1 : overThreshold (rttStats h) 1200 1200 = true) by reflexivity.
  assert (H2 : overThreshold (rttStats h) 600 1200 = true) by reflexivity.
  split; [auto|].
  exact (OnCongestionEvent_cuts_do_not_compound 1 1200 1200 2 600 1200 h H1 H2).
Defined.

End HysteriaFacts.

(** ** The CUBIC curve *)

Module CubicFacts.
Import Cubic.

Section Curve.
Context {proto : Protocol} {math : MathLib}.

Lemma CongestionWindowAfterAck_numConnections
    (c : Cubic) (ackedBytes currentCongestionWindow delayMin eventTime : Z) :
  numConnections
    (fst (CongestionWindowAfterAck ackedBytes currentCongestionWindow delayMin
            eventTime c))
  = numConnections c.
Proof.
  unfold CongestionWindowAfterAck. cbv zeta.
  destruct (Time_IsZero (epoch c)); [destruct (_ <=? _)|]; reflexivity.
Qed.

Lemma beta_one_connection (c : Cubic) :
  numConnections c = 1 ->
  beta c = S754_finite false 11744051 (-24)
  /\ betaLastMax c = S754_finite false 14260634 (-24).
Proof.
  intros Hn. unfold beta, betaLastMax. rewrite Hn. split; vm_compute; reflexivity.
Qed.

Lemma CongestionWindowAfterPacketLoss_products (c : Cubic) (w : Z) :
  numConnections c = 1 ->
  0 <= w <= 2 ^ 62 ->
  (0 <= float_to_int64 (f32_mul (f32_of_Z w) (beta c))
   /\ 100 * float_to_int64 (f32_mul (f32_of_Z w) (beta c)) <= 71 * w)
  /\ 0 <= float_to_int64 (f32_mul (betaLastMax c) (f32_of_Z w)) <= w.
Proof.
  intros Hn Hw.
  destruct (beta_one_connection c Hn) as [Hb Hbl]. rewrite Hb, Hbl.
  assert (Hr : let x := float_to_int64
                          (f32_mul (f32_of_Z w) (S754_finite false 11744051 (-24))) in
               0 <= x /\ x * 100 <= w * 71).
  { apply (scale32_to_int64_bound w 11744051 (-24) 71 100); try lia.
    apply Qle_bool_imp_le. vm_compute. reflexivity. }
  assert (Hl : let x := float_to_int64
                          (f32_mul (S754_finite false 14260634 (-24)) (f32_of_Z w)) in
               0 <= x /\ x * 1 <= w * 1).
  { rewrite f32_mul_of_Z_comm by lia.
    apply (scale32_to_int64_bound w 14260634 (-24) 1 1); try lia.
    apply Qle_bool_imp_le. vm_compute. reflexivity. }
  cbv zeta in Hr, Hl. lia.
Qed.

(** The multiplicative decrease, for the one connection the curve is built
    for.  The window returned is the float32 product of the window and
    [beta], truncated: non-negative and at most 71% of the window.  The
    epoch is cleared.  The last maximum becomes the window, or, when the
    window had not come within a datagram of the previous maximum, the
    float32 product of [betaLastMax] and the window, which is not above the
    window. *)
Theorem CongestionWindowAfterPacketLoss_shrinks (c : Cubic) (w : Z) :
  numConnections c = 1 ->
  0 <= w <= 2 ^ 62 ->
  0 <= InitialPacketSize <= 2 ^ 61 ->
  let r := CongestionWindowAfterPacketLoss w c in
  0 <= snd r
  /\ 100 * snd r <= 71 * w
  /\ epoch (fst r) = 0
  /\ 0 <= lastMaxCongestionWindow (fst r) <= w
  /\ (lastMaxCongestionWindow c <= w + InitialPacketSize ->
      lastMaxCongestionWindow (fst r) = w)
  /\ numConnections (fst r) = 1.
Proof.
  intros Hn Hw Hmds r.
  destruct (CongestionWindowAfterPacketLoss_products c w Hn Hw) as [[Hr0 Hr1] Hl].
  unfold r, CongestionWindowAfterPacketLoss. cbv zeta.
  cbn [fst snd epoch lastMaxCongestionWindow numConnections].
  unfold maxDatagramSize, add64.
  rewrite wrap64_small by (unfold MinInt64, MaxInt64; lia).
  split; [exact Hr0|]. split; [exact Hr1|]. split; [reflexivity|].
  destruct (Z.ltb_spec (w + InitialPacketSize) (lastMaxCongestionWindow c)).
  - split; [exact Hl|]. split; [lia | exact Hn].
  - split; [lia|]. split; [reflexivity | exact Hn].
Qed.

(** The first ack of an epoch, on a window at or above the last maximum
    (so in the convex part of the curve), with datagrams of at most 2048
    bytes and a minimum RTT of at most 20 s: the epoch starts at the event
    time with the window as origin, the target lies between the window and
    the window plus half the acked bytes, and the window returned is not
    below the current one. *)
Theorem CongestionWindowAfterAck_new_epoch
    (c : Cubic) (ackedBytes currentCongestionWindow delayMin eventTime : Z) :
  0 < InitialPacketSize <= 2048 ->
  epoch c = 0 ->
  lastMaxCongestionWindow c <= currentCongestionWindow ->
  0 <= currentCongestionWindow <= 2 ^ 62 ->
  0 <= ackedBytes <= 2 ^ 62 ->
  0 <= delayMin <= 20 * Second ->
  0 <= eventTime <= 2 ^ 62 ->
  let r := CongestionWindowAfterAck ackedBytes currentCongestionWindow delayMin
             eventTime c in
  currentCongestionWindow <= snd r
  /\ epoch (fst r) = eventTime
  /\ originPointCongestionWindow (fst r) = currentCongestionWindow
  /\ timeToOriginPoint (fst r) = 0
  /\ ackedBytesCount (fst r) = 0
  /\ currentCongestionWindow <= lastTargetCongestionWindow (fst r)
     <= currentCongestionWindow + ackedBytes / 2
  /\ lastTargetCongestionWindow (fst r) <= snd r.
Proof.
  intros Hmds Hepoch Hlast Hw Ha Hd Ht r.
  assert (Hsec : 20 * Second = 20000000000) by reflexivity. rewrite Hsec in Hd.
  unfold r, CongestionWindowAfterAck. cbv zeta.
  rewrite Hepoch. cbn [Time_IsZero Z.eqb].
  destruct (Z.leb_spec (lastMaxCongestionWindow c) currentCongestionWindow); [|lia].
  set (el := delayMin / 1000 * 1024 / 1000000).
  assert (Hus : 0 <= delayMin / 1000 <= 20000000).
  { split; [apply Z.div_pos; lia|]. apply Z.div_le_upper_bound; lia. }
  assert (Hel : 0 <= el <= 20480).
  { unfold el. split; [apply Z.div_pos; lia|]. apply Z.div_le_upper_bound; lia. }
  assert (Helapsed :
            quot64
              (shl64 (quot64 (Time_Sub (Time_Add eventTime delayMin) eventTime)
                             Microsecond) 10)
              (1000 * 1000) = el).
  { unfold Time_Sub, Time_Add, add64, sub64, Microsecond.
    rewrite (wrap64_small (eventTime + delayMin)) by (unfold MinInt64, MaxInt64; lia).
    replace (eventTime + delayMin - eventTime) with delayMin by lia.
    rewrite (wrap64_small delayMin) by (unfold MinInt64, MaxInt64; lia).
    unfold quot64, shl64. rewrite (Z.quot_div_nonneg delayMin 1000) by lia.
    rewrite (wrap64_small (delayMin / 1000)) by (unfold MinInt64, MaxInt64; lia).
    rewrite Z.shiftl_mul_pow2 by lia. change (2 ^ 10) with 1024.
    rewrite (wrap64_small (delayMin / 1000 * 1024))
      by (unfold MinInt64, MaxInt64; lia).
    change (1000 * 1000) with 1000000.
    rewrite Z.quot_div_nonneg by lia.
    apply wrap64_small. unfold MinInt64, MaxInt64; lia. }
  rewrite Helapsed.
  assert (Hoff : (if sub64 0 el <? 0 then neg64 (sub64 0 el) else sub64 0 el) = el).
  { unfold sub64, neg64. replace (0 - el) with (- el) by lia.
    rewrite (wrap64_small (- el)) by (unfold MinInt64, MaxInt64; lia).
    destruct (Z.ltb_spec (- el) 0).
    - rewrite Z.opp_involutive. apply wrap64_small. unfold MinInt64, MaxInt64; lia.
    - lia. }
  rewrite Hoff.
  set (delta := 410 * el * el * el * InitialPacketSize / 2 ^ 40).
  assert (H2 : 0 <= el * el <= 20480 * 20480) by nia.
  assert (H3 : 0 <= el * el * el <= 20480 * 20480 * 20480) by nia.
  assert (H4 : 0 <= 410 * el * el * el * InitialPacketSize
               <= 410 * (20480 * 20480 * 20480) * 2048) by nia.
  assert (Hdelta : 0 <= delta <= 2 ^ 40).
  { unfold delta. split; [apply Z.div_pos; lia|].
    apply Z.div_le_upper_bound; lia. }
  assert (Hdelta_eq :
            shr64
              (mul64 (mul64 (mul64 (mul64 cubeCongestionWindowScale el) el) el)
                     maxDatagramSize)
              cubeScale = delta).
  { unfold mul64, cubeCongestionWindowScale, maxDatagramSize, cubeScale.
    rewrite (wrap64_small (410 * el)) by (unfold MinInt64, MaxInt64; lia).
    rewrite (wrap64_small (410 * el * el)) by (unfold MinInt64, MaxInt64; nia).
    rewrite (wrap64_small (410 * el * el * el)) by (unfold MinInt64, MaxInt64; nia).
    rewrite (wrap64_small (410 * el * el * el * InitialPacketSize))
      by (unfold MinInt64, MaxInt64; lia).
    unfold shr64. rewrite Z.shiftr_div_pow2 by lia. reflexivity. }
  rewrite Hdelta_eq.
  assert (Htarget : (if 0 <? el
                     then add64 currentCongestionWindow delta
                     else sub64 currentCongestionWindow delta)
                    = currentCongestionWindow + delta).
  { unfold add64, sub64. destruct (Z.ltb_spec 0 el).
    - apply wrap64_small. unfold MinInt64, MaxInt64; lia.
    - assert (Hz : el = 0) by lia.
      assert (delta = 0) by (unfold delta; rewrite Hz; reflexivity).
      rewrite wrap64_small by (unfold MinInt64, MaxInt64; lia). lia. }
  rewrite Htarget.
  assert (Hhalf : quot64 ackedBytes 2 = ackedBytes / 2).
  { unfold quot64. rewrite Z.quot_div_nonneg by lia. apply wrap64_small.
    assert (0 <= ackedBytes / 2 <= ackedBytes).
    { split; [apply Z.div_pos; lia|]. apply Z.div_le_upper_bound; lia. }
    unfold MinInt64, MaxInt64; lia. }
  rewrite Hhalf.
  assert (Hh : 0 <= ackedBytes / 2 <= 2 ^ 61).
  { split; [apply Z.div_pos; lia|]. apply Z.div_le_upper_bound; lia. }
  assert (Hcap : add64 currentCongestionWindow (ackedBytes / 2)
                 = currentCongestionWindow + ackedBytes / 2).
  { unfold add64. apply wrap64_small. unfold MinInt64, MaxInt64; lia. }
  rewrite Hcap.
  set (target := Z.min (currentCongestionWindow + delta)
                       (currentCongestionWindow + ackedBytes / 2)).
  set (est := add64 _ _).
  cbn [fst snd epoch originPointCongestionWindow timeToOriginPoint ackedBytesCount
       lastTargetCongestionWindow].
  assert (Htg : currentCongestionWindow <= target
                <= currentCongestionWindow + ackedBytes / 2) by (unfold target; lia).
  destruct (Z.ltb_spec target est); repeat split; lia.
Qed.

End Curve.

#[local] Existing Instance quic_go_protocol.
#[local] Existing Instance cbrt_floor.

(** A fresh curve, 1280-byte datagrams: a loss at a window of 38400 bytes. *)
Lemma CongestionWindowAfterPacketLoss_shrinks_witness :
  let r := CongestionWindowAfterPacketLoss 38400 NewCubic in
  (numConnections NewCubic = 1
   /\ 0 <= 38400 <= 2 ^ 62
   /\ 0 <= InitialPacketSize <= 2 ^ 61)
  /\ snd r = 26880
  /\ 0 <= snd r
  /\ 100 * snd r <= 71 * 38400
  /\ epoch (fst r) = 0
  /\ 0 <= lastMaxCongestionWindow (fst r) <= 38400.
Proof.
  assert (H1 : numConnections NewCubic = 1) by reflexivity.
  assert (H2 : 0 <= 38400 <= 2 ^ 62) by lia.
  assert (H3 : 0 <= InitialPacketSize <= 2 ^ 61) by (cbn; lia).
  split; [auto|]. split; [vm_compute; reflexivity|].
  destruct (CongestionWindowAfterPacketLoss_shrinks NewCubic 38400 H1 H2 H3)
    as (A & B & C & D & _).
  auto.
Defined.

(** A fresh curve, 1280-byte datagrams, a minimum RTT of 50 ms: the first
    ack at a window of 38400 bytes. *)
Lemma CongestionWindowAfterAck_new_epoch_witness :
  let r := CongestionWindowAfterAck 1200 38400 (50 * Millisecond) 1000 NewCubic in
  (0 < InitialPacketSize <= 2048
   /\ epoch NewCubic = 0
   /\ lastMaxCongestionWindow NewCubic <= 38400
   /\ 0 <= 38400 <= 2 ^ 62
   /\ 0 <= 1200 <= 2 ^ 62
   /\ 0 <= 50 * Millisecond <= 20 * Second
   /\ 0 <= 1000 <= 2 ^ 62)
  /\ 38400 <= snd r
  /\ epoch (fst r) = 1000
  /\ originPointCongestionWindow (fst r) = 38400
  /\ timeToOriginPoint (fst r) = 0
  /\ ackedBytesCount (fst r) = 0
  /\ 38400 <= lastTargetCongestionWindow (fst r) <= 38400 + 1200 / 2
  /\ lastTargetCongestionWindow (fst r) <= snd r.
Proof.
  assert (H1 : 0 < InitialPacketSize <= 2048) by (cbn; lia).
  assert (H2 : epoch NewCubic = 0) by reflexivity.
  assert (H3 : lastMaxCongestionWindow NewCubic <= 38400) by (cbn; lia).
  assert (H4 : 0 <= 38400 <= 2 ^ 62) by lia.
  assert (H5 : 0 <= 1200 <= 2 ^ 62) by lia.
  assert (H6 : 0 <= 50 * Millisecond <= 20 * Second)
    by (split; vm_compute; discriminate).
  assert (H7 : 0 <= 1000 <= 2 ^ 62) by lia.
  split; [repeat split; assumption || apply H1 || apply H4 || apply H5
                          || apply H6 || apply H7|].
  exact (CongestionWindowAfterAck_new_epoch NewCubic 1200 38400 (50 * Millisecond)
           1000 H1 H2 H3 H4 H5 H6 H7).
Defined.

End CubicFacts.

(** ** The CUBIC sender *)

Module CubicSenderFacts.
Import CubicSender CubicSenderSpec.

(** The floor at a few round-trip times: 100 ms (and no sample) gives 64 KiB. *)
Lemma bdpFloor_values :
  bdpFloor 0 = 65536
  /\ bdpFloor (100 * Millisecond) = 65536
  /\ bdpFloor (1 * Millisecond) = 655
  /\ bdpFloor (50 * Millisecond) = 32768
  /\ bdpFloor (1 * Second) = 655360
  /\ bdpFloor (30 * Second) = 19660800.
Proof. repeat split; vm_compute; reflexivity. Qed.

(** On whole milliseconds up to one second the float expression is the
    exact [5 Mbps * RTT / 8], truncated: checked on each of them. *)
Lemma bdpFloor_milliseconds_table :
  forallb (fun k => bdpFloor (Z.of_nat k * Millisecond)
                    =? 5 * 1024 * 1024 * Z.of_nat k / (8 * 1000))
          (seq 1 (Z.to_nat 1000)) = true.
Proof. vm_compute. reflexivity. Qed.

Lemma bdpFloor_whole_milliseconds (ms : Z) :
  1 <= ms <= 1000 ->
  bdpFloor (ms * Millisecond) = 5 * 1024 * 1024 * ms / (8 * 1000).
Proof.
  intros Hms.
  pose proof bdpFloor_milliseconds_table as T. rewrite forallb_forall in T.
  specialize (T (Z.to_nat ms)). rewrite Z2Nat.id in T by lia.
  apply Z.eqb_eq, T, in_seq. lia.
Qed.

Section Generic.
Context {proto : Protocol} {math : MathLib}.
Context {H : Type} {hss : HybridSlowStartOps H}.
Context {P : Type} {pacerOps : PacerOps P}.

Local Abbreviation cubicSender := (@CubicSender.cubicSender H P).

Ltac fields :=
  cbn [hybridSlowStart rttStats connStats cubic pacer reno largestSentPacketNumber
       largestAckedPacketNumber largestSentAtLastCutback lastCutbackExitedSlowstart
       congestionWindow slowStartThreshold numAckedPackets initialCongestionWindow
       initialMaxCongestionWindow maxDatagramSize lastState qlogger
       set_hybridSlowStart set_rttStats set_connStats set_cubic set_pacer
       set_largestSentPacketNumber set_largestAckedPacketNumber
       set_largestSentAtLastCutback set_lastCutbackExitedSlowstart
       set_congestionWindow set_slowStartThreshold set_numAckedPackets
       set_maxDatagramSize set_qlog] in *.

(** *** [SetMaxDatagramSize] *)

Lemma applyMinRateProtection_window (c : cubicSender) :
  applyMinRateProtection c
  = set_congestionWindow
      (Z.max (congestionWindow c)
             (Z.max (minCongestionWindow c) (bdpFloor (SmoothedRTT (rttStats c))))) c.
Proof.
  unfold applyMinRateProtection, bdpFloor. cbv zeta.
  set (floor := float_to_int64 _).
  destruct (Z.ltb_spec floor (minCongestionWindow c)) as [H1|H1].
  - rewrite (Z.max_l (minCongestionWindow c)) by lia.
    destruct (Z.ltb_spec (congestionWindow c) (minCongestionWindow c)) as [H2|H2].
    + rewrite Z.max_r by lia. reflexivity.
    + rewrite Z.max_l by lia. destruct c; reflexivity.
  - rewrite (Z.max_r (minCongestionWindow c)) by lia.
    destruct (Z.ltb_spec (congestionWindow c) floor) as [H2|H2].
    + rewrite Z.max_r by lia. reflexivity.
    + rewrite Z.max_l by lia. destruct c; reflexivity.
Qed.


(** C10.  For sizes whose double fits [int64]: [SetMaxDatagramSize s] with
    [s] at least the current size [d] returns the sender with the size field
    set to [s], the pacer handed [s], and the window set to [2 * s] when it
    was the minimum window [2 * d] and left alone otherwise; no other field
    differs. *)
Theorem SetMaxDatagramSize_rescales_min_window (c : cubicSender) (s : Z) :
  maxDatagramSize c <= s ->
  0 <= maxDatagramSize c ->
  2 * s <= MaxInt64 ->
  minCongestionWindow c = 2 * maxDatagramSize c
  /\ SetMaxDatagramSize s c
     = Some (set_pacer (pacer_SetMaxDatagramSize s (pacer c))
               (set_congestionWindow
                  (if congestionWindow c =? 2 * maxDatagramSize c
                   then 2 * s else congestionWindow c)
                  (set_maxDatagramSize s c))).
Proof.
  intros Hs Hd H2s.
  assert (Hmin : minCongestionWindow c = 2 * maxDatagramSize c).
  { unfold minCongestionWindow, minCongestionWindowPackets, mul64.
    rewrite wrap64_small by (unfold MinInt64, MaxInt64 in *; lia). lia. }
  split; [exact Hmin|].
  unfold SetMaxDatagramSize. cbv zeta.
  destruct (Z.ltb_spec s (maxDatagramSize c)); [lia|].
  rewrite Hmin.
  destruct (Z.eqb_spec (congestionWindow c) (2 * maxDatagramSize c)) as [E|E].
  - unfold minCongestionWindow, minCongestionWindowPackets, mul64. fields.
    rewrite wrap64_small by (unfold MinInt64, MaxInt64 in *; lia).
    replace (s * 2) with (2 * s) by lia. reflexivity.
  - destruct c; reflexivity.
Qed.

(** *** [OnRetransmissionTimeout] *)


(** Without retransmitted packets the call only forgets the last cutback. *)
Lemma OnRetransmissionTimeout_false (c : cubicSender) :
  OnRetransmissionTimeout false c
  = set_largestSentAtLastCutback InvalidPacketNumber c.
Proof. reflexivity. Qed.

(** *** The loss-tolerance gate of [OnCongestionEvent] *)

(** A conversion of a non-negative integer is never a negative float. *)
Lemma f64_of_Z_nonneg_shape (z : Z) :
  0 <= z ->
  match f64_of_Z z with
  | S754_zero s | S754_infinity s | S754_finite s _ _ => s = false
  | S754_nan => True
  end.
Proof.
  intros Hz. destruct z as [|p|p]; [reflexivity | | lia].
  unfold f64_of_Z, binary_normalize, binary_round.
  destruct (shl_align _ _ _) as [mz ez].
  unfold binary_round_aux.
  destruct (shr_fexp _ _ _ _ _) as [mrs1 e1].
  destruct (shr_fexp _ _ _ _ _) as [mrs2 e2].
  destruct (shr_m mrs2); [reflexivity | | exact I].
  destruct (e2 <=? 1024 - 53); reflexivity.
Qed.

(** With nothing sent the ratio is an infinity or a NaN, and not below the
    tolerance. *)
Lemma lossRatioBelowTolerance_nothing_sent (totalLost : Z) :
  0 <= totalLost -> lossRatioBelowTolerance totalLost 0 = false.
Proof.
  intros Hl. unfold lossRatioBelowTolerance.
  pose proof (f64_of_Z_nonneg_shape totalLost Hl) as Hs.
  destruct (f64_of_Z totalLost) as [s|s| |s m e]; try subst s; reflexivity.
Qed.

Lemma wrapU64_nonneg (z : Z) : 0 <= wrapU64 z.
Proof. unfold wrapU64. apply Z.mod_pos_bound. lia. Qed.

(** Below the tolerance the call only counts the loss. *)
Lemma OnCongestionEvent_unchanged_controller
    (c : cubicSender) (packetNumber lostBytes priorInFlight : Z) :
  0 <= BytesSent (connStats c) ->
  largestSentAtLastCutback c < packetNumber ->
  lossRatioBelowTolerance (BytesLost (count_loss lostBytes (connStats c)))
                          (BytesSent (connStats c)) = true ->
  OnCongestionEvent packetNumber lostBytes priorInFlight c
  = set_connStats (count_loss lostBytes (connStats c)) c.
Proof.
  intros Hsent Hpn Hratio.
  unfold OnCongestionEvent. cbv zeta. fields.
  cbn [BytesSent BytesLost PacketsLost].
  destruct (Z.leb_spec packetNumber (largestSentAtLastCutback c)); [lia|].
  fold (count_loss lostBytes (connStats c)).
  cbn [count_loss BytesLost] in Hratio. rewrite Hratio.
  destruct (Z.ltb_spec 0 (BytesSent (connStats c))) as [Hpos|Hzero];
    [reflexivity|].
  assert (Hz : BytesSent (connStats c) = 0) by lia.
  rewrite Hz, lossRatioBelowTolerance_nothing_sent in Hratio
    by apply wrapU64_nonneg.
  discriminate.
Qed.

(** C1, as amended.  When the lost packet is newer than the last cutback and
    the connection's loss ratio, the event counted in, is below the
    tolerance, [OnCongestionEvent] changes nothing of the controller: window,
    threshold, last cutback, ack counter, curve, slow-start and reported
    state are as before.  Of the connection counters it has advanced
    [PacketsLost] by one and [BytesLost] by [lostBytes]. *)
Theorem OnCongestionEvent_below_tolerance
    (c : cubicSender) (packetNumber lostBytes priorInFlight : Z) :
  0 <= BytesSent (connStats c) ->
  largestSentAtLastCutback c < packetNumber ->
  lossRatioBelowTolerance (BytesLost (count_loss lostBytes (connStats c)))
                          (BytesSent (connStats c)) = true ->
  let c' := OnCongestionEvent packetNumber lostBytes priorInFlight c in
  c' = set_connStats (count_loss lostBytes (connStats c)) c
  /\ congestionWindow c' = congestionWindow c
  /\ slowStartThreshold c' = slowStartThreshold c
  /\ largestSentAtLastCutback c' = largestSentAtLastCutback c
  /\ numAckedPackets c' = numAckedPackets c.
Proof.
  intros Hsent Hpn Hratio c'.
  assert (E : c' = set_connStats (count_loss lostBytes (connStats c)) c)
    by (apply OnCongestionEvent_unchanged_controller; assumption).
  rewrite E. repeat split.
Qed.

(** In exact arithmetic: up to [2^52] bytes sent, a loss ratio below one
    tenth passes the float comparison of the gate. *)
Lemma lossRatioBelowTolerance_sufficient (totalLost totalSent : Z) :
  0 <= totalLost -> 0 < totalSent <= 2 ^ 52 -> 10 * totalLost < totalSent ->
  lossRatioBelowTolerance totalLost totalSent = true.
Proof.
  intros HL HS Hratio. unfold lossRatioBelowTolerance.
  assert (Hthr : lossToleranceThreshold = S754_finite false 7205759403792794 (-56))
    by (vm_compute; reflexivity).
  rewrite Hthr.
  destruct totalSent as [|s|s]; try lia.
  destruct (f64_of_Z_small s) as (m2 & e2 & E2 & Hm2 & He2 & Hq2); [lia|].
  rewrite E2.
  destruct totalLost as [|l|l]; try lia.
  - reflexivity.
  - destruct (f64_of_Z_small l) as (m1 & e1 & E1 & Hm1 & He1 & Hq1); [lia|].
    rewrite E1.
    destruct (SFdiv_normal_upper m1 m2 e1 e2) as (m & e & E & Hm & Hq);
      try assumption; [lia|].
    unfold f64_div. rewrite E.
    apply SFltb_normal; [assumption | lia |].
    rewrite Hq1, Hq2 in Hq.
    assert (Hs : (0 < inject_Z (Zpos s))%Q).
    { change 0%Q with (inject_Z 0). rewrite <- Zlt_Qlt. lia. }
    apply (Qmult_lt_r _ _ (inject_Z (Zpos s))); [exact Hs|].
    eapply Qle_lt_trans; [exact Hq|].
    assert (Hr : (10 * inject_Z (Zpos l) + 1 <= inject_Z (Zpos s))%Q).
    { change 10%Q with (inject_Z 10). change 1%Q with (inject_Z 1).
      rewrite <- inject_Z_mult, <- inject_Z_plus, <- Zle_Qle. lia. }
    assert (Hs52 : (inject_Z (Zpos s) <= 4503599627370496 # 1)%Q).
    { change (4503599627370496 # 1)%Q with (inject_Z (2 ^ 52)).
      rewrite <- Zle_Qle. lia. }
    unfold ulp_ratio, Qval.
    change (2 ^ (-56))%Q with (1 # 72057594037927936)%Q.
    change (inject_Z 7205759403792794) with (7205759403792794 # 1)%Q.
    set (x := inject_Z (Zpos l)) in *. set (y := inject_Z (Zpos s)) in *.
    lra.
Qed.

(** The tolerance gate in exact arithmetic: with at most [2^52] bytes sent
    and less than a tenth of them lost, the event counted in, the float
    comparison passes, and a loss newer than the last cutback changes nothing
    but the two loss counters. *)
Lemma OnCongestionEvent_below_one_tenth
    (c : cubicSender) (packetNumber lostBytes priorInFlight : Z) :
  0 < BytesSent (connStats c) <= 2 ^ 52 ->
  10 * BytesLost (count_loss lostBytes (connStats c)) < BytesSent (connStats c) ->
  largestSentAtLastCutback c < packetNumber ->
  OnCongestionEvent packetNumber lostBytes priorInFlight c
  = set_connStats (count_loss lostBytes (connStats c)) c.
Proof.
  intros Hsent Hratio Hpn.
  apply OnCongestionEvent_unchanged_controller; [lia | exact Hpn |].
  apply lossRatioBelowTolerance_sufficient; [apply wrapU64_nonneg | lia | exact Hratio].
Qed.

(** *** Reporting to the recorder *)

Lemma maybeQlogStateChange_only_qlog (new : CongestionState) (c : cubicSender) :
  maybeQlogStateChange new c
  = set_qlog (lastState (maybeQlogStateChange new c))
             (qlogger (maybeQlogStateChange new c)) c.
Proof.
  unfold maybeQlogStateChange. destruct c as [? ? ? ? ? ? ? ? ? ? ? ? ? ? ? ? ls q].
  fields. destruct q as [log|]; [|reflexivity].
  destruct ls as [old|]; [|reflexivity].
  destruct (CongestionState_eqb new old); reflexivity.
Qed.

Lemma CongestionState_eqb_eq (a b : CongestionState) :
  CongestionState_eqb a b = true -> a = b.
Proof. destruct a, b; cbn; congruence. Qed.

(** With a recorder attached, the last reported state is the one just
    passed in. *)
Lemma maybeQlogStateChange_reports (new : CongestionState) (c : cubicSender)
    (log : list CongestionState) :
  qlogger c = Some log -> lastState (maybeQlogStateChange new c) = Some new.
Proof.
  intros Q. unfold maybeQlogStateChange. rewrite Q.
  destruct (lastState c) as [old|] eqn:L; [|reflexivity].
  destruct (CongestionState_eqb new old) eqn:E; [|reflexivity].
  apply CongestionState_eqb_eq in E. congruence.
Qed.

(** *** Acknowledgements with nothing in flight *)

(** With nothing in flight, a sender whose window exceeds the three-packet
    burst headroom is not cwnd-limited. *)
Lemma isCwndLimited_nothing_in_flight (c : cubicSender) :
  0 <= maxDatagramSize c ->
  3 * maxDatagramSize c < congestionWindow c ->
  congestionWindow c <= MaxInt64 ->
  isCwndLimited 0 c = false.
Proof.
  intros Hd Hw Hmax. unfold isCwndLimited, GetCongestionWindow. cbv zeta.
  destruct (Z.leb_spec (congestionWindow c) 0); [lia|].
  unfold sub64, mul64, quot64, maxBurstPackets.
  rewrite Z.sub_0_r.
  rewrite (wrap64_small (congestionWindow c)) by (unfold MinInt64, MaxInt64 in *; lia).
  rewrite (wrap64_small (3 * maxDatagramSize c))
    by (unfold MinInt64, MaxInt64 in *; lia).
  assert (Hq : 0 <= Z.quot (congestionWindow c) 2 <= congestionWindow c).
  { rewrite Z.quot_div_nonneg by lia. split; [apply Z.div_pos; lia|].
    apply Z.div_le_upper_bound; lia. }
  rewrite wrap64_small by (unfold MinInt64, MaxInt64 in *; lia).
  destruct (Z.ltb_spec (Z.quot (congestionWindow c) 2) 0); [lia|].
  rewrite andb_false_r. cbn [orb].
  apply Z.leb_gt. lia.
Qed.

(** C9, as amended.  An ack with [priorInFlight = 0] that does not find the
    sender in recovery once the acked packet number is recorded, on a sender
    whose window is above the three-packet burst headroom
    [3 * maxDatagramSize]: the call returns, the curve is told it is
    application-limited (its epoch is cleared), the application-limited
    state is reported to the recorder when one is attached, and the window
    is unchanged. *)
Theorem OnPacketAcked_nothing_in_flight
    (c : cubicSender) (ackedPacketNumber ackedBytes eventTime : Z) :
  InRecovery (set_largestAckedPacketNumber
                (Z.max ackedPacketNumber (largestAckedPacketNumber c)) c) = false ->
  0 <= maxDatagramSize c ->
  3 * maxDatagramSize c < congestionWindow c ->
  congestionWindow c <= MaxInt64 ->
  exists c',
    OnPacketAcked ackedPacketNumber ackedBytes 0 eventTime c = Some c'
    /\ cubic c' = Cubic.OnApplicationLimited (cubic c)
    /\ Cubic.epoch (cubic c') = 0
    /\ congestionWindow c' = congestionWindow c
    /\ lastState c' = lastState (maybeQlogStateChange CongestionStateApplicationLimited c)
    /\ qlogger c' = qlogger (maybeQlogStateChange CongestionStateApplicationLimited c)
    /\ (forall log, qlogger c = Some log ->
        lastState c' = Some CongestionStateApplicationLimited).
Proof.
  intros Hrec Hd Hw Hmax. unfold OnPacketAcked. cbv zeta. rewrite Hrec.
  set (c1 := set_largestAckedPacketNumber _ c) in *.
  unfold maybeIncreaseCwnd.
  rewrite (isCwndLimited_nothing_in_flight c1) by assumption.
  cbn [negb bind].
  set (c2 := maybeQlogStateChange _ _).
  assert (F : cubic c2 = Cubic.OnApplicationLimited (cubic c)
              /\ congestionWindow c2 = congestionWindow c
              /\ lastState c2
                 = lastState (maybeQlogStateChange CongestionStateApplicationLimited c)
              /\ qlogger c2
                 = qlogger (maybeQlogStateChange CongestionStateApplicationLimited c)).
  { unfold c2, c1, maybeQlogStateChange. fields.
    destruct (qlogger c); [|repeat split].
    destruct (lastState c) as [old|]; [|repeat split].
    destruct (CongestionState_eqb _ old); repeat split. }
  destruct F as (Fc & Fw & Fl & Fq).
  assert (R : forall log, qlogger c = Some log ->
                          lastState c2 = Some CongestionStateApplicationLimited).
  { intros log Q. rewrite Fl. eapply maybeQlogStateChange_reports, Q. }
  destruct (InSlowStart c2); eexists; (split; [reflexivity|]); fields;
    rewrite Fc; repeat split; assumption.
Qed.

(** *** The two bounds on the window *)

(** C4 fails on the code.  [SetMaxDatagramSize] rescales the window only when
    it is exactly the old minimum: a window strictly between the old minimum
    [2 * d] and the new one [2 * s] is left where it is, below twice the new
    datagram size. *)
Theorem SetMaxDatagramSize_leaves_window_below_min (c : cubicSender) (s : Z) :
  0 <= maxDatagramSize c ->
  2 * s <= MaxInt64 ->
  2 * maxDatagramSize c < congestionWindow c < 2 * s ->
  exists c',
    SetMaxDatagramSize s c = Some c'
    /\ maxDatagramSize c' = s
    /\ congestionWindow c' = congestionWindow c
    /\ congestionWindow c' < 2 * maxDatagramSize c'.
Proof.
  intros Hd H2s Hw.
  assert (Hmin : minCongestionWindow c = 2 * maxDatagramSize c).
  { unfold minCongestionWindow, minCongestionWindowPackets, mul64.
    rewrite wrap64_small by (unfold MinInt64, MaxInt64 in *; lia). lia. }
  unfold SetMaxDatagramSize. cbv zeta.
  destruct (Z.ltb_spec s (maxDatagramSize c)); [lia|].
  destruct (Z.eqb_spec (congestionWindow c) (minCongestionWindow c)); [lia|].
  eexists. split; [reflexivity|]. fields. repeat split; lia.
Qed.

(** One ack of a cwnd-limited sender in slow start, outside recovery and
    below the cap, adds one datagram to the window, whatever the distance
    to the cap. *)
Lemma OnPacketAcked_slow_start_increment
    (c : cubicSender) (ackedPacketNumber ackedBytes priorInFlight eventTime : Z) :
  let c1 := set_largestAckedPacketNumber
              (Z.max ackedPacketNumber (largestAckedPacketNumber c)) c in
  InRecovery c1 = false ->
  isCwndLimited priorInFlight c1 = true ->
  congestionWindow c < maxCongestionWindow c ->
  InSlowStart c = true ->
  exists c',
    OnPacketAcked ackedPacketNumber ackedBytes priorInFlight eventTime c = Some c'
    /\ congestionWindow c' = add64 (congestionWindow c) (maxDatagramSize c)
    /\ maxDatagramSize c' = maxDatagramSize c
    /\ slowStartThreshold c' = slowStartThreshold c
    /\ largestSentAtLastCutback c' = largestSentAtLastCutback c.
Proof.
  intros c1 Hrec Hlim Hcap Hss. unfold OnPacketAcked. cbv zeta. fold c1.
  rewrite Hrec. unfold maybeIncreaseCwnd. rewrite Hlim. cbn [negb].
  change (maxCongestionWindow c1) with (maxCongestionWindow c).
  change (congestionWindow c1) with (congestionWindow c).
  destruct (Z.leb_spec (maxCongestionWindow c) (congestionWindow c)); [lia|].
  change (InSlowStart c1) with (InSlowStart c). rewrite Hss. cbn [bind].
  set (c2 := maybeQlogStateChange _ _).
  assert (F : congestionWindow c2 = add64 (congestionWindow c) (maxDatagramSize c)
              /\ maxDatagramSize c2 = maxDatagramSize c
              /\ slowStartThreshold c2 = slowStartThreshold c
              /\ largestSentAtLastCutback c2 = largestSentAtLastCutback c).
  { unfold c2. rewrite maybeQlogStateChange_only_qlog. repeat split; reflexivity. }
  destruct (InSlowStart c2); eexists; (split; [reflexivity|]); exact F.
Qed.

(** Hence the overshoot: when less than a datagram separates the window
    from the cap, that ack leaves the window above the cap. *)
Lemma OnPacketAcked_slow_start_overshoot
    (c : cubicSender) (ackedPacketNumber ackedBytes priorInFlight eventTime : Z) :
  let c1 := set_largestAckedPacketNumber
              (Z.max ackedPacketNumber (largestAckedPacketNumber c)) c in
  InRecovery c1 = false ->
  isCwndLimited priorInFlight c1 = true ->
  InSlowStart c = true ->
  congestionWindow c < maxCongestionWindow c
    < congestionWindow c + maxDatagramSize c ->
  MinInt64 <= congestionWindow c + maxDatagramSize c <= MaxInt64 ->
  exists c',
    OnPacketAcked ackedPacketNumber ackedBytes priorInFlight eventTime c = Some c'
    /\ maxCongestionWindow c' < congestionWindow c'.
Proof.
  intros c1 Hrec Hlim Hss Hw Hmin.
  destruct (OnPacketAcked_slow_start_increment c ackedPacketNumber ackedBytes
              priorInFlight eventTime Hrec Hlim (proj1 Hw) Hss)
    as (c' & E & W & D & _).
  exists c'. split; [exact E|].
  unfold maxCongestionWindow in *. rewrite D, W.
  unfold add64. rewrite wrap64_small by lia. lia.
Qed.

(** A run of such acks, the [i]-th with the window [w + i * d] in flight:
    as long as the window before each ack is below the cap, each ack adds a
    datagram. *)
Lemma run_slow_start_acks (w d : Z) (n : nat) :
  forall (k : nat) (c : cubicSender),
  InvalidPacketNumber < 0 ->
  largestSentAtLastCutback c = InvalidPacketNumber ->
  maxDatagramSize c = d ->
  0 <= w -> 0 < d ->
  congestionWindow c = w + Z.of_nat k * d ->
  w + Z.of_nat (k + n) * d < maxCongestionWindow c + d ->
  maxCongestionWindow c + d <= MaxInt64 ->
  maxCongestionWindow c <= slowStartThreshold c ->
  exists c',
    run (map (fun i => CallOnPacketAcked (Z.of_nat i) d (w + Z.of_nat i * d) 0)
             (seq k n)) c = Some c'
    /\ congestionWindow c' = w + Z.of_nat (k + n) * d
    /\ maxDatagramSize c' = d.
Proof.
  induction n as [|n IH]; intros k c Hinv Hcut Hd Hw Hd0 Hcw Hcap Hmax Hsst.
  - exists c. split; [reflexivity|]. rewrite Nat.add_0_r. split; assumption.
  - assert (Hbelow : congestionWindow c < maxCongestionWindow c) by nia.
    assert (Hrec : InRecovery
                     (set_largestAckedPacketNumber
                        (Z.max (Z.of_nat k) (largestAckedPacketNumber c)) c) = false).
    { unfold InRecovery. fields. rewrite Hcut.
      destruct (Z.eqb_spec (Z.max (Z.of_nat k) (largestAckedPacketNumber c))
                           InvalidPacketNumber) as [E|E]; [reflexivity|].
      cbn [negb andb]. apply Z.leb_gt. lia. }
    assert (Hlim : isCwndLimited (w + Z.of_nat k * d)
                     (set_largestAckedPacketNumber
                        (Z.max (Z.of_nat k) (largestAckedPacketNumber c)) c) = true).
    { unfold isCwndLimited, GetCongestionWindow. fields. rewrite Hcw.
      rewrite Z.leb_refl. reflexivity. }
    assert (Hss : InSlowStart c = true).
    { unfold InSlowStart, GetCongestionWindow. apply Z.ltb_lt. lia. }
    destruct (OnPacketAcked_slow_start_increment c (Z.of_nat k) d
                (w + Z.of_nat k * d) 0 Hrec Hlim Hbelow Hss)
      as (c1 & E & W & D & T & L).
    assert (Hmax1 : maxCongestionWindow c1 = maxCongestionWindow c).
    { unfold maxCongestionWindow. rewrite D. reflexivity. }
    assert (W1 : congestionWindow c1 = w + Z.of_nat (S k) * d).
    { rewrite W, Hcw, Hd. unfold add64.
      rewrite wrap64_small by (unfold MinInt64, MaxInt64 in *; nia). lia. }
    destruct (IH (S k) c1) as (c' & E' & W' & D'); try assumption.
    + rewrite L. exact Hcut.
    + rewrite D. exact Hd.
    + rewrite Hmax1. replace (S k + n)%nat with (k + S n)%nat by lia. exact Hcap.
    + rewrite Hmax1. exact Hmax.
    + rewrite Hmax1, T. exact Hsst.
    + exists c'. cbn [seq map run step]. rewrite E. cbn [bind].
      rewrite E'. replace (k + S n)%nat with (S k + n)%nat by lia.
      split; [reflexivity|]. split; assumption.
Qed.

(** *** The recorder *)

Lemma maybeQlogStateChange_qlog_step (new : CongestionState) (c : cubicSender) :
  lastState (maybeQlogStateChange new c) = fst (qlog_step new (lastState c) (qlogger c))
  /\ qlogger (maybeQlogStateChange new c) = snd (qlog_step new (lastState c) (qlogger c)).
Proof.
  unfold maybeQlogStateChange, qlog_step.
  destruct (qlogger c) as [log|] eqn:Q; [|rewrite Q; split; reflexivity].
  destruct (lastState c) as [old|] eqn:L.
  - destruct (CongestionState_eqb new old); fields; [rewrite Q, L|]; split; reflexivity.
  - fields. split; reflexivity.
Qed.

Lemma CongestionState_eqb_refl (a : CongestionState) : CongestionState_eqb a a = true.
Proof. destruct a; reflexivity. Qed.

Lemma last_cons_default (x : CongestionState) (l : list CongestionState) :
  forall d, last (x :: l) d = last l x.
Proof.
  revert x. induction l as [|a l IH]; intros x d; [reflexivity|].
  change (last (x :: a :: l) d) with (last (a :: l) d).
  rewrite (IH a d), (IH a x). reflexivity.
Qed.

Lemma no_repeat_snoc (l : list CongestionState) (d new : CongestionState) :
  no_repeat (d :: l) = true ->
  CongestionState_eqb new (last l d) = false ->
  no_repeat (d :: l ++ [new]) = true.
Proof.
  revert d. induction l as [|a l IH]; intros d Hn Hne.
  - cbn in *. destruct d, new; cbn in *; congruence.
  - change (no_repeat (d :: a :: l) = true) in Hn.
    cbn [no_repeat] in Hn. apply andb_prop in Hn. destruct Hn as [Hda Hn].
    change ((d :: (a :: l) ++ [new])) with (d :: a :: (l ++ [new])).
    cbn [no_repeat]. rewrite Hda. cbn [andb].
    apply (IH a Hn).
    rewrite last_cons_default in Hne. exact Hne.
Qed.

Lemma recorded_step (q0 : option (list CongestionState)) (new : CongestionState)
    (ls : option CongestionState) (q : option (list CongestionState)) :
  recorded q0 ls q ->
  recorded q0 (fst (qlog_step new ls q)) (snd (qlog_step new ls q)).
Proof.
  unfold recorded, qlog_step. destruct q0 as [log0|].
  - intros (ev & -> & -> & Hn).
    destruct (CongestionState_eqb new (last ev CongestionStateSlowStart)) eqn:E.
    + exists ev. repeat split. exact Hn.
    + exists (ev ++ [new]). cbn [fst snd]. split; [|split].
      * rewrite <- app_assoc. reflexivity.
      * rewrite last_last. reflexivity.
      * apply no_repeat_snoc; assumption.
  - intros [-> ->]. split; reflexivity.
Qed.

Lemma recorded_maybeQlogStateChange (q0 : option (list CongestionState))
    (new : CongestionState) (c : cubicSender) :
  recorded_in q0 c -> recorded_in q0 (maybeQlogStateChange new c).
Proof.
  unfold recorded_in. intros Hr.
  destruct (maybeQlogStateChange_qlog_step new c) as [-> ->].
  apply recorded_step, Hr.
Qed.

Lemma recorded_applyMinRateProtection (q0 : option (list CongestionState))
    (c : cubicSender) :
  recorded_in q0 c -> recorded_in q0 (applyMinRateProtection c).
Proof. rewrite applyMinRateProtection_window. trivial. Qed.

Lemma recorded_step_call (q0 : option (list CongestionState)) (k : call)
    (c c' : cubicSender) :
  recorded_in q0 c -> step k c = Some c' -> recorded_in q0 c'.
Proof.
  intros Hr E. destruct k; cbn [step] in E.
  - injection E as <-. unfold OnPacketSent. cbv zeta.
    destruct (negb _); exact Hr.
  - unfold OnPacketAcked in E. cbv zeta in E.
    destruct (InRecovery _); [injection E as <-; exact Hr|].
    set (c1 := set_largestAckedPacketNumber _ c) in *.
    assert (Hr1 : recorded_in q0 c1) by exact Hr.
    clearbody c1.
    destruct (maybeIncreaseCwnd _ _ _ _ c1) as [c2|] eqn:E2; cbn [bind] in E;
      [|discriminate].
    assert (Hr2 : recorded_in q0 c2).
    { unfold maybeIncreaseCwnd in E2. cbv zeta in E2.
      destruct (negb _).
      { injection E2 as <-.
        apply recorded_maybeQlogStateChange. exact Hr1. }
      destruct (_ <=? _); [injection E2 as <-; exact Hr1|].
      destruct (InSlowStart c1).
      { injection E2 as <-. apply recorded_maybeQlogStateChange. exact Hr1. }
      pose proof (recorded_maybeQlogStateChange q0
                    CongestionStateCongestionAvoidance c1 Hr1) as Hr3.
      set (c3 := maybeQlogStateChange _ c1) in *. clearbody c3.
      destruct (reno c3).
      - fields. destruct (_ =? 0); [discriminate|].
        destruct (_ <=? _); injection E2 as <-; exact Hr3.
      - destruct (Cubic.CongestionWindowAfterAck _ _ _ _ _) as [curve w].
        injection E2 as <-. exact Hr3. }
    destruct (InSlowStart c2); injection E as <-; exact Hr2.
  - injection E as <-. unfold OnCongestionEvent. cbv zeta.
    set (c1 := set_connStats _ c).
    assert (Hr1 : recorded_in q0 c1) by exact Hr.
    clearbody c1.
    destruct (_ <=? _); [exact Hr1|].
    destruct (_ && _); [exact Hr1|].
    set (c2 := maybeQlogStateChange _ _).
    assert (Hr2 : recorded_in q0 c2).
    { apply recorded_maybeQlogStateChange. exact Hr1. }
    clearbody c2.
    destruct (reno c2).
    + apply recorded_applyMinRateProtection. exact Hr2.
    + destruct (Cubic.CongestionWindowAfterPacketLoss _ _) as [curve w].
      apply recorded_applyMinRateProtection. exact Hr2.
  - injection E as <-. unfold OnRetransmissionTimeout. cbv zeta.
    destruct (negb _); [exact Hr|].
    apply recorded_applyMinRateProtection. exact Hr.
  - injection E as <-. exact Hr.
  - unfold MaybeExitSlowStart in E.
    destruct (InSlowStart c); [|injection E as <-; exact Hr].
    destruct (_ =? 0); [discriminate|].
    destruct (hss_ShouldExitSlowStart _ _ _ _) as [[|] h];
      injection E as <-; [|exact Hr].
    apply recorded_maybeQlogStateChange. exact Hr.
  - unfold SetMaxDatagramSize in E. cbv zeta in E.
    destruct (_ <? _); [discriminate|].
    destruct (_ =? _); injection E as <-; exact Hr.
  - injection E as <-. exact Hr.
  - injection E as <-. exact Hr.
Qed.

Lemma recorded_run (q0 : option (list CongestionState)) (ks : list call) :
  forall c c' : cubicSender,
  recorded_in q0 c -> run ks c = Some c' -> recorded_in q0 c'.
Proof.
  induction ks as [|k ks IH]; intros c c' Hr E; cbn [run] in E.
  - injection E as <-. exact Hr.
  - destruct (step k c) as [c1|] eqn:E1; cbn [bind] in E; [|discriminate].
    eapply IH; [|exact E]. eapply recorded_step_call; eassumption.
Qed.

(** The recorder sees state changes only.  Whatever calls follow the
    constructor: with a nil recorder nothing is recorded and [lastState]
    stays unset; with a recorder the sender has appended the slow-start state
    and then a sequence of states of which no two neighbours are equal, and
    [lastState] is the last of them. *)
Theorem recorder_sees_changes_only
    (rtt : RTTStats) (stats : ConnectionStats) (mds : Z) (reno : bool)
    (q0 : option (list CongestionState)) (ks : list call) (c' : cubicSender) :
  run ks (NewCubicSender rtt stats mds reno q0) = Some c' ->
  recorded q0 (lastState c') (qlogger c').
Proof.
  intros E.
  apply (recorded_run q0 ks (NewCubicSender rtt stats mds reno q0) c'); [|exact E].
  unfold recorded_in, recorded. destruct q0 as [log0|]; cbn.
  - exists []. repeat split.
  - split; reflexivity.
Qed.


(** *** Losses and recovery *)

Lemma minCongestionWindow_set_congestionWindow (w : Z) (c : cubicSender) :
  minCongestionWindow (set_congestionWindow w c) = minCongestionWindow c.
Proof. reflexivity. Qed.

Lemma OnCongestionEvent_cut_fields
    (c : cubicSender) (packetNumber lostBytes priorInFlight : Z) :
  largestSentAtLastCutback c < packetNumber ->
  withinTolerance lostBytes (connStats c) = false ->
  let c' := OnCongestionEvent packetNumber lostBytes priorInFlight c in
  connStats c' = count_loss lostBytes (connStats c)
  /\ minCongestionWindow c <= congestionWindow c'
  /\ bdpFloor (SmoothedRTT (rttStats c)) <= congestionWindow c'
  /\ slowStartThreshold c' = congestionWindow c'
  /\ InSlowStart c' = false
  /\ numAckedPackets c' = 0
  /\ lastCutbackExitedSlowstart c' = InSlowStart c
  /\ largestSentAtLastCutback c' = largestSentPacketNumber c.
Proof.
  intros Hpn Hgate c'. unfold c', OnCongestionEvent. cbv zeta. fields.
  cbn [BytesSent BytesLost PacketsLost].
  destruct (Z.leb_spec packetNumber (largestSentAtLastCutback c)); [lia|].
  unfold withinTolerance in Hgate. cbn [count_loss BytesLost] in Hgate.
  rewrite Hgate.
  set (c1 := set_lastCutbackExitedSlowstart _ _).
  set (c2 := maybeQlogStateChange _ c1).
  assert (F2 : reno c2 = reno c /\ congestionWindow c2 = congestionWindow c
               /\ cubic c2 = cubic c /\ rttStats c2 = rttStats c
               /\ maxDatagramSize c2 = maxDatagramSize c
               /\ largestSentPacketNumber c2 = largestSentPacketNumber c
               /\ connStats c2 = count_loss lostBytes (connStats c)
               /\ lastCutbackExitedSlowstart c2 = InSlowStart c).
  { unfold c2. rewrite maybeQlogStateChange_only_qlog. unfold c1. fields.
    repeat split. }
  destruct F2 as (Fr & Fw & Fc & Frtt & Fd & Fs & Fst & Fl).
  assert (G : forall c3 : cubicSender,
            rttStats c3 = rttStats c -> maxDatagramSize c3 = maxDatagramSize c ->
            largestSentPacketNumber c3 = largestSentPacketNumber c ->
            connStats c3 = count_loss lostBytes (connStats c) ->
            lastCutbackExitedSlowstart c3 = InSlowStart c ->
            let c4 := applyMinRateProtection c3 in
            let c5 := set_numAckedPackets 0
                        (set_largestSentAtLastCutback (largestSentPacketNumber c4)
                           (set_slowStartThreshold (congestionWindow c4) c4)) in
            connStats c5 = count_loss lostBytes (connStats c)
            /\ minCongestionWindow c <= congestionWindow c5
            /\ bdpFloor (SmoothedRTT (rttStats c)) <= congestionWindow c5
            /\ slowStartThreshold c5 = congestionWindow c5
            /\ InSlowStart c5 = false
            /\ numAckedPackets c5 = 0
            /\ lastCutbackExitedSlowstart c5 = InSlowStart c
            /\ largestSentAtLastCutback c5 = largestSentPacketNumber c).
  { intros c3 Grtt Gd Gs Gst Gl. cbv zeta.
    rewrite applyMinRateProtection_window. fields.
    unfold InSlowStart at 1, GetCongestionWindow. fields.
    rewrite Z.ltb_irrefl.
    assert (Hmin : minCongestionWindow c3 = minCongestionWindow c).
    { unfold minCongestionWindow. rewrite Gd. reflexivity. }
    rewrite Hmin, Grtt.
    repeat split; try assumption; lia. }
  destruct (reno c2).
  - apply G; fields; assumption.
  - destruct (Cubic.CongestionWindowAfterPacketLoss _ _) as [curve w].
    apply G; fields; assumption.
Qed.

(** What a loss that passes both gates (it is newer than the last cutback,
    and the connection's loss ratio is not within the tolerance) leaves
    behind, in Reno and in CUBIC mode alike: the window is at least the
    minimum window and the 5 Mbps floor, the threshold equals the window (the
    sender is out of slow start), the ack counter is zero and the last
    cutback is the largest packet number sent. *)
Theorem OnCongestionEvent_cut_state
    (c : cubicSender) (packetNumber lostBytes priorInFlight : Z) :
  largestSentAtLastCutback c < packetNumber ->
  withinTolerance lostBytes (connStats c) = false ->
  let c' := OnCongestionEvent packetNumber lostBytes priorInFlight c in
  connStats c' = count_loss lostBytes (connStats c)
  /\ minCongestionWindow c <= congestionWindow c'
  /\ bdpFloor (SmoothedRTT (rttStats c)) <= congestionWindow c'
  /\ slowStartThreshold c' = congestionWindow c'
  /\ InSlowStart c' = false
  /\ numAckedPackets c' = 0
  /\ lastCutbackExitedSlowstart c' = InSlowStart c
  /\ largestSentAtLastCutback c' = largestSentPacketNumber c.
Proof.
  intros Hpn Hgate c'.
  destruct (OnCongestionEvent_cut_fields c packetNumber lostBytes priorInFlight
              Hpn Hgate) as (A1 & A2 & A3 & A4 & A5 & A6 & A7 & A8).
  fold c' in A1, A2, A3, A4, A5, A6, A7, A8.
  split; [exact A1|]. split; [exact A2|]. split; [exact A3|].
  split; [exact A4|]. split; [exact A5|]. split; [exact A6|].
  split; [exact A7 | exact A8].
Qed.

(** One cut per flight: once a loss has cut the window, a loss of any packet
    sent before the cut only advances the two loss counters. *)
Theorem OnCongestionEvent_once_per_flight
    (c : cubicSender) (pn1 lost1 prior1 pn2 lost2 prior2 : Z) :
  largestSentAtLastCutback c < pn1 ->
  withinTolerance lost1 (connStats c) = false ->
  pn2 <= largestSentPacketNumber c ->
  let c1 := OnCongestionEvent pn1 lost1 prior1 c in
  OnCongestionEvent pn2 lost2 prior2 c1
  = set_connStats (count_loss lost2 (connStats c1)) c1.
Proof.
  intros Hpn Hgate Hpn2 c1.
  destruct (OnCongestionEvent_cut_fields c pn1 lost1 prior1 Hpn Hgate)
    as (_ & _ & _ & _ & _ & _ & _ & Hcut).
  fold c1 in Hcut.
  unfold OnCongestionEvent at 1. cbv zeta. fields.
  cbn [BytesSent BytesLost PacketsLost].
  rewrite Hcut.
  destruct (Z.leb_spec pn2 (largestSentPacketNumber c)); [|lia].
  reflexivity.
Qed.

Lemma set_largestAckedPacketNumber_twice (a b : Z) (c : cubicSender) :
  set_largestAckedPacketNumber a (set_largestAckedPacketNumber b c)
  = set_largestAckedPacketNumber a c.
Proof. reflexivity. Qed.

(** In recovery the window is frozen: acknowledgements of packets sent up to
    the last cutback only move [largestAckedPacketNumber]. *)
Theorem acks_in_recovery_keep_window (ks : list call) : forall c : cubicSender,
  largestAckedPacketNumber c <= largestSentAtLastCutback c ->
  forallb (is_ack_upto (largestSentAtLastCutback c)) ks = true ->
  exists la,
    run ks c = Some (set_largestAckedPacketNumber la c)
    /\ largestAckedPacketNumber c <= la <= largestSentAtLastCutback c.
Proof.
  induction ks as [|k ks IH]; intros c Hla Hks.
  - exists (largestAckedPacketNumber c). split; [|lia].
    cbn [run]. destruct c; reflexivity.
  - cbn [forallb] in Hks. apply andb_prop in Hks. destruct Hks as [Hk Hks].
    destruct k; try discriminate. cbn [is_ack_upto] in Hk.
    apply andb_prop in Hk. destruct Hk as [Hv Hu].
    apply Z.ltb_lt in Hv. apply Z.leb_le in Hu.
    cbn [run step]. unfold OnPacketAcked. cbv zeta.
    set (la1 := Z.max ackedPacketNumber (largestAckedPacketNumber c)).
    assert (Hrec : InRecovery (set_largestAckedPacketNumber la1 c) = true).
    { unfold InRecovery. fields.
      destruct (Z.eqb_spec la1 InvalidPacketNumber); [unfold la1 in *; lia|].
      cbn [negb andb]. apply Z.leb_le. unfold la1. lia. }
    rewrite Hrec. cbn [bind].
    destruct (IH (set_largestAckedPacketNumber la1 c)) as (la & E & Hb).
    + fields. unfold la1. lia.
    + fields. exact Hks.
    + exists la. rewrite E. fields. split; [reflexivity|]. unfold la1 in *. lia.
Qed.

(** *** Leaving slow start *)

(** [MaybeExitSlowStart] does nothing outside slow start (the hybrid
    slow-start oracle is not asked); in slow start it panics exactly on a
    zero datagram size, and otherwise asks the oracle: on a yes the threshold
    becomes the window, so slow start is over and asking again does nothing;
    on a no only the oracle's own state has moved. *)
Theorem MaybeExitSlowStart_cases (c : cubicSender) :
  (InSlowStart c = false -> MaybeExitSlowStart c = Some c)
  /\ (MaybeExitSlowStart c = None <-> InSlowStart c = true /\ maxDatagramSize c = 0)
  /\ (InSlowStart c = true -> maxDatagramSize c <> 0 ->
      let '(exit, h) :=
        hss_ShouldExitSlowStart (LatestRTT (rttStats c)) (MinRTT (rttStats c))
          (quot64 (congestionWindow c) (maxDatagramSize c)) (hybridSlowStart c) in
      exists c',
        MaybeExitSlowStart c = Some c'
        /\ hybridSlowStart c' = h
        /\ congestionWindow c' = congestionWindow c
        /\ if exit
           then slowStartThreshold c' = congestionWindow c
                /\ InSlowStart c' = false
                /\ MaybeExitSlowStart c' = Some c'
           else c' = set_hybridSlowStart h c).
Proof.
  unfold MaybeExitSlowStart, GetCongestionWindow. split; [|split].
  - intros ->. reflexivity.
  - destruct (InSlowStart c); [|split; [discriminate | intros [? _]; discriminate]].
    destruct (Z.eqb_spec (maxDatagramSize c) 0) as [Hz|Hz].
    + split; auto.
    + destruct (hss_ShouldExitSlowStart _ _ _ _) as [[|] h];
        (split; [discriminate | intros [_ ?]; contradiction]).
  - intros Hss Hd. rewrite Hss.
    destruct (Z.eqb_spec (maxDatagramSize c) 0) as [?|_]; [contradiction|].
    destruct (hss_ShouldExitSlowStart _ _ _ _) as [[|] h].
    + eexists. split; [reflexivity|].
      rewrite maybeQlogStateChange_only_qlog. fields.
      split; [reflexivity|]. split; [reflexivity|].
      split; [reflexivity|].
      assert (Hout : InSlowStart
                       (set_qlog
                          (lastState
                             (maybeQlogStateChange CongestionStateCongestionAvoidance
                                (set_slowStartThreshold (congestionWindow c)
                                   (set_hybridSlowStart h c))))
                          (qlogger
                             (maybeQlogStateChange CongestionStateCongestionAvoidance
                                (set_slowStartThreshold (congestionWindow c)
                                   (set_hybridSlowStart h c))))
                          (set_slowStartThreshold (congestionWindow c)
                             (set_hybridSlowStart h c))) = false).
      { unfold InSlowStart, GetCongestionWindow. fields. apply Z.ltb_irrefl. }
      split; [exact Hout|]. rewrite Hout. reflexivity.
    + eexists. split; [reflexivity|]. fields. repeat split.
Qed.


(** *** Connection migration *)

Lemma step_keeps_constructor_choices (k : call) (c c' : cubicSender) :
  step k c = Some c' ->
  initialCongestionWindow c' = initialCongestionWindow c
  /\ initialMaxCongestionWindow c' = initialMaxCongestionWindow c
  /\ reno c' = reno c
  /\ Cubic.numConnections (cubic c') = Cubic.numConnections (cubic c).
Proof.
  intros E. destruct k; cbn [step] in E.
  - injection E as <-. unfold OnPacketSent. cbv zeta.
    destruct (negb _); repeat split.
  - unfold OnPacketAcked in E. cbv zeta in E.
    destruct (InRecovery _); [injection E as <-; repeat split|].
    set (c1 := set_largestAckedPacketNumber _ c) in *.
    assert (K1 : initialCongestionWindow c1 = initialCongestionWindow c
                 /\ initialMaxCongestionWindow c1 = initialMaxCongestionWindow c
                 /\ reno c1 = reno c
                 /\ Cubic.numConnections (cubic c1) = Cubic.numConnections (cubic c))
      by (repeat split).
    clearbody c1. destruct K1 as (<- & <- & <- & <-).
    destruct (maybeIncreaseCwnd _ _ _ _ c1) as [c2|] eqn:E2; cbn [bind] in E;
      [|discriminate].
    assert (K2 : initialCongestionWindow c2 = initialCongestionWindow c1
                 /\ initialMaxCongestionWindow c2 = initialMaxCongestionWindow c1
                 /\ reno c2 = reno c1
                 /\ Cubic.numConnections (cubic c2) = Cubic.numConnections (cubic c1)).
    { unfold maybeIncreaseCwnd in E2. cbv zeta in E2.
      destruct (negb _).
      { injection E2 as <-. rewrite maybeQlogStateChange_only_qlog.
        repeat split. }
      destruct (_ <=? _); [injection E2 as <-; repeat split|].
      destruct (InSlowStart c1).
      { injection E2 as <-. rewrite maybeQlogStateChange_only_qlog.
        repeat split. }
      rewrite maybeQlogStateChange_only_qlog in E2. fields.
      destruct (reno c1) eqn:Er.
      - destruct (_ =? 0); [discriminate|].
        destruct (_ <=? _); injection E2 as <-; fields; repeat split; exact Er.
      - pose proof (CubicFacts.CongestionWindowAfterAck_numConnections (cubic c1)
                      ackedBytes (congestionWindow c1) (MinRTT (rttStats c1))
                      eventTime) as Hn.
        destruct (Cubic.CongestionWindowAfterAck _ _ _ _ _) as [curve w].
        injection E2 as <-. fields. repeat split; [exact Er | exact Hn]. }
    destruct K2 as (<- & <- & <- & <-).
    destruct (InSlowStart c2); injection E as <-; repeat split.
  - injection E as <-. unfold OnCongestionEvent. cbv zeta.
    destruct (_ <=? _); [repeat split|].
    destruct (_ && _); [repeat split|].
    rewrite maybeQlogStateChange_only_qlog. fields.
    destruct (reno c) eqn:Er.
    + rewrite applyMinRateProtection_window. fields. repeat split. exact Er.
    + unfold Cubic.CongestionWindowAfterPacketLoss.
      rewrite applyMinRateProtection_window. fields. repeat split. exact Er.
  - injection E as <-. unfold OnRetransmissionTimeout. cbv zeta.
    destruct (negb _); [repeat split|].
    rewrite applyMinRateProtection_window. repeat split.
  - injection E as <-. repeat split.
  - unfold MaybeExitSlowStart in E.
    destruct (InSlowStart c); [|injection E as <-; repeat split].
    destruct (_ =? 0); [discriminate|].
    destruct (hss_ShouldExitSlowStart _ _ _ _) as [[|] h];
      injection E as <-; [|repeat split].
    rewrite maybeQlogStateChange_only_qlog. repeat split.
  - unfold SetMaxDatagramSize in E. cbv zeta in E.
    destruct (_ <? _); [discriminate|].
    destruct (_ =? _); injection E as <-; repeat split.
  - injection E as <-. repeat split.
  - injection E as <-. repeat split.
Qed.

Lemma run_keeps_constructor_choices (ks : list call) : forall c c' : cubicSender,
  run ks c = Some c' ->
  initialCongestionWindow c' = initialCongestionWindow c
  /\ initialMaxCongestionWindow c' = initialMaxCongestionWindow c
  /\ reno c' = reno c
  /\ Cubic.numConnections (cubic c') = Cubic.numConnections (cubic c).
Proof.
  induction ks as [|k ks IH]; intros c c' E; cbn [run] in E.
  - injection E as <-. repeat split.
  - destruct (step k c) as [c1|] eqn:E1; cbn [bind] in E; [|discriminate].
    destruct (step_keeps_constructor_choices k c c1 E1) as (<- & <- & <- & <-).
    apply IH, E.
Qed.



(** *** Growth *)

(** Slow start: while the window before each ack is below the cap, [n] acks
    that each find the window in flight add [n] datagrams; the last of them
    may take the window past the cap by less than a datagram. *)
Theorem slow_start_adds_a_datagram_per_ack (w d : Z) (n : nat) (c : cubicSender) :
  InvalidPacketNumber < 0 ->
  largestSentAtLastCutback c = InvalidPacketNumber ->
  maxDatagramSize c = d ->
  0 < d ->
  congestionWindow c = w ->
  0 <= w ->
  w + Z.of_nat n * d < maxCongestionWindow c + d ->
  maxCongestionWindow c + d <= MaxInt64 ->
  maxCongestionWindow c <= slowStartThreshold c ->
  exists c',
    run (slow_start_acks w d n) c = Some c'
    /\ congestionWindow c' = w + Z.of_nat n * d
    /\ maxDatagramSize c' = d.
Proof.
  intros Hinv Hcut Hd Hd0 Hw Hw0 Hcap Hmax Hsst.
  destruct (run_slow_start_acks w d n 0 c) as (c' & E & W & D);
    try assumption; try lia.
  exists c'. split; [exact E|]. split; [exact W | exact D].
Qed.




(** However an ack is handled, it never takes a window from at or below the
    cap to a datagram or more above it, and it leaves a window at or above
    the cap alone.  With a positive datagram size the call always returns. *)
Theorem OnPacketAcked_overshoots_by_less_than_a_datagram
    (c : cubicSender) (pn ackedBytes priorInFlight eventTime : Z) :
  0 < maxDatagramSize c ->
  MinInt64 <= congestionWindow c ->
  maxCongestionWindow c + maxDatagramSize c <= MaxInt64 ->
  exists c',
    OnPacketAcked pn ackedBytes priorInFlight eventTime c = Some c'
    /\ maxDatagramSize c' = maxDatagramSize c
    /\ congestionWindow c'
       <= Z.max (congestionWindow c) (maxCongestionWindow c + maxDatagramSize c - 1)
    /\ (maxCongestionWindow c <= congestionWindow c ->
        congestionWindow c' = congestionWindow c).
Proof.
  intros Hd Hw Hmax. unfold OnPacketAcked. cbv zeta.
  set (c1 := set_largestAckedPacketNumber _ c).
  destruct (InRecovery c1).
  { exists c1. unfold c1. fields. repeat split. lia. }
  assert (G : exists c2,
            maybeIncreaseCwnd pn ackedBytes priorInFlight eventTime c1 = Some c2
            /\ maxDatagramSize c2 = maxDatagramSize c
            /\ congestionWindow c2
               <= Z.max (congestionWindow c)
                        (maxCongestionWindow c + maxDatagramSize c - 1)
            /\ (maxCongestionWindow c <= congestionWindow c ->
                congestionWindow c2 = congestionWindow c)).
  { unfold maybeIncreaseCwnd.
    destruct (negb _).
    { eexists. split; [reflexivity|]. rewrite maybeQlogStateChange_only_qlog.
      unfold c1. fields. repeat split. lia. }
    change (maxCongestionWindow c1) with (maxCongestionWindow c).
    change (congestionWindow c1) with (congestionWindow c).
    destruct (Z.leb_spec (maxCongestionWindow c) (congestionWindow c)) as [Hge|Hlt].
    { exists c1. unfold c1. fields. repeat split. lia. }
    assert (Hadd : add64 (congestionWindow c) (maxDatagramSize c)
                   = congestionWindow c + maxDatagramSize c).
    { unfold add64. apply wrap64_small. unfold MinInt64, MaxInt64 in *. lia. }
    destruct (InSlowStart c1).
    { eexists. split; [reflexivity|]. rewrite maybeQlogStateChange_only_qlog.
      unfold c1. fields. rewrite Hadd. repeat split; lia. }
    cbv zeta. rewrite maybeQlogStateChange_only_qlog.
    set (ls := lastState _). set (q := qlogger _). unfold c1. fields.
    destruct (reno c).
    - destruct (Z.eqb_spec (maxDatagramSize c) 0); [lia|].
      destruct (_ <=? _); eexists; (split; [reflexivity|]); fields;
        rewrite ?Hadd; repeat split; lia.
    - destruct (Cubic.CongestionWindowAfterAck _ _ _ _ _) as [curve w].
      eexists. split; [reflexivity|]. fields.
      change (maxCongestionWindow (set_qlog ls q (set_largestAckedPacketNumber
                (Z.max pn (largestAckedPacketNumber c)) c)))
        with (maxCongestionWindow c).
      repeat split; lia. }
  destruct G as (c2 & E2 & D2 & W2 & K2). rewrite E2. cbn [bind].
  destruct (InSlowStart c2); eexists; (split; [reflexivity|]); fields;
    repeat split; assumption.
Qed.

(** *** The floor on whole milliseconds *)

(** [applyMinRateProtection] with a smoothed RTT of [ms] whole milliseconds,
    up to one second: the window becomes the largest of what it was, two
    datagrams, and exactly [5 * 1024 * 1024 * ms / 8000] bytes, the float
    computation losing nothing.  Without an RTT sample the third is the
    100 ms value, 65536 bytes. *)
Theorem applyMinRateProtection_whole_milliseconds (c : cubicSender) (ms : Z) :
  0 <= maxDatagramSize c ->
  2 * maxDatagramSize c <= MaxInt64 ->
  (1 <= ms <= 1000 -> SmoothedRTT (rttStats c) = ms * Millisecond ->
   congestionWindow (applyMinRateProtection c)
   = Z.max (congestionWindow c)
           (Z.max (2 * maxDatagramSize c) (5 * 1024 * 1024 * ms / (8 * 1000))))
  /\ (SmoothedRTT (rttStats c) <= 0 ->
      congestionWindow (applyMinRateProtection c)
      = Z.max (congestionWindow c) (Z.max (2 * maxDatagramSize c) 65536)).
Proof.
  intros Hd H2d.
  assert (Hmin : minCongestionWindow c = 2 * maxDatagramSize c).
  { unfold minCongestionWindow, minCongestionWindowPackets, mul64.
    rewrite wrap64_small by (unfold MinInt64, MaxInt64 in *; lia). lia. }
  rewrite applyMinRateProtection_window. fields. rewrite Hmin. split.
  - intros Hms ->. rewrite bdpFloor_whole_milliseconds by exact Hms. reflexivity.
  - intros Hrtt.
    assert (Hf : bdpFloor (SmoothedRTT (rttStats c)) = 65536).
    { unfold bdpFloor. cbv zeta.
      destruct (Z.leb_spec (SmoothedRTT (rttStats c)) 0); [|lia].
      vm_compute. reflexivity. }
    rewrite Hf. reflexivity.
Qed.


(** *** The multiplicative decrease *)

(** On a sender reached from the constructor, a loss that passes both gates
    multiplies the window by 0.7, in float64 by [renoBeta] in Reno mode and in
    float32 by the curve's [beta] otherwise: the product, truncated, is
    non-negative and at most 71% of the window, and the new window is the
    largest of it, the minimum window and the 5 Mbps floor.  So a cut never
    raises a window that was at or above both floors. *)
Theorem OnCongestionEvent_multiplicative_decrease
    (rtt : RTTStats) (stats : ConnectionStats) (mds0 : Z) (reno0 : bool)
    (q0 : option (list CongestionState)) (ks : list call)
    (c : cubicSender) (packetNumber lostBytes priorInFlight : Z) :
  run ks (NewCubicSender rtt stats mds0 reno0 q0) = Some c ->
  largestSentAtLastCutback c < packetNumber ->
  withinTolerance lostBytes (connStats c) = false ->
  0 <= congestionWindow c <= 2 ^ 62 ->
  let c' := OnCongestionEvent packetNumber lostBytes priorInFlight c in
  let r :=
    if reno0
    then float_to_int64 (f64_mul (f64_of_Z (congestionWindow c)) renoBeta)
    else float_to_int64
           (f32_mul (f32_of_Z (congestionWindow c)) (Cubic.beta (cubic c))) in
  0 <= r
  /\ 100 * r <= 71 * congestionWindow c
  /\ congestionWindow c'
     = Z.max r (Z.max (minCongestionWindow c) (bdpFloor (SmoothedRTT (rttStats c))))
  /\ congestionWindow c'
     <= Z.max (congestionWindow c)
              (Z.max (minCongestionWindow c) (bdpFloor (SmoothedRTT (rttStats c)))).
Proof.
  intros E Hpn Hgate Hw c' r.
  destruct (run_keeps_constructor_choices ks _ c E) as (_ & _ & Hreno & Hn).
  cbn in Hreno, Hn.
  assert (Hr : 0 <= r /\ r * 100 <= congestionWindow c * 71).
  { unfold r. destruct reno0.
    - assert (Hbeta : renoBeta = S754_finite false 6305039478318694 (-53))
        by (vm_compute; reflexivity).
      rewrite Hbeta.
      apply (scale_to_int64_bound (congestionWindow c) 6305039478318694 (-53) 71 100);
        try lia.
      apply Qle_bool_imp_le. vm_compute. reflexivity.
    - destruct (CubicFacts.CongestionWindowAfterPacketLoss_products
                  (cubic c) (congestionWindow c) Hn Hw) as [[R0 R1] _].
      lia. }
  destruct Hr as [Hr0 Hr1].
  assert (Hc' : congestionWindow c'
                = Z.max r (Z.max (minCongestionWindow c)
                                 (bdpFloor (SmoothedRTT (rttStats c))))).
  { unfold c', OnCongestionEvent. cbv zeta. fields.
    cbn [BytesSent BytesLost PacketsLost].
    destruct (Z.leb_spec packetNumber (largestSentAtLastCutback c)); [lia|].
    unfold withinTolerance in Hgate. cbn [count_loss BytesLost] in Hgate.
    rewrite Hgate.
    rewrite maybeQlogStateChange_only_qlog. fields. rewrite Hreno. unfold r.
    destruct reno0.
    - rewrite applyMinRateProtection_window. fields. reflexivity.
    - unfold Cubic.CongestionWindowAfterPacketLoss.
      rewrite applyMinRateProtection_window. fields. reflexivity. }
  split; [exact Hr0|]. split; [lia|]. split; [exact Hc'|]. rewrite Hc'. lia.
Qed.

End Generic.

(** *** Concrete runs

    quic-go's protocol constants, the trace collaborators and [cbrt_floor]. *)

#[local] Existing Instance quic_go_protocol.
#[local] Existing Instance cbrt_floor.
#[local] Existing Instance hss_trace.
#[local] Existing Instance pacer_trace.

(** The witness of C10: a sender at its minimum window (after
    a retransmission timeout on a 1 ms path) is rescaled from [2 * 1280] to
    [2 * 1452]. *)
Lemma SetMaxDatagramSize_rescales_min_window_witness :
  let c := OnRetransmissionTimeout true (fresh (rtt_of (1 * Millisecond)) no_stats 1280) in
  (maxDatagramSize c <= 1452 /\ 0 <= maxDatagramSize c /\ 2 * 1452 <= MaxInt64)
  /\ congestionWindow c = 2 * 1280
  /\ minCongestionWindow c = 2 * maxDatagramSize c
  /\ SetMaxDatagramSize 1452 c
     = Some (set_pacer (pacer_SetMaxDatagramSize 1452 (pacer c))
               (set_congestionWindow
                  (if congestionWindow c =? 2 * maxDatagramSize c
                   then 2 * 1452 else congestionWindow c)
                  (set_maxDatagramSize 1452 c))).
Proof.
  assert (H1 : maxDatagramSize
                 (OnRetransmissionTimeout true
                    (fresh (rtt_of (1 * Millisecond)) no_stats 1280)) <= 1452)
    by (vm_compute; discriminate).
  assert (H2 : 0 <= maxDatagramSize
                 (OnRetransmissionTimeout true
                    (fresh (rtt_of (1 * Millisecond)) no_stats 1280)))
    by (vm_compute; discriminate).
  assert (H3 : 2 * 1452 <= MaxInt64) by (vm_compute; discriminate).
  split; [auto|]. split; [vm_compute; reflexivity|].
  exact (SetMaxDatagramSize_rescales_min_window _ 1452 H1 H2 H3).
Defined.


(** The witness of C1: the scenario satisfies the three hypotheses. *)
Lemma OnCongestionEvent_below_tolerance_witness :
  let c := scenario_below in
  (0 <= BytesSent (connStats c)
   /\ largestSentAtLastCutback c < 100
   /\ lossRatioBelowTolerance (BytesLost (count_loss 1200 (connStats c)))
                              (BytesSent (connStats c)) = true)
  /\ let c' := OnCongestionEvent 100 1200 40000 c in
     c' = set_connStats (count_loss 1200 (connStats c)) c
     /\ congestionWindow c' = congestionWindow c
     /\ slowStartThreshold c' = slowStartThreshold c
     /\ largestSentAtLastCutback c' = largestSentAtLastCutback c
     /\ numAckedPackets c' = numAckedPackets c.
Proof.
  assert (H1 : 0 <= BytesSent (connStats scenario_below))
    by (vm_compute; discriminate).
  assert (H2 : largestSentAtLastCutback scenario_below < 100)
    by (vm_compute; reflexivity).
  assert (H3 : lossRatioBelowTolerance
                 (BytesLost (count_loss 1200 (connStats scenario_below)))
                 (BytesSent (connStats scenario_below)) = true)
    by (vm_compute; reflexivity).
  split; [auto|].
  exact (OnCongestionEvent_below_tolerance scenario_below 100 1200 40000 H1 H2 H3).
Defined.

(** The counterexample to C1 as stated: in the same scenario the call is not
    a no-op on the connection state.  The loss ratio with the event
    counted in is below the tolerance and the window is untouched, yet
    [PacketsLost] went from 0 to 1 and [BytesLost] from 50,000 to 51,200. *)
Lemma OnCongestionEvent_below_tolerance_counts_the_loss :
  let c := scenario_below in
  let c' := OnCongestionEvent 100 1200 40000 c in
  largestSentAtLastCutback c < 100
  /\ lossRatioBelowTolerance (BytesLost (connStats c')) (BytesSent (connStats c')) = true
  /\ congestionWindow c' = congestionWindow c
  /\ qlogger c' = qlogger c
  /\ connStats c = mkStats 1000000 50000 0
  /\ connStats c' = mkStats 1000000 51200 1.
Proof. repeat split. Qed.

(** The scenario above the tolerance (200,000 of a million bytes lost): the
    window is cut by the CUBIC rule and then raised to the 64 KiB floor,
    the threshold follows, and "recovery" is reported. *)
Lemma OnCongestionEvent_above_tolerance_scenario :
  let c := fresh_logged no_rtt (mkStats 1000000 200000 0) 1200 in
  let c' := OnCongestionEvent 100 1200 40000 c in
  congestionWindow c = 38400
  /\ congestionWindow c' = 65536
  /\ slowStartThreshold c' = 65536
  /\ qlogger c' = Some [CongestionStateSlowStart; CongestionStateRecovery].
Proof. repeat split. Qed.

(** The witness of C9: the first ack of a fresh sender, nothing in flight. *)
Lemma OnPacketAcked_nothing_in_flight_witness :
  let c := fresh_logged no_rtt no_stats 1200 in
  (InRecovery (set_largestAckedPacketNumber
                 (Z.max 1 (largestAckedPacketNumber c)) c) = false
   /\ 0 <= maxDatagramSize c
   /\ 3 * maxDatagramSize c < congestionWindow c
   /\ congestionWindow c <= MaxInt64)
  /\ exists c',
       OnPacketAcked 1 1200 0 0 c = Some c'
       /\ cubic c' = Cubic.OnApplicationLimited (cubic c)
       /\ Cubic.epoch (cubic c') = 0
       /\ congestionWindow c' = congestionWindow c
       /\ lastState c'
          = lastState (maybeQlogStateChange CongestionStateApplicationLimited c)
       /\ qlogger c'
          = qlogger (maybeQlogStateChange CongestionStateApplicationLimited c)
       /\ (forall log, qlogger c = Some log ->
           lastState c' = Some CongestionStateApplicationLimited).
Proof.
  assert (H1 : InRecovery (set_largestAckedPacketNumber
                 (Z.max 1 (largestAckedPacketNumber (fresh_logged no_rtt no_stats 1200)))
                 (fresh_logged no_rtt no_stats 1200)) = false)
    by (vm_compute; reflexivity).
  assert (H2 : 0 <= maxDatagramSize (fresh_logged no_rtt no_stats 1200))
    by (vm_compute; discriminate).
  assert (H3 : 3 * maxDatagramSize (fresh_logged no_rtt no_stats 1200)
               < congestionWindow (fresh_logged no_rtt no_stats 1200))
    by (vm_compute; reflexivity).
  assert (H4 : congestionWindow (fresh_logged no_rtt no_stats 1200) <= MaxInt64)
    by (vm_compute; discriminate).
  split; [auto|].
  exact (OnPacketAcked_nothing_in_flight _ 1 1200 0 H1 H2 H3 H4).
Defined.

(** The first way C9 fails as stated.  After a retransmission timeout on a
    1 ms path the window is the minimum, two datagrams; the sender is not in
    recovery.  An ack with [priorInFlight = 0] finds the whole window within
    the three-packet burst headroom, so the sender counts as cwnd-limited:
    the window grows by a datagram, and slow start, not application-limited,
    is what the recorder holds. *)
Lemma OnPacketAcked_nothing_in_flight_grows_min_window :
  let c := OnRetransmissionTimeout true
             (fresh_logged (rtt_of (1 * Millisecond)) no_stats 1200) in
  InRecovery c = false
  /\ congestionWindow c = 2400
  /\ isCwndLimited 0 c = true
  /\ option_map congestionWindow (OnPacketAcked 1 1200 0 0 c) = Some 3600
  /\ option_map lastState (OnPacketAcked 1 1200 0 0 c)
     = Some (Some CongestionStateSlowStart).
Proof. repeat split. Qed.

(** A second way C9 fails as stated: the recovery test runs after the acked
    packet number is recorded.  Packet 10 is sent, packet 3 is lost before
    anything was acked (the sender is then not in recovery: no ack yet), and
    the ack of packet 5 with nothing in flight puts it in recovery and
    returns at once; "recovery" stays the last reported state. *)
Lemma OnPacketAcked_enters_recovery_first :
  let c := OnCongestionEvent 3 1200 12000
             (OnPacketSent 0 0 10 1200 true (fresh_logged no_rtt no_stats 1200)) in
  InRecovery c = false
  /\ 3 * maxDatagramSize c < congestionWindow c
  /\ option_map InRecovery (OnPacketAcked 5 1200 0 0 c) = Some true
  /\ option_map lastState (OnPacketAcked 5 1200 0 0 c)
     = Some (Some CongestionStateRecovery).
Proof. repeat split. Qed.

(** The counterexample to C9 as stated, both ways: a sender that is not in
    recovery before the call and is acked with nothing in flight, whose
    window grows; and one whose ack is dropped by the recovery test, with
    nothing reported as application-limited. *)
Lemma OnPacketAcked_nothing_in_flight_not_application_limited :
  (let c := OnRetransmissionTimeout true
              (fresh_logged (rtt_of (1 * Millisecond)) no_stats 1200) in
   InRecovery c = false
   /\ congestionWindow c = 2400
   /\ option_map congestionWindow (OnPacketAcked 1 1200 0 0 c) = Some 3600
   /\ option_map lastState (OnPacketAcked 1 1200 0 0 c)
      = Some (Some CongestionStateSlowStart))
  /\ (let c := OnCongestionEvent 3 1200 12000
                 (OnPacketSent 0 0 10 1200 true (fresh_logged no_rtt no_stats 1200)) in
      InRecovery c = false
      /\ option_map InRecovery (OnPacketAcked 5 1200 0 0 c) = Some true
      /\ option_map lastState (OnPacketAcked 5 1200 0 0 c)
         = Some (Some CongestionStateRecovery)).
Proof.
  split.
  - destruct OnPacketAcked_nothing_in_flight_grows_min_window as (A & B & _ & C & D).
    repeat split; assumption.
  - destruct OnPacketAcked_enters_recovery_first as (A & _ & B & C).
    repeat split; assumption.
Qed.

(** The slow-start ramp of the specification: 1200-byte datagrams, a window
    of 32 of them, 32 acks each with the window in flight; every ack adds a
    datagram and the window ends at 64 datagrams. *)
Lemma slow_start_ramp_scenario :
  option_map congestionWindow
    (run (slow_start_acks (32 * 1200) 1200 32)
         (fresh (rtt_of (50 * Millisecond)) no_stats 1200))
  = Some (64 * 1200).
Proof. vm_compute. reflexivity. Qed.

(** The witness of C4's theorem, on a 4 ms path: a retransmission timeout
    collapses the window of a sender with 1280-byte datagrams to the 5 Mbps
    floor, 2621 bytes, just above the minimum [2 * 1280]; raising the
    datagram size to 1452 then leaves it below [2 * 1452]. *)
Lemma SetMaxDatagramSize_leaves_window_below_min_witness :
  let c := OnRetransmissionTimeout true (fresh (rtt_of (4 * Millisecond)) no_stats 1280) in
  (0 <= maxDatagramSize c /\ 2 * 1452 <= MaxInt64
   /\ 2 * maxDatagramSize c < congestionWindow c < 2 * 1452)
  /\ congestionWindow c = 2621
  /\ exists c',
       SetMaxDatagramSize 1452 c = Some c'
       /\ maxDatagramSize c' = 1452
       /\ congestionWindow c' = congestionWindow c
       /\ congestionWindow c' < 2 * maxDatagramSize c'.
Proof.
  assert (H1 : 0 <= maxDatagramSize
                 (OnRetransmissionTimeout true
                    (fresh (rtt_of (4 * Millisecond)) no_stats 1280)))
    by (vm_compute; discriminate).
  assert (H2 : 2 * 1452 <= MaxInt64) by (vm_compute; discriminate).
  assert (H3 : 2 * maxDatagramSize
                 (OnRetransmissionTimeout true
                    (fresh (rtt_of (4 * Millisecond)) no_stats 1280))
               < congestionWindow
                   (OnRetransmissionTimeout true
                      (fresh (rtt_of (4 * Millisecond)) no_stats 1280))
               < 2 * 1452)
    by (split; vm_compute; reflexivity).
  split; [auto|]. split; [vm_compute; reflexivity|].
  exact (SetMaxDatagramSize_leaves_window_below_min _ 1452 H1 H2 H3).
Defined.

(** The same through [OnConnectionMigration], which restores the window of
    the first datagram size: once the size has grown sixteenfold the restored
    window is below the minimum. *)
Lemma OnConnectionMigration_restores_old_window :
  let c := fresh no_rtt no_stats 1200 in
  option_map (fun c' => (congestionWindow (OnConnectionMigration c'),
                         2 * maxDatagramSize (OnConnectionMigration c')))
             (SetMaxDatagramSize 20000 c)
  = Some (38400, 40000).
Proof. reflexivity. Qed.

(** C3 fails on the code, in two ways.
    - Slow start adds a whole datagram whenever the window is below the cap.
      A sender built for 1252-byte datagrams whose path then allows 1452
      bytes reaches, after 9973 acks in slow start, a window of 14,520,860
      bytes; the cap is [1452 * 10000 = 14,520,000].
    - [applyMinRateProtection] raises the window to the 5 Mbps floor without
      looking at the cap: with a smoothed RTT of 30 s one loss takes a fresh
      sender with 1200-byte datagrams to 19,660,800 bytes, over the cap of
      12,000,000. *)
Theorem congestionWindow_exceeds_cap :
  option_map (fun c => (congestionWindow c, maxCongestionWindow c))
    (run (CallSetMaxDatagramSize 1452 :: slow_start_acks 40064 1452 (Z.to_nat 9973))
         (fresh no_rtt no_stats 1252))
  = Some (14520860, 14520000)
  /\ (let c := OnCongestionEvent 1 1200 38400
                 (fresh (rtt_of (30 * Second)) no_stats 1200) in
      (congestionWindow c, maxCongestionWindow c) = (19660800, 12000000)).
Proof.
  split; [|vm_compute; reflexivity].
  pose (c0 := match SetMaxDatagramSize 1452 (fresh no_rtt no_stats 1252) with
              | Some c => c
              | None => fresh no_rtt no_stats 1252
              end).
  assert (E0 : step (CallSetMaxDatagramSize 1452) (fresh no_rtt no_stats 1252)
               = Some c0) by (vm_compute; reflexivity).
  assert (S : exists c',
             run (map (fun i => CallOnPacketAcked (Z.of_nat i) 1452
                                  (40064 + Z.of_nat i * 1452) 0)
                      (seq 0 (Z.to_nat 9973))) c0 = Some c'
             /\ congestionWindow c' = 40064 + Z.of_nat (0 + Z.to_nat 9973) * 1452
             /\ maxDatagramSize c' = 1452).
  { apply run_slow_start_acks; try (vm_compute; reflexivity); discriminate. }
  destruct S as (c' & E & W & D).
  unfold slow_start_acks. cbn [run]. rewrite E0. cbn [bind]. rewrite E.
  cbn [option_map]. unfold maxCongestionWindow. rewrite W, D.
  vm_compute. reflexivity.
Qed.

(** *** Witnesses of the general statements *)

(** Two losses on a sender with an empty recorder: the second finds the
    recovery state already reported. *)
Lemma recorder_sees_changes_only_witness :
  let ks := [CallOnCongestionEvent 1 1200 38400; CallOnCongestionEvent 2 1200 38400] in
  let c' := OnCongestionEvent 2 1200 38400
              (OnCongestionEvent 1 1200 38400 (fresh_logged no_rtt no_stats 1200)) in
  run ks (NewCubicSender no_rtt no_stats 1200 false (Some [])) = Some c'
  /\ qlogger c' = Some [CongestionStateSlowStart; CongestionStateRecovery]
  /\ recorded (Some []) (lastState c') (qlogger c').
Proof.
  intros ks c'.
  assert (E : run ks (NewCubicSender no_rtt no_stats 1200 false (Some [])) = Some c')
    by reflexivity.
  split; [exact E|]. split; [reflexivity|].
  exact (recorder_sees_changes_only no_rtt no_stats 1200 false (Some []) ks c' E).
Defined.

(** A loss of packet 3 after packet 10 was sent, on a 1 ms path with nothing
    counted as sent. *)
Lemma OnCongestionEvent_cut_state_witness :
  let c := OnPacketSent 0 0 10 1200 true (fresh (rtt_of (1 * Millisecond)) no_stats 1200) in
  let c' := OnCongestionEvent 3 1200 12000 c in
  (largestSentAtLastCutback c < 3 /\ withinTolerance 1200 (connStats c) = false)
  /\ congestionWindow c' = 26880
  /\ connStats c' = count_loss 1200 (connStats c)
  /\ minCongestionWindow c <= congestionWindow c'
  /\ bdpFloor (SmoothedRTT (rttStats c)) <= congestionWindow c'
  /\ slowStartThreshold c' = congestionWindow c'
  /\ InSlowStart c' = false
  /\ numAckedPackets c' = 0
  /\ lastCutbackExitedSlowstart c' = InSlowStart c
  /\ largestSentAtLastCutback c' = largestSentPacketNumber c.
Proof.
  intros c c'.
  assert (H1 : largestSentAtLastCutback c < 3) by reflexivity.
  assert (H2 : withinTolerance 1200 (connStats c) = false) by reflexivity.
  split; [auto|]. split; [vm_compute; reflexivity|].
  exact (OnCongestionEvent_cut_state c 3 1200 12000 H1 H2).
Defined.

(** The same loss, followed by the loss of packet 7. *)
Lemma OnCongestionEvent_once_per_flight_witness :
  let c := OnPacketSent 0 0 10 1200 true (fresh (rtt_of (1 * Millisecond)) no_stats 1200) in
  let c1 := OnCongestionEvent 3 1200 12000 c in
  (largestSentAtLastCutback c < 3
   /\ withinTolerance 1200 (connStats c) = false
   /\ 7 <= largestSentPacketNumber c)
  /\ OnCongestionEvent 7 1200 10800 c1
     = set_connStats (count_loss 1200 (connStats c1)) c1.
Proof.
  intros c c1.
  assert (H1 : largestSentAtLastCutback c < 3) by reflexivity.
  assert (H2 : withinTolerance 1200 (connStats c) = false) by reflexivity.
  assert (H3 : 7 <= largestSentPacketNumber c) by (vm_compute; discriminate).
  split; [auto|].
  exact (OnCongestionEvent_once_per_flight c 3 1200 12000 7 1200 10800 H1 H2 H3).
Defined.

(** After that cut, the acks of packets 4 and 5. *)
Lemma acks_in_recovery_keep_window_witness :
  let c := OnCongestionEvent 3 1200 12000
             (OnPacketSent 0 0 10 1200 true
                (fresh (rtt_of (1 * Millisecond)) no_stats 1200)) in
  let ks := [CallOnPacketAcked 4 1200 10800 0; CallOnPacketAcked 5 1200 9600 0] in
  (largestAckedPacketNumber c <= largestSentAtLastCutback c
   /\ forallb (is_ack_upto (largestSentAtLastCutback c)) ks = true)
  /\ exists la,
       run ks c = Some (set_largestAckedPacketNumber la c)
       /\ largestAckedPacketNumber c <= la <= largestSentAtLastCutback c.
Proof.
  intros c ks.
  assert (H1 : largestAckedPacketNumber c <= largestSentAtLastCutback c)
    by (vm_compute; discriminate).
  assert (H2 : forallb (is_ack_upto (largestSentAtLastCutback c)) ks = true)
    by reflexivity.
  split; [auto|].
  exact (acks_in_recovery_keep_window ks c H1 H2).
Defined.


(** The slow-start ramp from 32 to 64 datagrams of 1200 bytes. *)
Lemma slow_start_adds_a_datagram_per_ack_witness :
  let c := fresh (rtt_of (50 * Millisecond)) no_stats 1200 in
  (InvalidPacketNumber < 0
   /\ largestSentAtLastCutback c = InvalidPacketNumber
   /\ maxDatagramSize c = 1200
   /\ 0 < 1200
   /\ congestionWindow c = 38400
   /\ 0 <= 38400
   /\ 38400 + Z.of_nat 32 * 1200 < maxCongestionWindow c + 1200
   /\ maxCongestionWindow c + 1200 <= MaxInt64
   /\ maxCongestionWindow c <= slowStartThreshold c)
  /\ exists c',
       run (slow_start_acks 38400 1200 32) c = Some c'
       /\ congestionWindow c' = 38400 + Z.of_nat 32 * 1200
       /\ maxDatagramSize c' = 1200.
Proof.
  intros c.
  assert (H1 : InvalidPacketNumber < 0) by reflexivity.
  assert (H2 : largestSentAtLastCutback c = InvalidPacketNumber) by reflexivity.
  assert (H3 : maxDatagramSize c = 1200) by reflexivity.
  assert (H4 : 0 < 1200) by reflexivity.
  assert (H5 : congestionWindow c = 38400) by reflexivity.
  assert (H6 : 0 <= 38400) by discriminate.
  assert (H7 : 38400 + Z.of_nat 32 * 1200 < maxCongestionWindow c + 1200)
    by reflexivity.
  assert (H8 : maxCongestionWindow c + 1200 <= MaxInt64) by (vm_compute; discriminate).
  assert (H9 : maxCongestionWindow c <= slowStartThreshold c)
    by (vm_compute; discriminate).
  split; [repeat split; assumption|].
  exact (slow_start_adds_a_datagram_per_ack 38400 1200 32 c H1 H2 H3 H4 H5 H6 H7 H8 H9).
Defined.


(** An ack on a fresh sender with the window in flight. *)
Lemma OnPacketAcked_overshoots_by_less_than_a_datagram_witness :
  let c := fresh no_rtt no_stats 1200 in
  (0 < maxDatagramSize c
   /\ MinInt64 <= congestionWindow c
   /\ maxCongestionWindow c + maxDatagramSize c <= MaxInt64)
  /\ exists c',
       OnPacketAcked 1 1200 38400 0 c = Some c'
       /\ maxDatagramSize c' = maxDatagramSize c
       /\ congestionWindow c'
          <= Z.max (congestionWindow c) (maxCongestionWindow c + maxDatagramSize c - 1)
       /\ (maxCongestionWindow c <= congestionWindow c ->
           congestionWindow c' = congestionWindow c).
Proof.
  intros c.
  assert (H1 : 0 < maxDatagramSize c) by reflexivity.
  assert (H2 : MinInt64 <= congestionWindow c) by (vm_compute; discriminate).
  assert (H3 : maxCongestionWindow c + maxDatagramSize c <= MaxInt64)
    by (vm_compute; discriminate).
  split; [auto|].
  exact (OnPacketAcked_overshoots_by_less_than_a_datagram c 1 1200 38400 0 H1 H2 H3).
Defined.

(** A window of two datagrams on a 50 ms path is raised to 32768 bytes. *)
Lemma applyMinRateProtection_whole_milliseconds_witness :
  let c := set_congestionWindow 2400 (fresh (rtt_of (50 * Millisecond)) no_stats 1200) in
  (0 <= maxDatagramSize c
   /\ 2 * maxDatagramSize c <= MaxInt64
   /\ 1 <= 50 <= 1000
   /\ SmoothedRTT (rttStats c) = 50 * Millisecond)
  /\ congestionWindow (applyMinRateProtection c)
     = Z.max (congestionWindow c)
             (Z.max (2 * maxDatagramSize c) (5 * 1024 * 1024 * 50 / (8 * 1000)))
  /\ 5 * 1024 * 1024 * 50 / (8 * 1000) = 32768.
Proof.
  intros c.
  assert (H1 : 0 <= maxDatagramSize c) by (vm_compute; discriminate).
  assert (H2 : 2 * maxDatagramSize c <= MaxInt64) by (vm_compute; discriminate).
  assert (H3 : 1 <= 50 <= 1000) by lia.
  assert (H4 : SmoothedRTT (rttStats c) = 50 * Millisecond) by reflexivity.
  split; [auto|]. split; [|reflexivity].
  exact (proj1 (applyMinRateProtection_whole_milliseconds c 50 H1 H2) H3 H4).
Defined.

(** A loss on a fresh CUBIC sender on a 1 ms path: 38400 bytes become
    26880. *)
Lemma OnCongestionEvent_multiplicative_decrease_witness :
  let c := fresh (rtt_of (1 * Millisecond)) no_stats 1200 in
  let c' := OnCongestionEvent 1 1200 38400 c in
  (run [] (NewCubicSender (rtt_of (1 * Millisecond)) no_stats 1200 false None) = Some c
   /\ largestSentAtLastCutback c < 1
   /\ withinTolerance 1200 (connStats c) = false
   /\ 0 <= congestionWindow c <= 2 ^ 62)
  /\ congestionWindow c' = 26880
  /\ congestionWindow c'
     <= Z.max (congestionWindow c)
              (Z.max (minCongestionWindow c) (bdpFloor (SmoothedRTT (rttStats c)))).
Proof.
  intros c c'.
  assert (H1 : run [] (NewCubicSender (rtt_of (1 * Millisecond)) no_stats 1200 false None)
               = Some c) by reflexivity.
  assert (H2 : largestSentAtLastCutback c < 1) by reflexivity.
  assert (H3 : withinTolerance 1200 (connStats c) = false) by reflexivity.
  assert (H4 : 0 <= congestionWindow c <= 2 ^ 62) by (split; vm_compute; discriminate).
  split; [auto|]. split; [vm_compute; reflexivity|].
  exact (proj2 (proj2 (proj2
           (OnCongestionEvent_multiplicative_decrease (rtt_of (1 * Millisecond))
              no_stats 1200 false None [] c 1 1200 38400 H1 H2 H3 H4)))).
Defined.

(** A million bytes sent, 50,000 lost, 1200 more lost now: 5.12%. *)
Lemma OnCongestionEvent_below_one_tenth_witness :
  let c := scenario_below in
  (0 < BytesSent (connStats c) <= 2 ^ 52
   /\ 10 * BytesLost (count_loss 1200 (connStats c)) < BytesSent (connStats c)
   /\ largestSentAtLastCutback c < 1)
  /\ OnCongestionEvent 1 1200 38400 c
     = set_connStats (count_loss 1200 (connStats c)) c.
Proof.
  intros c.
  assert (H1 : 0 < BytesSent (connStats c) <= 2 ^ 52)
    by (split; [reflexivity | vm_compute; discriminate]).
  assert (H2 : 10 * BytesLost (count_loss 1200 (connStats c)) < BytesSent (connStats c))
    by reflexivity.
  assert (H3 : largestSentAtLastCutback c < 1) by reflexivity.
  split; [auto|].
  exact (OnCongestionEvent_below_one_tenth c 1 1200 38400 H1 H2 H3).
Defined.

End CubicSenderFacts.
